(** * CADIMA PDF finder: a shallow embedding of [cadima_pdf_finder.py]

    The program reads a spreadsheet of references, extracts DOIs and
    optional fallback links, asks two lookup services for a PDF URL,
    downloads and validates the file and writes one report row per
    processed reference.

    Conventions of the embedding.
    - A Python [str] and a Python [bytes] are both a Rocq [string]; a
      character is a code point below 256 (Rocq's [ascii]).
    - A Python value coming out of a JSON payload is a [pyval];
      Python's [None] is [PNone].
    - The network and the faults of the file system are an oracle
      ([Env]); the program threads a [World] (files on disk and the
      list of HTTP requests issued so far) through a state and
      exception monad.
    - Logging, the progress bar, the console output and the writing of
      [results.csv] are left out: the report is the list [results] that
      [main] builds. *)

From Stdlib Require Import String Ascii ZArith List Lia Bool DecimalString Sorted.
From stdpp Require Import base gmap strings list.

Set Warnings "-abstract-large-number".

Local Open Scope Z_scope.
Local Open Scope nat_scope.

(** ** Python string operations *)

Module Py.

Definition code (c : ascii) : nat := nat_of_ascii c.

(** [str.isspace] on the code points below 256. *)
Definition isspace (c : ascii) : bool :=
  let n := code c in
  ((9 <=? n) && (n <=? 13)) || ((28 <=? n) && (n <=? 32))
  || (n =? 133) || (n =? 160).

(** [\d] of the [re] module on the code points below 256. *)
Definition isdigit (c : ascii) : bool :=
  let n := code c in (48 <=? n) && (n <=? 57).

Definition newline : ascii := ascii_of_nat 10.

(** [str.lower] on one code point below 256. *)
Definition lower_char (c : ascii) : ascii :=
  let n := code c in
  if ((65 <=? n) && (n <=? 90))
     || ((192 <=? n) && (n <=? 222) && negb (n =? 215))
  then ascii_of_nat (n + 32) else c.

Fixpoint lower (s : string) : string :=
  match s with
  | EmptyString => EmptyString
  | String c s' => String (lower_char c) (lower s')
  end.

Fixpoint lstrip (s : string) : string :=
  match s with
  | EmptyString => EmptyString
  | String c s' => if isspace c then lstrip s' else s
  end.

Fixpoint rstrip (s : string) : string :=
  match s with
  | EmptyString => EmptyString
  | String c s' =>
      match rstrip s' with
      | EmptyString => if isspace c then EmptyString else String c EmptyString
      | r => String c r
      end
  end.

(** [s.strip()] *)
Definition strip (s : string) : string := rstrip (lstrip s).

(** [s.startswith(p)] *)
Fixpoint startswith (p s : string) : bool :=
  match p, s with
  | EmptyString, _ => true
  | String a p', String b s' => Ascii.eqb a b && startswith p' s'
  | String _ _, EmptyString => false
  end.

(** [sub in s] *)
Fixpoint contains (sub s : string) : bool :=
  startswith sub s ||
  match s with
  | EmptyString => false
  | String _ s' => contains sub s'
  end.

(** [s.endswith(p)] *)
Fixpoint endswith (p s : string) : bool :=
  String.eqb p s ||
  match s with
  | EmptyString => false
  | String _ s' => endswith p s'
  end.

(** [s.replace(a, b)] for one-character [a] and [b]. *)
Fixpoint replace_char (a b : ascii) (s : string) : string :=
  match s with
  | EmptyString => EmptyString
  | String c s' => String (if Ascii.eqb c a then b else c) (replace_char a b s')
  end.

(** Truth value of a string: [bool(s)]. *)
Definition nonempty (s : string) : bool :=
  match s with EmptyString => false | _ => true end.

(** [f"{n}"] for an [int]. *)
Definition str_of_int (n : Z) : string := NilZero.string_of_int (Z.to_int n).

(** [s[:k]] *)
Fixpoint take (k : nat) (s : string) : string :=
  match k, s with
  | S k', String c s' => String c (take k' s')
  | _, _ => EmptyString
  end.

(** [s[k:]] *)
Fixpoint drop (k : nat) (s : string) : string :=
  match k, s with
  | S k', String _ s' => drop k' s'
  | _, _ => s
  end.

(** [chr(n)] for a hexadecimal digit value [n < 16], upper case. *)
Definition hex_digit (n : nat) : ascii :=
  if n <? 10 then ascii_of_nat (48 + n) else ascii_of_nat (55 + n).

Definition percent (n : nat) : string :=
  String "%" (String (hex_digit (n / 16)) (String (hex_digit (n mod 16)) EmptyString)).

(** Characters [urllib.parse.quote] leaves alone with its default
    [safe='/']: letters, digits and [_.-~/]. *)
Definition quote_safe (c : ascii) : bool :=
  let n := code c in
  ((48 <=? n) && (n <=? 57)) || ((65 <=? n) && (n <=? 90))
  || ((97 <=? n) && (n <=? 122))
  || (n =? 95) || (n =? 46) || (n =? 45) || (n =? 126) || (n =? 47).

(** [urllib.parse.quote(s)]: the UTF-8 bytes of [s], percent-encoded
    unless safe. *)
Fixpoint quote (s : string) : string :=
  match s with
  | EmptyString => EmptyString
  | String c s' =>
      let n := code c in
      (if quote_safe c then String c EmptyString
       else if n <? 128 then percent n
       else percent (192 + n / 64) +:+ percent (128 + n mod 64))
      +:+ quote s'
  end.

(** Longest prefix of [s] whose characters satisfy [p], and the rest. *)
Fixpoint span (p : ascii -> bool) (s : string) : string * string :=
  match s with
  | EmptyString => (EmptyString, EmptyString)
  | String c s' =>
      if p c then let '(a, b) := span p s' in (String c a, b)
      else (EmptyString, s)
  end.

End Py.

(** ** The DOI pattern

    [regex] is the fragment of regular expressions the program uses, with
    the usual declarative meaning ([matches]).  [doi_pattern] is the
    pattern of line 35, [(10\.\d{4,}[/.].+)]. *)

Inductive regex : Type :=
| Lit (c : ascii)              (* an escaped or ordinary character *)
| AnyChar                      (* [.] : any character but a newline *)
| Digit                        (* [\d] *)
| OneOf (cs : list ascii)      (* [[...]] *)
| Cat (r1 r2 : regex)
| AtLeast (n : nat) (r : regex)  (* [r{n,}]; [r+] is [r{1,}] *).

Inductive matches : regex -> string -> Prop :=
| MLit c : matches (Lit c) (String c EmptyString)
| MAny c : c <> Py.newline -> matches AnyChar (String c EmptyString)
| MDigit c : Py.isdigit c = true -> matches Digit (String c EmptyString)
| MOneOf cs c : In c cs -> matches (OneOf cs) (String c EmptyString)
| MCat r1 r2 s1 s2 :
    matches r1 s1 -> matches r2 s2 -> matches (Cat r1 r2) (s1 +:+ s2)
| MStop r : matches (AtLeast 0 r) EmptyString
| MMore r s1 s2 :
    matches r s1 -> matches (AtLeast 0 r) s2 -> matches (AtLeast 0 r) (s1 +:+ s2)
| MStep n r s1 s2 :
    matches r s1 -> matches (AtLeast n r) s2 ->
    matches (AtLeast (S n) r) (s1 +:+ s2).

Definition doi_pattern : regex :=
  Cat (Lit "1") (Cat (Lit "0") (Cat (Lit ".")
    (Cat (AtLeast 4 Digit) (Cat (OneOf ["/"; "."]%char) (AtLeast 1 AnyChar))))).

(** The pattern as the specification prints it, [10.\d{4,}[/.].+]: the
    third character is an unescaped [.]. *)
Definition printed_pattern : regex :=
  Cat (Lit "1") (Cat (Lit "0") (Cat AnyChar
    (Cat (AtLeast 4 Digit) (Cat (OneOf ["/"; "."]%char) (AtLeast 1 AnyChar))))).

(** [t] contains a substring matching [r]. *)
Definition contains_match (r : regex) (t : string) : Prop :=
  exists pre d post, t = pre +:+ d +:+ post /\ matches r d.

(** [d] is the match a leftmost, greedy search reports in [t]: no match
    starts earlier, and no match at the same place is longer. *)
Definition leading_match (r : regex) (t d : string) : Prop :=
  exists pre post,
    t = pre +:+ d +:+ post /\ matches r d /\
    forall pre' d' post',
      t = pre' +:+ d' +:+ post' -> matches r d' ->
      String.length pre <= String.length pre' /\
      (String.length pre' = String.length pre ->
       String.length d' <= String.length d).

(** *** The matcher

    [match_here] is an anchored match of [doi_pattern]: the literal
    [10.], the whole run of digits (a shorter run would be followed by a
    digit, never by [/] or [.]), one of [/] and [.], and then every
    character up to the end of the line, at least one. *)
Definition is_sep (c : ascii) : bool := Ascii.eqb c "/" || Ascii.eqb c ".".

Definition not_newline (c : ascii) : bool := negb (Ascii.eqb c Py.newline).

Definition match_here (s : string) : option string :=
  match s with
  | String "1" (String "0" (String "." r)) =>
      let '(ds, r1) := Py.span Py.isdigit r in
      if 4 <=? String.length ds then
        match r1 with
        | String c r2 =>
            if is_sep c then
              let '(body, _) := Py.span not_newline r2 in
              if Py.nonempty body
              then Some ("10." +:+ ds +:+ String c body)
              else None
            else None
        | EmptyString => None
        end
      else None
  | _ => None
  end.

(** [re.search(pattern, s)], group 1: the first position with a match. *)
Fixpoint re_search (s : string) : option string :=
  match match_here s with
  | Some d => Some d
  | None =>
      match s with
      | EmptyString => None
      | String _ s' => re_search s'
      end
  end.


(** ** The spreadsheet *)

(** A cell is a Python [str], or any other object (a number, a date,
    [NaN], [None]) of which the program only ever takes [str(...)]. *)
Inductive Cell : Type :=
| CStr (s : string)
| CObj (repr : string).

(** A [pandas.DataFrame] with its default [RangeIndex]: the column
    labels in order, the number of rows, and the cell of every column
    and row.  The labels are strings; a sheet with another kind of
    label ahead of the DOI column makes line 23 raise and is read as
    an unreadable file is (see [read_references]). *)
Record DataFrame : Type := {
  columns : list string;
  nrows : nat;
  cell : string -> nat -> Cell
}.

(** [df[name]] *)
Definition column (df : DataFrame) (name : string) : list Cell :=
  map (cell df name) (seq 0 (nrows df)).

(** [.astype(str)] on one cell. *)
Definition astype_str (c : Cell) : string :=
  match c with CStr s => s | CObj r => r end.

(** [.str.extract(pattern, expand=False).dropna()]: the matches with
    the index labels they keep. *)
Fixpoint extract_dropna (i : nat) (col : list string) : list (nat * string) :=
  match col with
  | [] => []
  | t :: rest =>
      match re_search t with
      | Some d => (i, d) :: extract_dropna (S i) rest
      | None => extract_dropna (S i) rest
      end
  end.

(** Lines 32-36. *)
Definition clean_dois (col : list Cell) : list (nat * string) :=
  extract_dropna 0 (map (fun c => Py.strip (astype_str c)) col).

(** Lines 42-50, the body of the loop over the link cells. *)
Definition clean_link (c : Cell) : option string :=
  match c with
  | CObj _ => None
  | CStr link =>
      let link := Py.strip link in
      if Py.nonempty link
         && (Py.startswith "http://" link || Py.startswith "https://" link)
      then Some link else None
  end.

Definition link_column : string := "Link to PDF".

(** Line 39: [df.get('Link to PDF', pd.Series([None]*len(df)))]. *)
Definition link_to_pdf (df : DataFrame) : list Cell :=
  if decide (link_column ∈ columns df) then column df link_column
  else replicate (nrows df) (CObj "None").

(** Line 23: the first column whose label contains [doi]. *)
Definition find_doi_column (df : DataFrame) : option string :=
  List.find (fun col => Py.contains "doi" (Py.lower (Py.strip col))) (columns df).

(** [read_references], lines 16-59.  [None] stands for a file on which
    [pd.read_excel] or the search of line 23 raises; the handler of
    line 57 then returns empty lists.  The returned frame, of which
    [main] only prints the length, is left out.  An index label missing
    from [link_to_pdf] raises as well, with the same result. *)
Definition read_references (xlsx : option DataFrame)
  : list string * list (option string) :=
  match xlsx with
  | None => ([], [])
  | Some df =>
      match find_doi_column df with
      | None => ([], [])
      | Some doi_column =>
          if negb (Py.nonempty doi_column) then ([], []) else
          let dois := clean_dois (column df doi_column) in
          match mapM (fun i => link_to_pdf df !! i) (dois.*1) with
          | None => ([], [])
          | Some cells => (dois.*2, map clean_link cells)
          end
      end
  end.

(** ** Python values *)

#[warnings="-register-all"]
Inductive pyval : Type :=
| PNone
| PBool (b : bool)
| PInt (n : Z)
| PFloat (is_zero : bool)   (* a float; only its truth value is used *)
| PStr (s : string)
| PList (l : list pyval)
| PDict (d : list (string * pyval)).

(** [bool(v)] *)
Definition truthy (v : pyval) : bool :=
  match v with
  | PNone => false
  | PBool b => b
  | PInt n => negb (n =? 0)%Z
  | PFloat z => negb z
  | PStr s => Py.nonempty s
  | PList l => match l with [] => false | _ => true end
  | PDict d => match d with [] => false | _ => true end
  end.

(** [a or b], with [b] already evaluated. *)
Definition py_or (a b : pyval) : pyval := if truthy a then a else b.

Fixpoint assoc (k : string) (d : list (string * pyval)) : option pyval :=
  match d with
  | [] => None
  | (k', v) :: d' => if String.eqb k k' then Some v else assoc k d'
  end.

(** ** Exceptions *)

Inductive result (A : Type) : Type :=
| Ok (a : A)
| Raise (e : string).
Arguments Ok {A} a.
Arguments Raise {A} e.

(** [v.get(k, default)]: only a [dict] has the method. *)
Definition py_get (v : pyval) (k : string) (default : pyval) : result pyval :=
  match v with
  | PDict d => Ok (match assoc k d with Some x => x | None => default end)
  | _ => Raise "AttributeError"
  end.

(** [iter(v)]: the elements of a list, the keys of a dict, the
    characters of a string. *)
Definition py_iter (v : pyval) : result (list pyval) :=
  match v with
  | PList l => Ok l
  | PDict d => Ok (map (fun kv => PStr kv.1) d)
  | PStr s => Ok (map (fun c => PStr (String c EmptyString)) (list_ascii_of_string s))
  | _ => Raise "TypeError"
  end.

(** ** The world *)

(** The arguments of one [requests.get].  The URL is the Python value
    the program passes; for a value that is not a string the library
    raises, which is left to the environment. *)
Record Request : Type := {
  r_url : pyval;
  r_params : list (string * string);
  r_headers : list (string * string);
  r_timeout : option Z;          (* seconds; [None] when not passed *)
  r_stream : bool
}.

(** What the program reads of a response: [status_code],
    [headers.get('content-type')], [content] and [json()] ([None] when
    the body is not JSON and [json()] raises). *)
Record Response : Type := {
  status_code : Z;
  content_type : option string;
  content : string;
  json : option pyval
}.

(** One HTTP exchange: [requests.get] and the reading of the body right
    after it (lines 67-69, 100-102, 129-131) either raise or give a
    response. *)
Inductive HttpResult : Type :=
| Raised (e : string)
| Responded (r : Response).

Inductive WriteFault : Type :=
| OpenFails (e : string)                  (* [open(path, 'wb')] raises *)
| WriteFailsAfter (k : nat) (e : string)  (* a [write] raises, [k] bytes are on disk *).

(** Faults of the file system during one call of [download_pdf].
    [os.path.getsize], [os.path.exists] and [os.remove] of a closed file
    that exists are taken not to raise; for [os.remove], [RemoveFaults]
    below lifts this. *)
Record DiskFaults : Type := {
  write_fault : option WriteFault;
  sig_read_fault : bool;     (* [open(path, 'rb')] or [read(4)] raises *)
  remove_open_fault : bool   (* [os.remove] of the file still open raises *)
}.

(** Faults of [os.remove] of a closed file that exists, during one call
    of [download_pdf]: the text of the exception that the call of line
    156 and the call of line 174 raise, [None] where the call succeeds. *)
Record RemoveFaults : Type := {
  remove_small_fault : option string;     (* line 156, inside the [try] *)
  remove_handler_fault : option string    (* line 174, inside the handler *)
}.

Definition no_remove_faults : RemoveFaults :=
  {| remove_small_fault := None; remove_handler_fault := None |}.

(** The environment: the answer to the [n]-th request of the run, and
    the faults during the download that starts with the [n]-th request. *)
Record Env : Type := {
  net : nat -> Request -> HttpResult;
  disk : nat -> DiskFaults
}.

Record World : Type := {
  files : gmap string string;   (* path to content *)
  trace : list Request          (* requests issued, oldest first *)
}.

(** ** State and exception monad *)

Definition M (A : Type) : Type := World -> result A * World.

Definition ret {A} (a : A) : M A := fun w => (Ok a, w).

Definition raise {A} (e : string) : M A := fun w => (Raise e, w).

Definition bind {A B} (m : M A) (k : A -> M B) : M B :=
  fun w =>
    match m w with
    | (Ok a, w') => k a w'
    | (Raise e, w') => (Raise e, w')
    end.

(** [try: m except Exception as e: h(str(e))] *)
Definition try_except {A} (m : M A) (h : string -> M A) : M A :=
  fun w =>
    match m w with
    | (Ok a, w') => (Ok a, w')
    | (Raise e, w') => h e w'
    end.

Definition lift {A} (r : result A) : M A := fun w => (r, w).

Notation "x <~ m ;; k" := (bind m (fun x => k))
  (at level 100, m at next level, right associativity).

(** [for x in xs: body(x)], collecting what the bodies return. *)
Fixpoint for_each {A B} (xs : list A) (body : A -> M B) : M (list B) :=
  match xs with
  | [] => ret []
  | x :: xs' => b <~ body x ;; bs <~ for_each xs' body ;; ret (b :: bs)
  end.

(** ** The program *)

Section Program.

Variable env : Env.

(** [requests.get(...)]: the request is recorded and the environment
    answers. *)
Definition requests_get (rq : Request) : M Response :=
  fun w =>
    let w' := {| files := files w; trace := trace w ++ [rq] |} in
    match net env (length (trace w)) rq with
    | Raised e => (Raise e, w')
    | Responded r => (Ok r, w')
    end.

(** [response.json()] *)
Definition response_json (r : Response) : M pyval :=
  match json r with
  | Some v => ret v
  | None => raise "JSONDecodeError"
  end.

Definition user_agent : string * string :=
  ("User-Agent", "Mozilla/5.0 (Windows NT 10.0; Win64; x64) AppleWebKit/537.36").

(** *** Service A, lines 61-95 *)

Definition unpaywall_request (doi : string) : Request :=
  {| r_url := PStr ("https://api.unpaywall.org/v2/" +:+ Py.quote doi);
     r_params := [("email", "james.thomas.rouse@gmail.com")];
     r_headers := [user_agent];
     r_timeout := Some 10%Z;
     r_stream := false |}.

(** [loc.get('url_for_pdf') or loc.get('url')] *)
Definition location_url (loc : pyval) : result pyval :=
  match py_get loc "url_for_pdf" PNone with
  | Raise e => Raise e
  | Ok a =>
      if truthy a then Ok a else py_get loc "url" PNone
  end.

(** Lines 79-82: [next((... for loc in locs if ...), None)]. *)
Fixpoint first_location (locs : list pyval) : result pyval :=
  match locs with
  | [] => Ok PNone
  | loc :: rest =>
      match location_url loc with
      | Raise e => Raise e
      | Ok u => if truthy u then location_url loc else first_location rest
      end
  end.

(** Lines 76-83. *)
Definition unpaywall_pdf_url (data : pyval) : result pyval :=
  match py_get data "best_oa_location" (PDict []) with
  | Raise e => Raise e
  | Ok best =>
      match py_get best "url_for_pdf" PNone with
      | Raise e => Raise e
      | Ok a =>
          if truthy a then Ok a else
          match py_get best "url" PNone with
          | Raise e => Raise e
          | Ok b =>
              if truthy b then Ok b else
              match py_get data "oa_locations" (PList []) with
              | Raise e => Raise e
              | Ok locs =>
                  match py_iter locs with
                  | Raise e => Raise e
                  | Ok l => first_location l
                  end
              end
          end
      end
  end.

Definition search_unpaywall (doi : string) : M pyval :=
  try_except
    (response <~ requests_get (unpaywall_request doi) ;;
     if (status_code response =? 200)%Z then
       data <~ response_json response ;;
       is_oa <~ lift (py_get data "is_oa" PNone) ;;
       if truthy is_oa then
         pdf_url <~ lift (unpaywall_pdf_url data) ;;
         if truthy pdf_url then ret pdf_url else ret PNone
       else ret PNone
     else ret PNone)
    (fun _ => ret PNone).

(** *** Service B, lines 97-120 *)

Definition pubmed_request (doi : string) : Request :=
  {| r_url := PStr ("https://api.ncbi.nlm.nih.gov/lit/ctxp/v1/pmc/" +:+ doi);
     r_params := [];
     r_headers := [];
     r_timeout := None;
     r_stream := false |}.

Definition search_pubmed (doi : string) : M pyval :=
  try_except
    (response <~ requests_get (pubmed_request doi) ;;
     if (status_code response =? 200)%Z then
       data <~ response_json response ;;
       a <~ lift (py_get data "full_text_url" PNone) ;;
       pdf_url <~ (if truthy a then ret a
                   else lift (py_get data "pdf_url" PNone)) ;;
       if truthy pdf_url then
         match pdf_url with
         | PStr u =>
             if negb (Py.endswith ".pdf" (Py.lower u))
             then ret (PStr (u +:+ ".pdf")) else ret (PStr u)
         | _ => raise "AttributeError"
         end
       else ret PNone
     else ret PNone)
    (fun _ => ret PNone).

(** *** The file system *)

(** [os.path.exists(path)] *)
Definition path_exists (path : string) : M bool :=
  fun w => (Ok (bool_decide (is_Some (files w !! path))), w).

(** [os.remove(path)] of a closed file, taken to succeed whenever the
    file exists.  The call itself can still raise then (a directory at
    the path, a directory that cannot be written): [os_remove_or] is the
    call with that exception, and [download_pdf_rm] the fetcher built on
    it. *)
Definition os_remove (path : string) : M unit :=
  fun w =>
    match files w !! path with
    | Some _ => (Ok tt, {| files := delete path (files w); trace := trace w |})
    | None => (Raise "FileNotFoundError", w)
    end.

(** [os.path.getsize(path)] *)
Definition getsize (path : string) : M nat :=
  fun w =>
    match files w !! path with
    | Some data => (Ok (String.length data), w)
    | None => (Raise "FileNotFoundError", w)
    end.

(** [with open(path, 'wb') as f: for chunk in chunks: f.write(chunk)] *)
Definition write_file (path : string) (chunks : list string)
    (fault : option WriteFault) : M unit :=
  fun w =>
    let data := String.concat "" chunks in
    match fault with
    | None =>
        (Ok tt, {| files := <[path := data]> (files w); trace := trace w |})
    | Some (OpenFails e) => (Raise e, w)
    | Some (WriteFailsAfter k e) =>
        (Raise e, {| files := <[path := Py.take k data]> (files w);
                     trace := trace w |})
    end.

(** [with open(path, 'rb') as f: f.read(n)] *)
Definition read_head (path : string) (n : nat) (fault : bool) : M string :=
  fun w =>
    if fault then (Raise "OSError", w) else
    match files w !! path with
    | Some data => (Ok (Py.take n data), w)
    | None => (Raise "FileNotFoundError", w)
    end.

(** [os.remove(path)] inside the [with] block that still holds the
    file open. *)
Definition os_remove_open (path : string) (fault : bool) : M unit :=
  if fault then raise "PermissionError" else os_remove path.

(** [os.remove(path)] of a closed file that raises [e] under the fault
    [Some e]. *)
Definition os_remove_or (fault : option string) (path : string) : M unit :=
  match fault with
  | Some e => raise e
  | None => os_remove path
  end.

(** [response.iter_content(chunk_size=n)] once the body is in memory:
    slices of [n] bytes. *)
Fixpoint slices (fuel n : nat) (s : string) : list string :=
  match fuel with
  | 0 => []
  | S fuel' =>
      match s with
      | EmptyString => []
      | _ => Py.take n s :: slices fuel' n (Py.drop n s)
      end
  end.

Definition iter_content (chunk_size : nat) (body : string) : list string :=
  slices (String.length body) chunk_size body.

(** *** Fetcher and validator, lines 122-178 *)

Definition download_request (url : pyval) : Request :=
  {| r_url := url;
     r_params := [];
     r_headers := [user_agent;
                   ("Accept", "application/pdf,application/octet-stream,*/*")];
     r_timeout := Some 30%Z;
     r_stream := true |}.

Definition allowed_types : list string :=
  ["pdf"; "octet-stream"; "binary"; "download"].

Definition msg_unknown_type : string :=
  "Successfully downloaded (unknown content type)".
Definition msg_success : string := "Successfully downloaded".
Definition msg_sig_failed : string :=
  "Successfully downloaded (signature check failed)".
Definition msg_too_small : string := "Downloaded file too small".
Definition msg_not_pdf : string := "Not a valid PDF file".

(** Lines 161-169: the signature check and its bare [except]. *)
Definition check_signature (save_path : string) (flt : DiskFaults)
  : M (bool * string) :=
  try_except
    (header <~ read_head save_path 4 (sig_read_fault flt) ;;
     if Py.startswith "%PDF" header then ret (true, msg_success)
     else
       _ <~ os_remove_open save_path (remove_open_fault flt) ;;
       ret (false, msg_not_pdf))
    (fun _ => ret (true, msg_sig_failed)).

(** Lines 129-171: the body of the outer [try]. *)
Definition download_body (url : pyval) (save_path : string) (flt : DiskFaults)
  : M (bool * string) :=
  response <~ requests_get (download_request url) ;;
  if (status_code response =? 200)%Z then
    let content_type :=
      Py.lower (match content_type response with Some t => t | None => "" end) in
    if negb (existsb (fun t => Py.contains t content_type) allowed_types) then
      if 1000 <? String.length (content response) then
        _ <~ write_file save_path [content response] (write_fault flt) ;;
        ret (true, msg_unknown_type)
      else
        ret (false, "Not a PDF file (content-type: " +:+ content_type +:+ ")")
    else
      _ <~ write_file save_path
             (filter (fun chunk => Py.nonempty chunk = true)
                     (iter_content 8192 (content response)))
             (write_fault flt) ;;
      file_size <~ getsize save_path ;;
      if file_size <? 1000 then
        _ <~ os_remove save_path ;;
        ret (false, msg_too_small)
      else check_signature save_path flt
  else
    ret (false, "HTTP error: " +:+ Py.str_of_int (status_code response)).

Definition download_pdf (url : pyval) (save_path : string) : M (bool * string) :=
  fun w =>
    let flt := disk env (length (trace w)) in
    try_except
      (download_body url save_path flt)
      (fun e =>
         ex <~ path_exists save_path ;;
         if (ex : bool) then
           _ <~ os_remove save_path ;;
           ret (false, "Download error: " +:+ e)
         else ret (false, "Download error: " +:+ e))
      w.

(** *** The fetcher when [os.remove] can fail

    [download_pdf] above takes its two calls of [os.remove] of a closed
    file not to raise.  The call of line 156 is inside the outer [try];
    the call of line 174 is inside the exception handler and covered by
    no [try], so what it raises leaves the function.  [download_pdf_rm]
    is [download_pdf] with both calls allowed to raise. *)

(** Lines 129-171: the body of the outer [try]. *)
Definition download_body_rm (rf : RemoveFaults) (url : pyval)
    (save_path : string) (flt : DiskFaults) : M (bool * string) :=
  response <~ requests_get (download_request url) ;;
  if (status_code response =? 200)%Z then
    let content_type :=
      Py.lower (match content_type response with Some t => t | None => "" end) in
    if negb (existsb (fun t => Py.contains t content_type) allowed_types) then
      if 1000 <? String.length (content response) then
        _ <~ write_file save_path [content response] (write_fault flt) ;;
        ret (true, msg_unknown_type)
      else
        ret (false, "Not a PDF file (content-type: " +:+ content_type +:+ ")")
    else
      _ <~ write_file save_path
             (filter (fun chunk => Py.nonempty chunk = true)
                     (iter_content 8192 (content response)))
             (write_fault flt) ;;
      file_size <~ getsize save_path ;;
      if file_size <? 1000 then
        _ <~ os_remove_or (remove_small_fault rf) save_path ;;
        ret (false, msg_too_small)
      else check_signature save_path flt
  else
    ret (false, "HTTP error: " +:+ Py.str_of_int (status_code response)).

(** Lines 172-178: the exception handler. *)
Definition cleanup (rf : RemoveFaults) (save_path : string) (e : string)
  : M (bool * string) :=
  ex <~ path_exists save_path ;;
  if (ex : bool) then
    _ <~ os_remove_or (remove_handler_fault rf) save_path ;;
    ret (false, "Download error: " +:+ e)
  else ret (false, "Download error: " +:+ e).

(** Lines 122-178; [rmf n] are the faults of [os.remove] during the
    download that starts with the [n]-th request. *)
Definition download_pdf_rm (rmf : nat -> RemoveFaults) (url : pyval)
    (save_path : string) : M (bool * string) :=
  fun w =>
    let flt := disk env (length (trace w)) in
    let rf := rmf (length (trace w)) in
    try_except (download_body_rm rf url save_path flt) (cleanup rf save_path) w.

(** *** Orchestrator, lines 180-277 *)

(** One element of [results], a row of [results.csv]. *)
Record Row : Type := {
  DOI : string;
  PDF_Found : bool;
  Source : option string;
  Download_Status : string;
  File_Path : option string;
  Error_Message : option string
}.

Definition test_doi : string := "10.1038/s41586-020-2649-2".

(** Lines 193-198: the reference lists after the test DOI is added. *)
Definition add_test_doi (refs : list string * list (option string))
  : list string * list (option string) :=
  let '(references, pdf_links) := refs in
  if decide (test_doi ∈ references) then (references, pdf_links)
  else (references ++ [test_doi], pdf_links ++ [None]).

(** Lines 209-216. *)
Definition initial_row (doi : string) : Row :=
  {| DOI := doi;
     PDF_Found := false;
     Source := None;
     Download_Status := "Not attempted";
     File_Path := None;
     Error_Message := None |}.

(** [result['Source'] = source; result['PDF_Found'] = True] *)
Definition set_found (source : string) (result : Row) : Row :=
  {| DOI := DOI result;
     PDF_Found := true;
     Source := Some source;
     Download_Status := Download_Status result;
     File_Path := File_Path result;
     Error_Message := Error_Message result |}.

(** The three assignments of lines 244-246, or the two of lines 253-254
    (which leave [File_Path] as it is). *)
Definition set_outcome (status : string) (path : option (option string))
    (message : option string) (result : Row) : Row :=
  {| DOI := DOI result;
     PDF_Found := PDF_Found result;
     Source := Source result;
     Download_Status := status;
     File_Path := match path with Some p => p | None => File_Path result end;
     Error_Message := message |}.

(** Lines 219-232: the loop over the lookup services, with its [break].
    It returns the last [pdf_url] and the updated [result]. *)
Fixpoint try_sources (sources : list (string * (string -> M pyval)))
    (doi : string) (pdf_url : pyval) (result : Row) : M (pyval * Row) :=
  match sources with
  | [] => ret (pdf_url, result)
  | (source, search_func) :: rest =>
      pdf_url <~ search_func doi ;;
      if truthy pdf_url then ret (pdf_url, set_found source result)
      else try_sources rest doi pdf_url result
  end.

Definition sources : list (string * (string -> M pyval)) :=
  [("Unpaywall", search_unpaywall); ("PubMed", search_pubmed)].

(** Truth value of an element of [pdf_links]. *)
Definition link_truthy (pdf_link : option string) : bool :=
  match pdf_link with Some l => Py.nonempty l | None => false end.

Definition link_value (pdf_link : option string) : pyval :=
  match pdf_link with Some l => PStr l | None => PNone end.

(** Lines 218-239: the URL to download, if any, and the updated
    [result]. *)
Definition resolve (doi : string) (pdf_link : option string) (result : Row)
  : M (pyval * Row) :=
  found <~ try_sources sources doi PNone result ;;
  let '(pdf_url, result) := found in
  if negb (truthy pdf_url) && link_truthy pdf_link then
    ret (link_value pdf_link, set_found "Excel Link" result)
  else ret (pdf_url, result).

(** Line 242. *)
Definition filename (doi : string) : string :=
  "pdfs/" +:+ Py.replace_char "/" "_" doi +:+ ".pdf".

(** Lines 243-246. *)
Definition record_download (doi : string) (outcome : bool * string)
    (result : Row) : Row :=
  let '(success, message) := outcome in
  set_outcome (if success then "Success" else "Failed")
              (Some (if success then Some (filename doi) else None))
              (if success then None else Some message)
              result.

(** Lines 208-257: the body of the loop over the references. *)
Definition process_reference (ref : string * option string) : M Row :=
  let '(doi, pdf_link) := ref in
  r <~ resolve doi pdf_link (initial_row doi) ;;
  let '(pdf_url, result) := r in
  if truthy pdf_url then
    outcome <~ download_pdf pdf_url (filename doi) ;;
    ret (record_download doi outcome result)
  else
    ret (set_outcome "Failed" None (Some "No PDF URL found") result).

(** [main]: the rows of the report, in the order they are appended. *)
Definition main (xlsx : option DataFrame) : M (list Row) :=
  let '(references, pdf_links) := add_test_doi (read_references xlsx) in
  for_each (zip references pdf_links) process_reference.

End Program.

(** * Properties *)

(** ** Strings *)

#[local] Arguments String.append !s1 s2 : simpl nomatch.

Section Strings.

Lemma str_app_nil_r (s : string) : s +:+ "" = s.
Proof. induction s as [|c s IH]; simpl; [reflexivity | by rewrite IH]. Qed.

Lemma str_app_assoc (a b c : string) : (a +:+ b) +:+ c = a +:+ b +:+ c.
Proof. induction a as [|x a IH]; simpl; [reflexivity | by rewrite IH]. Qed.

Lemma str_length_app (a b : string) :
  String.length (a +:+ b) = String.length a + String.length b.
Proof. induction a as [|x a IH]; simpl; [reflexivity | by rewrite IH]. Qed.

Lemma str_length_zero (s : string) : String.length s = 0 -> s = "".
Proof. by destruct s. Qed.

(** Every character of [s] satisfies [p]. *)
Fixpoint all_chars (p : ascii -> bool) (s : string) : bool :=
  match s with
  | EmptyString => true
  | String c s' => p c && all_chars p s'
  end.

Lemma span_spec p s a b :
  Py.span p s = (a, b) ->
  s = a +:+ b /\ all_chars p a = true /\
  match b with EmptyString => True | String c _ => p c = false end.
Proof.
  revert a b. induction s as [|c s IH]; simpl; intros a b.
  - intros [= <- <-]. done.
  - destruct (p c) eqn:Hc.
    + destruct (Py.span p s) as [a' b'] eqn:Hs. intros [= <- <-].
      destruct (IH a' b' eq_refl) as (-> & Ha & Hb). simpl. by rewrite Hc.
    + intros [= <- <-]. simpl. done.
Qed.

(** A prefix of [p]-characters followed by a non-[p] character (or by
    nothing) is exactly what [span] splits off. *)
Lemma span_app_stop p a b :
  all_chars p a = true ->
  match b with EmptyString => True | String c _ => p c = false end ->
  Py.span p (a +:+ b) = (a, b).
Proof.
  induction a as [|x a IH]; simpl; intros Ha Hb.
  - destruct b as [|c b]; simpl; [done | by rewrite Hb].
  - apply andb_true_iff in Ha as [Hx Ha]. rewrite Hx, IH; done.
Qed.

(** [span] takes at least any prefix of [p]-characters. *)
Lemma span_app_more p a b :
  all_chars p a = true ->
  exists a' b', Py.span p (a +:+ b) = (a +:+ a', b').
Proof.
  induction a as [|x a IH]; simpl; intros Ha.
  - destruct (Py.span p b) as [a' b'] eqn:E. by exists a', b'.
  - apply andb_true_iff in Ha as [Hx Ha]. rewrite Hx.
    destruct (IH Ha) as (a' & b' & ->). by exists a', b'.
Qed.

End Strings.

(** ** The DOI pattern and its matcher *)

Section Pattern.

(** Repetitions of a one-character class. *)
Lemma matches_class_repeat (r : regex) (p : ascii -> bool) :
  (forall s, matches r s <-> exists c, s = String c "" /\ p c = true) ->
  forall n s,
    matches (AtLeast n r) s <-> n <= String.length s /\ all_chars p s = true.
Proof.
  intros Hr n s. split.
  - intros H. remember (AtLeast n r) as q eqn:Eq. revert n Eq.
    induction H as [| | | | | r0 | r0 s1 s2 H1 _ H2 IH2 | m r0 s1 s2 H1 _ H2 IH2];
      intros n Eq; try discriminate; injection Eq as <- ->.
    + simpl. split; [lia | done].
    + apply Hr in H1 as (c & -> & Hc).
      destruct (IH2 0 eq_refl) as [_ Ha]. simpl. rewrite Hc, Ha. split; [lia | done].
    + apply Hr in H1 as (c & -> & Hc).
      destruct (IH2 m eq_refl) as [Hl Ha]. simpl. rewrite Hc, Ha. split; [lia | done].
  - revert n. induction s as [|c s IH]; simpl; intros n [Hn Ha].
    + assert (n = 0) as -> by lia. constructor.
    + apply andb_true_iff in Ha as [Hc Ha].
      assert (Hm : matches r (String c "")) by (apply Hr; eauto).
      destruct n as [|n].
      * change (String c s) with (String c "" +:+ s). apply MMore; [done |].
        apply IH. split; [lia | done].
      * change (String c s) with (String c "" +:+ s). apply MStep; [done |].
        apply IH. split; [lia | done].
Qed.

Lemma matches_Digit s :
  matches Digit s <-> exists c, s = String c "" /\ Py.isdigit c = true.
Proof.
  split.
  - inversion 1; subst. eauto.
  - intros (c & -> & Hc). by constructor.
Qed.

Lemma not_newline_true c : not_newline c = true <-> c <> Py.newline.
Proof.
  unfold not_newline. rewrite negb_true_iff. split.
  - intros H ->. by rewrite Ascii.eqb_refl in H.
  - intros H. by apply Ascii.eqb_neq.
Qed.

Lemma matches_AnyChar s :
  matches AnyChar s <-> exists c, s = String c "" /\ not_newline c = true.
Proof.
  split.
  - inversion 1; subst. eexists; split; [done |]. by apply not_newline_true.
  - intros (c & -> & Hc). constructor. by apply not_newline_true.
Qed.

Lemma is_sep_true c : is_sep c = true <-> In c ["/"; "."]%char.
Proof.
  unfold is_sep. rewrite orb_true_iff, !Ascii.eqb_eq. simpl.
  split; [intros [->| ->]; auto | intros [<-|[<-|[]]]; auto].
Qed.

(** The strings [doi_pattern] matches, spelled out. *)
Definition doi_shape (d : string) : Prop :=
  exists ds c body,
    d = "10." +:+ ds +:+ String c body /\
    all_chars Py.isdigit ds = true /\ 4 <= String.length ds /\
    is_sep c = true /\
    all_chars not_newline body = true /\ 1 <= String.length body.

Lemma matches_doi_pattern d : matches doi_pattern d <-> doi_shape d.
Proof.
  unfold doi_pattern, doi_shape. split.
  - intros H.
    inversion H as [| | | |? ? s1 r1 H1 K1| | |]; subst.
    inversion K1 as [| | | |? ? s2 r2 H2 K2| | |]; subst.
    inversion K2 as [| | | |? ? s3 r3 H3 K3| | |]; subst.
    inversion K3 as [| | | |? ? s4 r4 H4 K4| | |]; subst.
    inversion K4 as [| | | |? ? s5 r5 H5 K5| | |]; subst.
    inversion H1; subst. inversion H2; subst. inversion H3; subst.
    inversion H5 as [| | |? c Hc| | | |]; subst.
    apply (matches_class_repeat Digit Py.isdigit matches_Digit) in H4 as [? ?].
    apply (matches_class_repeat AnyChar not_newline matches_AnyChar) in K5 as [? ?].
    exists s4, c, r5. simpl. repeat split; try done. by apply is_sep_true.
  - intros (ds & c & body & -> & Hds & Hlen & Hc & Hb & Hbl).
    change ("10." +:+ ds +:+ String c body)
      with ("1" +:+ "0" +:+ "." +:+ ds +:+ String c "" +:+ body).
    repeat (apply MCat; [constructor |]).
    apply MCat.
    { apply (matches_class_repeat Digit Py.isdigit matches_Digit). done. }
    apply MCat.
    { constructor. by apply is_sep_true. }
    apply (matches_class_repeat AnyChar not_newline matches_AnyChar). done.
Qed.

End Pattern.

Section Matcher.

Lemma is_sep_not_digit c : is_sep c = true -> Py.isdigit c = false.
Proof. intros H. apply is_sep_true in H as [<- | [<- | []]]; reflexivity. Qed.

Lemma nonempty_length s : Py.nonempty s = true <-> 1 <= String.length s.
Proof. destruct s; simpl; split; (done || lia). Qed.

(** An anchored match is a prefix matching the pattern. *)
Lemma match_here_sound s d :
  match_here s = Some d -> exists post, s = d +:+ post /\ doi_shape d.
Proof.
  unfold match_here.
  destruct s as [|c1 [|c2 [|c3 r]]]; try done.
  { by destruct c1 as [[] [] [] [] [] [] [] []]. }
  { destruct c1 as [[] [] [] [] [] [] [] []]; try done.
    by destruct c2 as [[] [] [] [] [] [] [] []]. }
  destruct c1 as [[] [] [] [] [] [] [] []]; try done.
  destruct c2 as [[] [] [] [] [] [] [] []]; try done.
  destruct c3 as [[] [] [] [] [] [] [] []]; try done.
  destruct (Py.span Py.isdigit r) as [ds r1] eqn:Hds.
  destruct (4 <=? String.length ds) eqn:Hlen; [|done].
  destruct r1 as [|c r2]; [done|].
  destruct (is_sep c) eqn:Hc; [|done].
  destruct (Py.span not_newline r2) as [body rest] eqn:Hb.
  destruct (Py.nonempty body) eqn:Hne; [|done].
  intros [= <-].
  apply span_spec in Hds as (-> & Hd & _).
  apply span_spec in Hb as (-> & Hbody & _).
  exists rest. split.
  - simpl. by rewrite str_app_assoc.
  - exists ds, c, body. repeat split; try done.
    + by apply Nat.leb_le.
    + by apply nonempty_length.
Qed.

Lemma match_here_prefix r :
  match_here ("10." +:+ r) =
  let '(ds, r1) := Py.span Py.isdigit r in
  if 4 <=? String.length ds then
    match r1 with
    | String c r2 =>
        if is_sep c then
          let '(body, _) := Py.span not_newline r2 in
          if Py.nonempty body then Some ("10." +:+ ds +:+ String c body)
          else None
        else None
    | EmptyString => None
    end
  else None.
Proof. reflexivity. Qed.

(** Whenever some prefix matches the pattern, the anchored match
    succeeds and reports a prefix at least as long. *)
Lemma match_here_complete s d' post' :
  s = d' +:+ post' -> doi_shape d' ->
  exists d, match_here s = Some d /\ String.length d' <= String.length d.
Proof.
  intros -> (ds & c & body & -> & Hds & Hlen & Hc & Hb & Hbl).
  rewrite !str_app_assoc. change (String c body +:+ post') with (String c (body +:+ post')).
  rewrite match_here_prefix.
  rewrite (span_app_stop Py.isdigit ds (String c (body +:+ post')) Hds
             (is_sep_not_digit c Hc)).
  apply Nat.leb_le in Hlen as ->. rewrite Hc.
  destruct (span_app_more not_newline body post' Hb) as (a' & b' & ->).
  assert (Py.nonempty (body +:+ a') = true) as ->.
  { apply nonempty_length. rewrite str_length_app. lia. }
  eexists. split; [reflexivity |].
  rewrite !str_length_app. simpl String.length. rewrite str_length_app. lia.
Qed.

Lemma re_search_unfold s :
  re_search s =
  match match_here s with
  | Some d => Some d
  | None => match s with EmptyString => None | String _ s' => re_search s' end
  end.
Proof. by destruct s. Qed.

Lemma re_search_cons c s :
  match_here (String c s) = None -> re_search (String c s) = re_search s.
Proof. intros H. rewrite re_search_unfold. by rewrite H. Qed.

Lemma re_search_here s d : match_here s = Some d -> re_search s = Some d.
Proof. intros H. rewrite re_search_unfold. by rewrite H. Qed.

(** What [re_search] reports is the leading match. *)
Lemma re_search_sound t d :
  re_search t = Some d -> leading_match doi_pattern t d.
Proof.
  revert d. induction t as [|c t IH]; intros d.
  - simpl. done.
  - destruct (match_here (String c t)) as [d0|] eqn:Hh.
    + rewrite (re_search_here _ _ Hh). intros [= <-].
      destruct (match_here_sound _ _ Hh) as (post & Ht & Hd).
      exists "", post. split; [done |]. split; [by apply matches_doi_pattern |].
      intros pre' d' post' Ht' Hd'. split; [simpl; lia |].
      intros Hz. apply str_length_zero in Hz as ->. simpl in Ht'.
      apply matches_doi_pattern in Hd'.
      destruct (match_here_complete _ _ _ Ht' Hd') as (d1 & Hd1 & Hl).
      rewrite Hh in Hd1. by injection Hd1 as <-.
    + rewrite (re_search_cons _ _ Hh). intros Hs.
      destruct (IH d Hs) as (pre & post & Ht & Hd & Hmin).
      exists (String c pre), post. split; [simpl; by rewrite Ht |].
      split; [done |].
      intros pre' d' post' Ht' Hd'.
      destruct pre' as [|c' pre'].
      * simpl in Ht'. apply matches_doi_pattern in Hd'.
        destruct (match_here_complete _ _ _ Ht' Hd') as (d1 & Hd1 & _).
        by rewrite Hh in Hd1.
      * simpl in Ht'. injection Ht' as <- Ht'.
        destruct (Hmin pre' d' post' Ht' Hd') as [H1 H2].
        simpl. split; [lia |]. intros ?. apply H2. lia.
Qed.

(** [re_search] finds a match whenever the text contains one. *)
Lemma re_search_complete t :
  contains_match doi_pattern t -> exists d, re_search t = Some d.
Proof.
  intros (pre & d & post & -> & Hd). apply matches_doi_pattern in Hd.
  induction pre as [|c pre IH].
  - simpl String.append.
    destruct (match_here_complete (d +:+ post) d post eq_refl Hd) as (d1 & H1 & _).
    exists d1. by apply re_search_here.
  - simpl String.append.
    destruct (match_here (String c (pre +:+ d +:+ post))) as [d0|] eqn:Hh.
    + exists d0. by apply re_search_here.
    + rewrite (re_search_cons _ _ Hh). exact IH.
Qed.

Lemma re_search_contains t :
  is_Some (re_search t) <-> contains_match doi_pattern t.
Proof.
  split.
  - intros [d Hd]. destruct (re_search_sound t d Hd) as (pre & post & ? & ? & _).
    by exists pre, d, post.
  - intros H. destruct (re_search_complete t H) as [d Hd]. by exists d.
Qed.

End Matcher.

(** ** The reference extractor *)

Section Extractor.

Lemma extract_dropna_elem k col i d :
  (i, d) ∈ extract_dropna k col <->
  exists j t, i = k + j /\ col !! j = Some t /\ re_search t = Some d.
Proof.
  revert k. induction col as [|t col IH]; intros k; simpl.
  - split; [by intros ?%elem_of_nil | by intros (j & t & _ & ? & _)].
  - destruct (re_search t) as [d0|] eqn:Ht.
    + rewrite elem_of_cons, IH. split.
      * intros [[= -> ->] | (j & t' & -> & Hj & Hd)].
        -- exists 0, t. split; [lia | done].
        -- exists (S j), t'. split; [lia | done].
      * intros (j & t' & -> & Hj & Hd). destruct j as [|j]; simpl in Hj.
        -- left. injection Hj as <-. rewrite Ht in Hd. injection Hd as <-.
           f_equal. lia.
        -- right. exists j, t'. split; [lia | done].
    + rewrite IH. split.
      * intros (j & t' & -> & Hj & Hd). exists (S j), t'. split; [lia | done].
      * intros (j & t' & -> & Hj & Hd). destruct j as [|j]; simpl in Hj.
        -- injection Hj as <-. congruence.
        -- exists j, t'. split; [lia | done].
Qed.

(** The retained rows keep the order of the spreadsheet. *)
Lemma extract_dropna_sorted k col :
  StronglySorted lt (extract_dropna k col).*1 /\
  Forall (fun i => k <= i < k + length col) (extract_dropna k col).*1.
Proof.
  revert k. induction col as [|t col IH]; intros k; simpl.
  - split; constructor.
  - destruct (IH (S k)) as [Hs Hb].
    assert (Hb' : Forall (fun i => k <= i < k + S (length col))
                    (extract_dropna (S k) col).*1).
    { eapply Forall_impl; [exact Hb |]. simpl. intros; lia. }
    destruct (re_search t); simpl; [|done].
    split.
    + constructor; [done |]. eapply Forall_impl; [exact Hb |]. simpl. intros; lia.
    + constructor; [lia | done].
Qed.

Lemma column_lookup df name i :
  i < nrows df -> column df name !! i = Some (cell df name i).
Proof.
  intros Hi. unfold column. rewrite list_lookup_fmap.
  by rewrite lookup_seq_lt.
Qed.

Lemma column_length df name : length (column df name) = nrows df.
Proof. unfold column. by rewrite length_map, length_seq. Qed.

(** The cell line 41 reads for row [i]. *)
Definition link_cell (df : DataFrame) (i : nat) : Cell :=
  if decide (link_column ∈ columns df) then cell df link_column i
  else CObj "None".

Lemma link_to_pdf_lookup df i :
  i < nrows df -> link_to_pdf df !! i = Some (link_cell df i).
Proof.
  intros Hi. unfold link_to_pdf, link_cell. case_decide.
  - by apply column_lookup.
  - by apply lookup_replicate_2.
Qed.

Lemma clean_dois_bound col :
  Forall (fun i => i < length col) (clean_dois col).*1.
Proof.
  unfold clean_dois.
  destruct (extract_dropna_sorted 0 (map (fun c => Py.strip (astype_str c)) col))
    as [_ H].
  eapply Forall_impl; [exact H |]. simpl. rewrite length_map. intros; lia.
Qed.

Lemma find_doi_column_nonempty df col :
  find_doi_column df = Some col -> Py.nonempty col = true.
Proof.
  intros H. apply find_some in H as [_ H]. by destruct col.
Qed.

(** [read_references] on a readable file with a DOI column. *)
Lemma read_references_found df col :
  find_doi_column df = Some col ->
  read_references (Some df) =
  ((clean_dois (column df col)).*2,
   map (fun i => clean_link (link_cell df i)) (clean_dois (column df col)).*1).
Proof.
  intros H. unfold read_references. rewrite H.
  rewrite (find_doi_column_nonempty df col H). simpl negb. cbv iota.
  assert (Hm : mapM (fun i => link_to_pdf df !! i) (clean_dois (column df col)).*1
               = Some (map (link_cell df) (clean_dois (column df col)).*1)).
  { apply mapM_Some. apply Forall2_fmap_r, Forall_Forall2_diag.
    eapply Forall_impl; [apply clean_dois_bound |]. simpl.
    intros i Hi. apply link_to_pdf_lookup. by rewrite column_length in Hi. }
  rewrite Hm. by rewrite map_map.
Qed.

(** The two lists [read_references] returns have the same length. *)
Lemma read_references_lengths xlsx :
  length (read_references xlsx).1 = length (read_references xlsx).2.
Proof.
  destruct xlsx as [df|]; [|done].
  destruct (find_doi_column df) as [col|] eqn:H.
  - rewrite (read_references_found df col H). simpl.
    by rewrite length_map, !length_fmap.
  - unfold read_references. by rewrite H.
Qed.

Lemma clean_link_Some c u :
  clean_link c = Some u <->
  exists s, c = CStr s /\ u = Py.strip s /\
    (Py.startswith "http://" u = true \/ Py.startswith "https://" u = true).
Proof.
  destruct c as [s | r]; unfold clean_link.
  - destruct (Py.nonempty (Py.strip s)) eqn:Hne; cbn [andb].
    + destruct (Py.startswith "http://" (Py.strip s)
                || Py.startswith "https://" (Py.strip s)) eqn:Hp.
      * split.
        -- intros [= <-]. exists s. apply orb_true_iff in Hp. done.
        -- intros (s' & [= <-] & -> & _). done.
      * split; [done |]. intros (s' & [= <-] & -> & Hu).
        apply orb_true_iff in Hu. congruence.
    + split; [done |]. intros (s' & [= <-] & -> & Hu).
      destruct (Py.strip s); [|done]. by destruct Hu.
  - split; [done | by intros (s & ? & _)].
Qed.

End Extractor.

(** ** Lookup services *)

Section Services.

Variable env : Env.

(** The world after one more request. *)
Definition sent (rq : Request) (w : World) : World :=
  {| files := files w; trace := trace w ++ [rq] |}.

(** Service A returns a truthy value or [None], never raises, and
    issues exactly one request. *)
Lemma search_unpaywall_total doi w :
  exists v,
    search_unpaywall env doi w = (Ok v, sent (unpaywall_request doi) w) /\
    (v = PNone \/ truthy v = true).
Proof.
  unfold search_unpaywall, try_except, bind, requests_get, response_json,
    lift, ret, raise, sent.
  repeat case_match; simplify_eq; eauto.
Qed.

(** Service B likewise. *)
Lemma search_pubmed_total doi w :
  exists v,
    search_pubmed env doi w = (Ok v, sent (pubmed_request doi) w) /\
    (v = PNone \/ truthy v = true).
Proof.
  unfold search_pubmed, try_except, bind, requests_get, response_json,
    lift, ret, raise, sent.
  repeat case_match; simplify_eq; eauto;
    (eexists; split; [reflexivity |]; right; simpl;
     match goal with |- Py.nonempty (?s +:+ _) = true => by destruct s end).
Qed.

End Services.

(** ** Fetcher and validator *)

Section Fetcher.

Variable env : Env.

Lemma take_drop n s : Py.take n s +:+ Py.drop n s = s.
Proof.
  revert s. induction n as [|n IH]; intros [|c s]; simpl; try done.
  by rewrite IH.
Qed.

Lemma length_drop n s : String.length (Py.drop n s) = String.length s - n.
Proof. revert s. induction n as [|n IH]; intros [|c s]; simpl; auto. Qed.

Lemma slices_concat fuel n s :
  0 < n -> String.length s <= fuel -> String.concat "" (slices fuel n s) = s.
Proof.
  intros Hn. revert s. induction fuel as [|fuel IH]; intros s Hs.
  - destruct s; [done | simpl in Hs; lia].
  - destruct s as [|c s]; [done |].
    change (slices (S fuel) n (String c s))
      with (Py.take n (String c s) :: slices fuel n (Py.drop n (String c s))).
    assert (Hd : String.length (Py.drop n (String c s)) <= fuel).
    { rewrite length_drop. simpl in *. lia. }
    specialize (IH _ Hd).
    destruct (slices fuel n (Py.drop n (String c s))) as [|x l] eqn:E.
    + simpl in IH. simpl String.concat. rewrite <- (take_drop n (String c s)) at 2.
      by rewrite <- IH, str_app_nil_r.
    + change (String.concat "" (Py.take n (String c s) :: x :: l))
        with (Py.take n (String c s) +:+ "" +:+ String.concat "" (x :: l)).
      rewrite IH. simpl. apply take_drop.
Qed.

Lemma concat_filter_nonempty l :
  String.concat "" (filter (fun chunk => Py.nonempty chunk = true) l)
  = String.concat "" l.
Proof.
  induction l as [|x l IH]; [done |].
  assert (Hc : forall y k, String.concat "" (y :: k) = y +:+ String.concat "" k).
  { intros y [|z k]; simpl; [by rewrite str_app_nil_r | done]. }
  rewrite Hc. destruct x as [|c x].
  - rewrite filter_cons_False; [by rewrite IH | simpl; congruence].
  - rewrite filter_cons_True by done. by rewrite Hc, IH.
Qed.

(** The chunks the download loop writes add up to the body. *)
Lemma written_chunks body :
  String.concat ""
    (filter (fun chunk => Py.nonempty chunk = true) (iter_content 8192 body))
  = body.
Proof.
  rewrite concat_filter_nonempty. unfold iter_content.
  apply slices_concat; [|done]. apply Nat.ltb_lt. by vm_compute.
Qed.

End Fetcher.

Section FetcherCases.

Variable env : Env.
Variables (url : pyval) (save_path : string) (w : World).

Let rq := download_request url.
Let flt := disk env (length (trace w)).

(** [content_type] of line 134. *)
Definition content_type_of (r : Response) : string :=
  Py.lower (match content_type r with Some t => t | None => "" end).

(** The test of line 138, without its negation. *)
Definition type_allowed (r : Response) : bool :=
  existsb (fun t => Py.contains t (content_type_of r)) allowed_types.

(** The world after the exception handler of lines 172-178. *)
Definition cleaned (path : string) (rq : Request) (w : World) : World :=
  {| files := delete path (files w); trace := trace w ++ [rq] |}.

(** The world after a complete write of [data]. *)
Definition stored (path data : string) (rq : Request) (w : World) : World :=
  {| files := <[path := data]> (files w); trace := trace w ++ [rq] |}.

Definition fault_message (f : WriteFault) : string :=
  match f with OpenFails e => e | WriteFailsAfter _ e => e end.

Ltac run :=
  unfold download_pdf, download_body, check_signature, try_except, bind,
    requests_get, write_file, getsize, read_head, os_remove_open, os_remove,
    path_exists, ret, raise, sent, cleaned, stored;
  fold rq; fold flt; cbn [files trace].

(* The handler: remove the file if it is there. *)
Ltac handler :=
  let Hx := fresh "Hx" in
  let x := fresh "x" in
  case_bool_decide as Hx; cbv beta; cbn [files trace];
  [ destruct Hx as [x Hx]; rewrite Hx; try done
  | apply eq_None_not_Some in Hx; by rewrite (delete_id _ _ Hx) ].

Lemma download_pdf_raised e :
  net env (length (trace w)) rq = Raised e ->
  download_pdf env url save_path w
  = (Ok (false, "Download error: " +:+ e), cleaned save_path rq w).
Proof.
  intros H. run. rewrite H. cbn [files trace]. handler.
Qed.

Lemma download_pdf_not_200 r :
  net env (length (trace w)) rq = Responded r ->
  status_code r <> 200%Z ->
  download_pdf env url save_path w
  = (Ok (false, "HTTP error: " +:+ Py.str_of_int (status_code r)), sent rq w).
Proof.
  intros H Hs. run. rewrite H. apply Z.eqb_neq in Hs as ->. done.
Qed.

Lemma download_pdf_unknown_small r :
  net env (length (trace w)) rq = Responded r ->
  status_code r = 200%Z -> type_allowed r = false ->
  String.length (content r) <= 1000 ->
  download_pdf env url save_path w
  = (Ok (false, "Not a PDF file (content-type: " +:+ content_type_of r +:+ ")"),
     sent rq w).
Proof.
  intros H Hs Ht Hl. run. rewrite H. apply Z.eqb_eq in Hs as ->.
  fold (content_type_of r). fold (type_allowed r). rewrite Ht. cbn [negb].
  apply Nat.ltb_ge in Hl as ->. done.
Qed.

Lemma download_pdf_unknown_big r :
  net env (length (trace w)) rq = Responded r ->
  status_code r = 200%Z -> type_allowed r = false ->
  1000 < String.length (content r) ->
  write_fault flt = None ->
  download_pdf env url save_path w
  = (Ok (true, msg_unknown_type), stored save_path (content r) rq w).
Proof.
  intros H Hs Ht Hl Hf. run. rewrite H. apply Z.eqb_eq in Hs as ->.
  fold (content_type_of r). fold (type_allowed r). rewrite Ht. cbn [negb].
  apply Nat.ltb_lt in Hl as ->. rewrite Hf. done.
Qed.

(** A write that raises ends in the handler, which leaves no file. *)
Lemma download_pdf_write_fault r f :
  net env (length (trace w)) rq = Responded r ->
  status_code r = 200%Z ->
  type_allowed r = true \/ 1000 < String.length (content r) ->
  write_fault flt = Some f ->
  download_pdf env url save_path w
  = (Ok (false, "Download error: " +:+ fault_message f), cleaned save_path rq w).
Proof.
  intros H Hs Ht Hf. run. rewrite H. apply Z.eqb_eq in Hs as ->.
  fold (content_type_of r). fold (type_allowed r). rewrite Hf.
  destruct (type_allowed r) eqn:Hta; cbn [negb].
  - destruct f as [e | k e]; cbn [files trace fault_message].
    + handler.
    + rewrite lookup_insert_eq. rewrite bool_decide_eq_true_2 by eauto.
      cbv beta. cbn [files trace]. rewrite lookup_insert_eq.
      by rewrite delete_insert_eq.
  - destruct Ht as [? | Hl]; [done |]. apply Nat.ltb_lt in Hl as ->.
    destruct f as [e | k e]; cbn [files trace fault_message].
    + handler.
    + rewrite lookup_insert_eq. rewrite bool_decide_eq_true_2 by eauto.
      cbv beta. cbn [files trace]. rewrite lookup_insert_eq.
      by rewrite delete_insert_eq.
Qed.

(* Up to the size test of line 155, on an accepted content type with a
   write that succeeds. *)
Ltac known_type r H Hs Ht Hf :=
  run; rewrite H; apply Z.eqb_eq in Hs as ->;
  fold (content_type_of r); fold (type_allowed r); rewrite Ht; cbn [negb];
  rewrite Hf; cbn [files trace]; rewrite written_chunks;
  rewrite lookup_insert_eq.

Lemma download_pdf_too_small r :
  net env (length (trace w)) rq = Responded r ->
  status_code r = 200%Z -> type_allowed r = true ->
  write_fault flt = None ->
  String.length (content r) < 1000 ->
  download_pdf env url save_path w
  = (Ok (false, msg_too_small), cleaned save_path rq w).
Proof.
  intros H Hs Ht Hf Hl. known_type r H Hs Ht Hf.
  apply Nat.ltb_lt in Hl as ->. cbn [files trace].
  rewrite lookup_insert_eq. by rewrite delete_insert_eq.
Qed.

Lemma download_pdf_sig_unread r :
  net env (length (trace w)) rq = Responded r ->
  status_code r = 200%Z -> type_allowed r = true ->
  write_fault flt = None ->
  1000 <= String.length (content r) ->
  sig_read_fault flt = true ->
  download_pdf env url save_path w
  = (Ok (true, msg_sig_failed), stored save_path (content r) rq w).
Proof.
  intros H Hs Ht Hf Hl Hr. known_type r H Hs Ht Hf.
  apply Nat.ltb_ge in Hl as ->. rewrite Hr. done.
Qed.

Lemma download_pdf_valid r :
  net env (length (trace w)) rq = Responded r ->
  status_code r = 200%Z -> type_allowed r = true ->
  write_fault flt = None ->
  1000 <= String.length (content r) ->
  sig_read_fault flt = false ->
  Py.startswith "%PDF" (Py.take 4 (content r)) = true ->
  download_pdf env url save_path w
  = (Ok (true, msg_success), stored save_path (content r) rq w).
Proof.
  intros H Hs Ht Hf Hl Hr Hp. known_type r H Hs Ht Hf.
  apply Nat.ltb_ge in Hl as ->. rewrite Hr. cbn [files trace].
  rewrite lookup_insert_eq, Hp. done.
Qed.

Lemma download_pdf_sig_kept r :
  net env (length (trace w)) rq = Responded r ->
  status_code r = 200%Z -> type_allowed r = true ->
  write_fault flt = None ->
  1000 <= String.length (content r) ->
  sig_read_fault flt = false ->
  Py.startswith "%PDF" (Py.take 4 (content r)) = false ->
  remove_open_fault flt = true ->
  download_pdf env url save_path w
  = (Ok (true, msg_sig_failed), stored save_path (content r) rq w).
Proof.
  intros H Hs Ht Hf Hl Hr Hp Hx. known_type r H Hs Ht Hf.
  apply Nat.ltb_ge in Hl as ->. rewrite Hr. cbn [files trace].
  rewrite lookup_insert_eq, Hp, Hx. done.
Qed.

Lemma download_pdf_invalid r :
  net env (length (trace w)) rq = Responded r ->
  status_code r = 200%Z -> type_allowed r = true ->
  write_fault flt = None ->
  1000 <= String.length (content r) ->
  sig_read_fault flt = false ->
  Py.startswith "%PDF" (Py.take 4 (content r)) = false ->
  remove_open_fault flt = false ->
  download_pdf env url save_path w
  = (Ok (false, msg_not_pdf), cleaned save_path rq w).
Proof.
  intros H Hs Ht Hf Hl Hr Hp Hx. known_type r H Hs Ht Hf.
  apply Nat.ltb_ge in Hl as ->. rewrite Hr. cbn [files trace].
  rewrite lookup_insert_eq, Hp, Hx. cbn [files trace].
  rewrite lookup_insert_eq. by rewrite delete_insert_eq.
Qed.

End FetcherCases.

(** ** Orchestrator *)

Section Orchestrator.

Variable env : Env.

Lemma startswith_take p d :
  Py.startswith p (Py.take (String.length p) d) = Py.startswith p d.
Proof.
  revert d. induction p as [|a p IH]; intros [|b d]; try reflexivity.
  change (Ascii.eqb a b && Py.startswith p (Py.take (String.length p) d)
          = Ascii.eqb a b && Py.startswith p d).
  by rewrite IH.
Qed.

Lemma prefix_take4 d :
  Py.startswith "%PDF" (Py.take 4 d) = Py.startswith "%PDF" d.
Proof. apply (startswith_take "%PDF"). Qed.

(** The ways a call of [download_pdf] ends: the outcome it returns and
    the world it leaves, by the answer of the network and the faults of
    the disk. *)
Inductive fetched (url : pyval) (save_path : string) (w : World)
  : bool * string -> World -> Prop :=
| FRaised e :
    net env (length (trace w)) (download_request url) = Raised e ->
    fetched url save_path w
      (false, "Download error: " +:+ e)
      (cleaned save_path (download_request url) w)
| FStatus r :
    net env (length (trace w)) (download_request url) = Responded r ->
    status_code r <> 200%Z ->
    fetched url save_path w
      (false, "HTTP error: " +:+ Py.str_of_int (status_code r))
      (sent (download_request url) w)
| FRejected r :
    net env (length (trace w)) (download_request url) = Responded r ->
    status_code r = 200%Z -> type_allowed r = false ->
    String.length (content r) <= 1000 ->
    fetched url save_path w
      (false, "Not a PDF file (content-type: " +:+ content_type_of r +:+ ")")
      (sent (download_request url) w)
| FUnchecked r :
    net env (length (trace w)) (download_request url) = Responded r ->
    status_code r = 200%Z -> type_allowed r = false ->
    1000 < String.length (content r) ->
    fetched url save_path w
      (true, msg_unknown_type)
      (stored save_path (content r) (download_request url) w)
| FWriteFault r f :
    net env (length (trace w)) (download_request url) = Responded r ->
    status_code r = 200%Z ->
    write_fault (disk env (length (trace w))) = Some f ->
    fetched url save_path w
      (false, "Download error: " +:+ fault_message f)
      (cleaned save_path (download_request url) w)
| FTooSmall r :
    net env (length (trace w)) (download_request url) = Responded r ->
    status_code r = 200%Z -> type_allowed r = true ->
    String.length (content r) < 1000 ->
    fetched url save_path w
      (false, msg_too_small)
      (cleaned save_path (download_request url) w)
| FSigFailed r :
    net env (length (trace w)) (download_request url) = Responded r ->
    status_code r = 200%Z -> type_allowed r = true ->
    1000 <= String.length (content r) ->
    sig_read_fault (disk env (length (trace w))) = true \/
    Py.startswith "%PDF" (content r) = false /\
    remove_open_fault (disk env (length (trace w))) = true ->
    fetched url save_path w
      (true, msg_sig_failed)
      (stored save_path (content r) (download_request url) w)
| FValid r :
    net env (length (trace w)) (download_request url) = Responded r ->
    status_code r = 200%Z -> type_allowed r = true ->
    1000 <= String.length (content r) ->
    Py.startswith "%PDF" (content r) = true ->
    fetched url save_path w
      (true, msg_success)
      (stored save_path (content r) (download_request url) w)
| FInvalid r :
    net env (length (trace w)) (download_request url) = Responded r ->
    status_code r = 200%Z -> type_allowed r = true ->
    1000 <= String.length (content r) ->
    Py.startswith "%PDF" (content r) = false ->
    fetched url save_path w
      (false, msg_not_pdf)
      (cleaned save_path (download_request url) w).

(** [download_pdf] never raises, and ends in one of these ways. *)
Lemma download_pdf_fetched url save_path w :
  exists outcome w',
    download_pdf env url save_path w = (Ok outcome, w') /\
    fetched url save_path w outcome w'.
Proof.
  destruct (net env (length (trace w)) (download_request url)) as [e|r] eqn:H.
  { rewrite (download_pdf_raised _ _ _ _ _ H). eauto 8 using fetched. }
  destruct (decide (status_code r = 200%Z)) as [Hs|Hs].
  2:{ rewrite (download_pdf_not_200 _ _ _ _ _ H Hs). eauto 8 using fetched. }
  destruct (write_fault (disk env (length (trace w)))) as [f|] eqn:Hf.
  - destruct (type_allowed r) eqn:Ht.
    + rewrite (download_pdf_write_fault _ _ _ _ _ f H Hs (or_introl Ht) Hf).
      eauto 8 using fetched.
    + destruct (decide (1000 < String.length (content r))) as [Hl|Hl].
      * rewrite (download_pdf_write_fault _ _ _ _ _ f H Hs (or_intror Hl) Hf).
        eauto 8 using fetched.
      * rewrite (download_pdf_unknown_small _ _ _ _ _ H Hs Ht) by lia.
        eexists _, _. split; [done |]. apply (FRejected _ _ _ r); (done || lia).
  - destruct (type_allowed r) eqn:Ht.
    + destruct (decide (String.length (content r) < 1000)) as [Hl|Hl].
      { rewrite (download_pdf_too_small _ _ _ _ _ H Hs Ht Hf Hl).
        eauto 8 using fetched. }
      assert (Hl' : 1000 <= String.length (content r)) by lia.
      destruct (sig_read_fault (disk env (length (trace w)))) eqn:Hr.
      { rewrite (download_pdf_sig_unread _ _ _ _ _ H Hs Ht Hf Hl' Hr).
        eauto 8 using fetched. }
      destruct (Py.startswith "%PDF" (Py.take 4 (content r))) eqn:Hp.
      { rewrite (download_pdf_valid _ _ _ _ _ H Hs Ht Hf Hl' Hr Hp).
        rewrite prefix_take4 in Hp. eauto 8 using fetched. }
      destruct (remove_open_fault (disk env (length (trace w)))) eqn:Hx.
      * rewrite (download_pdf_sig_kept _ _ _ _ _ H Hs Ht Hf Hl' Hr Hp Hx).
        rewrite prefix_take4 in Hp. eauto 8 using fetched.
      * rewrite (download_pdf_invalid _ _ _ _ _ H Hs Ht Hf Hl' Hr Hp Hx).
        rewrite prefix_take4 in Hp. eauto 8 using fetched.
    + destruct (decide (1000 < String.length (content r))) as [Hl|Hl].
      * rewrite (download_pdf_unknown_big _ _ _ _ _ H Hs Ht Hl Hf).
        eauto 8 using fetched.
      * rewrite (download_pdf_unknown_small _ _ _ _ _ H Hs Ht) by lia.
        eexists _, _. split; [done |]. apply (FRejected _ _ _ r); (done || lia).
Qed.

Lemma fetched_trace url save_path w outcome w' :
  fetched url save_path w outcome w' ->
  trace w' = trace w ++ [download_request url].
Proof. by destruct 1. Qed.

(** [download_pdf] never raises and issues exactly one request. *)
Lemma download_pdf_total url save_path w :
  exists outcome w',
    download_pdf env url save_path w = (Ok outcome, w') /\
    trace w' = trace w ++ [download_request url].
Proof.
  destruct (download_pdf_fetched url save_path w) as (out & w' & H & Hf).
  exists out, w'. split; [done |]. by eapply fetched_trace.
Qed.

(** The four ways [resolve] ends. *)
Lemma resolve_unpaywall doi pdf_link result w v w1 :
  search_unpaywall env doi w = (Ok v, w1) -> truthy v = true ->
  resolve env doi pdf_link result w
  = (Ok (v, set_found "Unpaywall" result), w1).
Proof.
  intros H Hv. unfold resolve, sources, try_sources, bind, ret.
  rewrite H. cbv beta iota. rewrite Hv. cbv beta iota. by rewrite Hv.
Qed.

Lemma resolve_pubmed doi pdf_link result w v1 w1 v2 w2 :
  search_unpaywall env doi w = (Ok v1, w1) -> truthy v1 = false ->
  search_pubmed env doi w1 = (Ok v2, w2) -> truthy v2 = true ->
  resolve env doi pdf_link result w
  = (Ok (v2, set_found "PubMed" result), w2).
Proof.
  intros H1 Hv1 H2 Hv2. unfold resolve, sources, try_sources, bind, ret.
  rewrite H1. cbv beta iota. rewrite Hv1. cbv beta iota. rewrite H2.
  cbv beta iota. rewrite Hv2. cbv beta iota. by rewrite Hv2.
Qed.

Lemma resolve_fallback doi pdf_link result w v1 w1 v2 w2 :
  search_unpaywall env doi w = (Ok v1, w1) -> truthy v1 = false ->
  search_pubmed env doi w1 = (Ok v2, w2) -> truthy v2 = false ->
  resolve env doi pdf_link result w
  = (Ok (if link_truthy pdf_link
         then (link_value pdf_link, set_found "Excel Link" result)
         else (v2, result)), w2).
Proof.
  intros H1 Hv1 H2 Hv2. unfold resolve, sources, try_sources, bind, ret.
  rewrite H1. cbv beta iota. rewrite Hv1. cbv beta iota. rewrite H2.
  cbv beta iota. rewrite Hv2. cbv beta iota. rewrite Hv2. cbn [negb andb].
  by destruct (link_truthy pdf_link).
Qed.

Lemma resolve_total doi pdf_link result w :
  exists pdf_url result' w',
    resolve env doi pdf_link result w = (Ok (pdf_url, result'), w') /\
    DOI result' = DOI result.
Proof.
  destruct (search_unpaywall_total env doi w) as (v1 & H1 & Hv1).
  destruct (truthy v1) eqn:T1.
  { rewrite (resolve_unpaywall _ _ _ _ _ _ H1 T1). eauto. }
  destruct (search_pubmed_total env doi (sent (unpaywall_request doi) w))
    as (v2 & H2 & Hv2).
  destruct (truthy v2) eqn:T2.
  { rewrite (resolve_pubmed _ _ _ _ _ _ _ _ H1 T1 H2 T2). eauto. }
  rewrite (resolve_fallback _ _ _ _ _ _ _ _ H1 T1 H2 T2).
  destruct (link_truthy pdf_link); eauto.
Qed.

(** A reference with a URL: the row records what the download returns. *)
Lemma process_reference_download doi pdf_link w pdf_url result w1 outcome w2 :
  resolve env doi pdf_link (initial_row doi) w = (Ok (pdf_url, result), w1) ->
  truthy pdf_url = true ->
  download_pdf env pdf_url (filename doi) w1 = (Ok outcome, w2) ->
  process_reference env (doi, pdf_link) w
  = (Ok (record_download doi outcome result), w2).
Proof.
  intros Hr Ht Hd. unfold process_reference, bind, ret.
  rewrite Hr. cbv beta iota. rewrite Ht. by rewrite Hd.
Qed.

Lemma process_reference_total ref w :
  exists row w', process_reference env ref w = (Ok row, w') /\ DOI row = ref.1.
Proof.
  destruct ref as [doi pdf_link]. unfold process_reference, bind, ret.
  destruct (resolve_total doi pdf_link (initial_row doi) w)
    as (pdf_url & result & w1 & -> & Hd).
  destruct (truthy pdf_url).
  - destruct (download_pdf_total pdf_url (filename doi) w1)
      as ([ok msg] & w2 & -> & _).
    eexists _, _. split; [reflexivity |]. exact Hd.
  - eexists _, _. split; [reflexivity |]. exact Hd.
Qed.

Lemma for_each_rows (refs : list (string * option string)) w :
  exists rows w',
    for_each refs (process_reference env) w = (Ok rows, w') /\
    DOI <$> rows = refs.*1.
Proof.
  revert w. induction refs as [|ref refs IH]; intros w.
  - by exists [], w.
  - simpl for_each. unfold bind.
    destruct (process_reference_total ref w) as (row & w1 & -> & Hrow).
    destruct (IH w1) as (rows & w2 & -> & Hrows).
    exists (row :: rows), w2. split; [reflexivity |].
    rewrite !fmap_cons. by rewrite Hrow, Hrows.
Qed.

(** The DOIs [main] processes, after the test DOI is added. *)
Definition processed (xlsx : option DataFrame) : list string :=
  let refs := (read_references xlsx).1 in
  if decide (test_doi ∈ refs) then refs else refs ++ [test_doi].

(** [main] ends, with one row per processed DOI, in order. *)
Lemma main_rows xlsx w :
  exists rows w',
    main env xlsx w = (Ok rows, w') /\ DOI <$> rows = processed xlsx.
Proof.
  unfold main, processed, add_test_doi.
  pose proof (read_references_lengths xlsx) as Hlen.
  destruct (read_references xlsx) as [references pdf_links]. simpl in *.
  case_decide.
  - destruct (for_each_rows (zip references pdf_links) w) as (rows & w' & -> & Hr).
    exists rows, w'. split; [done |]. rewrite Hr. apply fst_zip. lia.
  - destruct (for_each_rows (zip (references ++ [test_doi]) (pdf_links ++ [None])) w)
      as (rows & w' & -> & Hr).
    exists rows, w'. split; [done |]. rewrite Hr. apply fst_zip.
    rewrite !length_app. simpl. lia.
Qed.

End Orchestrator.

(** ** The fetcher when [os.remove] can fail *)

(** Without faults of [os.remove], [download_pdf_rm] is [download_pdf]. *)
Lemma download_pdf_rm_no_faults env url save_path w :
  download_pdf_rm env (fun _ => no_remove_faults) url save_path w
  = download_pdf env url save_path w.
Proof. reflexivity. Qed.

Section RemoveFaulty.

Variable env : Env.
Variable rf : RemoveFaults.
Variables (url : pyval) (save_path : string) (w : World).

Let rq := download_request url.
Let flt := disk env (length (trace w)).

(** How the body of the [try] ends: what it returns or raises, and the
    world it leaves to the handler or to the caller. *)
Inductive body_ends : result (bool * string) -> World -> Prop :=
| BRaised e :
    net env (length (trace w)) rq = Raised e ->
    body_ends (Raise e) (sent rq w)
| BStatus r :
    net env (length (trace w)) rq = Responded r ->
    status_code r <> 200%Z ->
    body_ends (Ok (false, "HTTP error: " +:+ Py.str_of_int (status_code r)))
      (sent rq w)
| BRejected r :
    net env (length (trace w)) rq = Responded r ->
    status_code r = 200%Z -> type_allowed r = false ->
    String.length (content r) <= 1000 ->
    body_ends
      (Ok (false, "Not a PDF file (content-type: " +:+ content_type_of r +:+ ")"))
      (sent rq w)
| BUnchecked r :
    net env (length (trace w)) rq = Responded r ->
    status_code r = 200%Z -> type_allowed r = false ->
    1000 < String.length (content r) ->
    write_fault flt = None ->
    body_ends (Ok (true, msg_unknown_type)) (stored save_path (content r) rq w)
| BOpenFails r e :
    net env (length (trace w)) rq = Responded r ->
    status_code r = 200%Z ->
    type_allowed r = true \/ 1000 < String.length (content r) ->
    write_fault flt = Some (OpenFails e) ->
    body_ends (Raise e) (sent rq w)
| BWriteFails r k e :
    net env (length (trace w)) rq = Responded r ->
    status_code r = 200%Z ->
    type_allowed r = true \/ 1000 < String.length (content r) ->
    write_fault flt = Some (WriteFailsAfter k e) ->
    body_ends (Raise e) (stored save_path (Py.take k (content r)) rq w)
| BTooSmall r :
    net env (length (trace w)) rq = Responded r ->
    status_code r = 200%Z -> type_allowed r = true ->
    write_fault flt = None ->
    String.length (content r) < 1000 ->
    remove_small_fault rf = None ->
    body_ends (Ok (false, msg_too_small)) (cleaned save_path rq w)
| BSmallStays r e :
    net env (length (trace w)) rq = Responded r ->
    status_code r = 200%Z -> type_allowed r = true ->
    write_fault flt = None ->
    String.length (content r) < 1000 ->
    remove_small_fault rf = Some e ->
    body_ends (Raise e) (stored save_path (content r) rq w)
| BSigFailed r :
    net env (length (trace w)) rq = Responded r ->
    status_code r = 200%Z -> type_allowed r = true ->
    write_fault flt = None ->
    1000 <= String.length (content r) ->
    sig_read_fault flt = true \/
    Py.startswith "%PDF" (content r) = false /\ remove_open_fault flt = true ->
    body_ends (Ok (true, msg_sig_failed)) (stored save_path (content r) rq w)
| BValid r :
    net env (length (trace w)) rq = Responded r ->
    status_code r = 200%Z -> type_allowed r = true ->
    write_fault flt = None ->
    1000 <= String.length (content r) ->
    Py.startswith "%PDF" (content r) = true ->
    body_ends (Ok (true, msg_success)) (stored save_path (content r) rq w)
| BInvalid r :
    net env (length (trace w)) rq = Responded r ->
    status_code r = 200%Z -> type_allowed r = true ->
    write_fault flt = None ->
    1000 <= String.length (content r) ->
    Py.startswith "%PDF" (content r) = false ->
    body_ends (Ok (false, msg_not_pdf)) (cleaned save_path rq w).

Ltac body :=
  unfold download_body_rm, check_signature, try_except, bind, requests_get,
    write_file, getsize, read_head, os_remove_open, os_remove_or, os_remove,
    ret, raise, sent, cleaned, stored;
  fold rq; fold flt; cbn [files trace].

Lemma download_body_rm_ends :
  exists res w1,
    download_body_rm env rf url save_path flt w = (res, w1) /\ body_ends res w1.
Proof.
  destruct (net env (length (trace w)) rq) as [e|r] eqn:Hnet.
  { body. rewrite Hnet. eauto using body_ends. }
  destruct (decide (status_code r = 200%Z)) as [Hs|Hs].
  2:{ body. rewrite Hnet. pose proof Hs as Hs'. apply Z.eqb_neq in Hs' as ->.
      eauto using body_ends. }
  assert (Hstep :
    download_body_rm env rf url save_path flt w
    = (if negb (type_allowed r) then
         if 1000 <? String.length (content r) then
           (_ <~ write_file save_path [content r] (write_fault flt) ;;
            ret (true, msg_unknown_type))
         else ret (false, "Not a PDF file (content-type: "
                          +:+ content_type_of r +:+ ")")
       else
         (_ <~ write_file save_path
                 (filter (fun chunk => Py.nonempty chunk = true)
                         (iter_content 8192 (content r)))
                 (write_fault flt) ;;
          file_size <~ getsize save_path ;;
          if file_size <? 1000 then
            _ <~ os_remove_or (remove_small_fault rf) save_path ;;
            ret (false, msg_too_small)
          else check_signature save_path flt))
        (sent rq w)).
  { unfold download_body_rm, bind at 1, requests_get. fold rq. rewrite Hnet.
    pose proof Hs as Hs'. apply Z.eqb_eq in Hs' as ->. reflexivity. }
  rewrite Hstep. clear Hstep.
  destruct (type_allowed r) eqn:Ht; cbn [negb].
  - (* accepted content type *)
    destruct (write_fault flt) as [[e | k e] |] eqn:Hf.
    + body. eauto 8 using body_ends.
    + body. rewrite written_chunks. eauto 8 using body_ends.
    + destruct (decide (String.length (content r) < 1000)) as [Hl|Hl].
      * body. rewrite written_chunks, lookup_insert_eq.
        pose proof Hl as Hl'. apply Nat.ltb_lt in Hl' as ->.
        destruct (remove_small_fault rf) as [e|] eqn:Hr.
        -- eauto 8 using body_ends.
        -- cbn [files trace]. rewrite lookup_insert_eq, delete_insert_eq.
           eauto 8 using body_ends.
      * assert (Hl' : 1000 <= String.length (content r)) by lia.
        body. rewrite written_chunks, lookup_insert_eq.
        pose proof Hl' as Hl''. apply Nat.ltb_ge in Hl'' as ->.
        destruct (sig_read_fault flt) eqn:Hr.
        { eauto 8 using body_ends. }
        cbn [files trace]. rewrite lookup_insert_eq, prefix_take4.
        destruct (Py.startswith "%PDF" (content r)) eqn:Hp.
        { eauto 8 using body_ends. }
        destruct (remove_open_fault flt) eqn:Hx.
        { eauto 8 using body_ends. }
        cbn [files trace]. rewrite lookup_insert_eq, delete_insert_eq.
        eauto 8 using body_ends.
  - (* unknown content type *)
    destruct (decide (1000 < String.length (content r))) as [Hl|Hl].
    + pose proof Hl as Hl'. apply Nat.ltb_lt in Hl' as ->.
      destruct (write_fault flt) as [[e | k e] |] eqn:Hf;
        body; eauto 8 using body_ends.
    + assert (Hl' : String.length (content r) <= 1000) by lia.
      pose proof Hl' as Hl''. apply Nat.ltb_ge in Hl'' as ->.
      body. eauto 8 using body_ends.
Qed.

(** The body issues one request and touches no other path. *)
Lemma body_ends_frame res w1 :
  body_ends res w1 ->
  trace w1 = trace w ++ [rq] /\
  forall p, p <> save_path -> files w1 !! p = files w !! p.
Proof.
  intros H. split.
  - by destruct H.
  - intros p Hp.
    destruct H; unfold sent, stored, cleaned; cbn [files];
      by rewrite ?lookup_insert_ne, ?lookup_delete_ne.
Qed.

End RemoveFaulty.

Lemma cleanup_ends rf save_path e w1 :
  cleanup rf save_path e w1 =
  match files w1 !! save_path with
  | None => (Ok (false, "Download error: " +:+ e), w1)
  | Some _ =>
      match remove_handler_fault rf with
      | None =>
          (Ok (false, "Download error: " +:+ e),
           {| files := delete save_path (files w1); trace := trace w1 |})
      | Some e' => (Raise e', w1)
      end
  end.
Proof.
  unfold cleanup, bind, path_exists, os_remove_or, os_remove, ret, raise.
  destruct (files w1 !! save_path) as [data|] eqn:Hl.
  - rewrite bool_decide_eq_true_2 by eauto.
    destruct (remove_handler_fault rf); [done |]. by rewrite Hl.
  - rewrite bool_decide_eq_false_2; [done |]. by intros [? ?].
Qed.

Lemma download_pdf_rm_unfold env rmf url save_path w :
  download_pdf_rm env rmf url save_path w =
  match download_body_rm env (rmf (length (trace w))) url save_path
          (disk env (length (trace w))) w with
  | (Ok outcome, w1) => (Ok outcome, w1)
  | (Raise e, w1) => cleanup (rmf (length (trace w))) save_path e w1
  end.
Proof. reflexivity. Qed.

(** What the handler does with the exception [e] in the world [w1]:
    it returns the failure and no file is at the path, or its
    [os.remove] raises and the world stays as it was. *)
Lemma cleanup_cases rf save_path e w1 :
  exists res w',
    cleanup rf save_path e w1 = (res, w') /\
    trace w' = trace w1 /\
    match res with
    | Raise e' =>
        remove_handler_fault rf = Some e' /\ w' = w1 /\
        is_Some (files w1 !! save_path)
    | Ok outcome =>
        outcome = (false, "Download error: " +:+ e) /\
        files w' = delete save_path (files w1) /\
        (remove_handler_fault rf = None \/ files w1 !! save_path = None)
    end.
Proof.
  rewrite cleanup_ends.
  destruct (files w1 !! save_path) as [data|] eqn:Hl.
  - destruct (remove_handler_fault rf) as [e'|] eqn:Hr.
    + exists (Raise e'), w1. repeat split; eauto.
    + eexists _, _. split; [reflexivity |]. cbn [files trace]. auto.
  - exists (Ok (false, "Download error: " +:+ e)), w1.
    split; [reflexivity |]. split; [reflexivity |].
    split; [reflexivity |]. split; [| by right].
    symmetry. by apply delete_id.
Qed.

(** The handler when its [os.remove] does not raise. *)
Lemma cleanup_no_fault rf save_path e w1 :
  remove_handler_fault rf = None ->
  cleanup rf save_path e w1
  = (Ok (false, "Download error: " +:+ e),
     {| files := delete save_path (files w1); trace := trace w1 |}).
Proof.
  intros Hr. rewrite cleanup_ends, Hr.
  destruct (files w1 !! save_path) as [data|] eqn:Hl; [done |].
  rewrite (delete_id _ _ Hl). by destruct w1.
Qed.

(** The handler when its [os.remove] raises [e']: the exception leaves
    the handler exactly when a file is at the path. *)
Lemma cleanup_fault rf save_path e e' w1 :
  remove_handler_fault rf = Some e' ->
  cleanup rf save_path e w1
  = (if bool_decide (is_Some (files w1 !! save_path))
     then Raise e' else Ok (false, "Download error: " +:+ e), w1).
Proof.
  intros Hr. rewrite cleanup_ends, Hr.
  destruct (files w1 !! save_path) as [data|] eqn:Hl.
  - by rewrite bool_decide_eq_true_2 by eauto.
  - rewrite bool_decide_eq_false_2; [done |]. by intros [? ?].
Qed.


(** * The claims *)

(** ** Concrete inputs *)

(** A disk without faults. *)
Definition no_faults : DiskFaults :=
  {| write_fault := None; sig_read_fault := false; remove_open_fault := false |}.

(** No network: every request raises. *)
Definition offline : Env :=
  {| net := fun _ _ => Raised "ConnectionError"; disk := fun _ => no_faults |}.

(** An empty disk, nothing requested yet. *)
Definition fresh : World := {| files := ∅; trace := [] |}.

(** A sheet with one column, [DOI], and one row. *)
Definition one_row_sheet (doi_cell : string) : DataFrame :=
  {| columns := ["DOI"]; nrows := 1; cell := fun _ _ => CStr doi_cell |}.

(** A sheet with a DOI and a link column, and two rows, the first of
    which has no DOI. *)
Definition two_row_sheet : DataFrame :=
  {| columns := ["Title"; "doi "; "Link to PDF"];
     nrows := 2;
     cell := fun name i =>
       if String.eqb name "doi " then
         match i with 0 => CStr "n/a" | _ => CStr " 10.1234/abc.def " end
       else if String.eqb name "Link to PDF" then
         match i with 0 => CStr "ftp://x" | _ => CStr " https://example.org/a.pdf" end
       else CStr "A title" |}.

(** ** Run orchestrator *)

(** The report as the specification describes it: one row per accepted
    reference, in order, and as many rows as accepted references. *)
Definition report_is_accepted_references
    (env : Env) (xlsx : option DataFrame) (w : World) : Prop :=
  forall rows w',
    main env xlsx w = (Ok rows, w') ->
    DOI <$> rows = (read_references xlsx).1 /\
    length rows = length (read_references xlsx).1.

(** C1, as stated, fails: a sheet whose only row holds the DOI
    [10.1234/abc] gives one accepted reference and a report of two rows,
    the second for the test DOI of lines 193-198. *)
Lemma report_has_extra_row :
  (read_references (Some (one_row_sheet "10.1234/abc"))).1 = ["10.1234/abc"] /\
  (exists rows w',
     main offline (Some (one_row_sheet "10.1234/abc")) fresh = (Ok rows, w') /\
     DOI <$> rows = ["10.1234/abc"; test_doi]) /\
  ~ report_is_accepted_references offline (Some (one_row_sheet "10.1234/abc")) fresh.
Proof.
  split; [by vm_compute |].
  split; [eexists _, _; split; [by vm_compute | reflexivity] |].
  intros Hclaim.
  destruct (main_rows offline (Some (one_row_sheet "10.1234/abc")) fresh)
    as (rows & w' & Hmain & Hrows).
  destruct (Hclaim rows w' Hmain) as [Hd _].
  rewrite Hd in Hrows. vm_compute in Hrows. discriminate.
Qed.

(** C1, amended: every run ends with a report that has exactly one row
    per accepted reference, in the order of the sheet, followed by one
    more row for the test DOI when that DOI is not among the accepted
    references; the row count is the accepted count, plus one in that
    case. *)
Theorem report_rows_follow_references env xlsx w :
  exists rows w',
    main env xlsx w = (Ok rows, w') /\
    let accepted := (read_references xlsx).1 in
    let extra := if decide (test_doi ∈ accepted) then [] else [test_doi] in
    DOI <$> rows = accepted ++ extra /\
    length rows = length accepted + length extra /\
    match xlsx with
    | Some df =>
        match find_doi_column df with
        | Some col =>
            accepted = (clean_dois (column df col)).*2 /\
            StronglySorted lt (clean_dois (column df col)).*1
        | None => accepted = []
        end
    | None => accepted = []
    end.
Proof.
  destruct (main_rows env xlsx w) as (rows & w' & Hmain & Hrows).
  exists rows, w'. split; [done |]. cbv zeta.
  assert (Hd : DOI <$> rows
               = (read_references xlsx).1 ++
                 (if decide (test_doi ∈ (read_references xlsx).1)
                  then [] else [test_doi])).
  { rewrite Hrows. unfold processed. case_decide; [by rewrite List.app_nil_r | done]. }
  split; [done |]. split.
  - rewrite <- length_app, <- Hd. by rewrite length_fmap.
  - destruct xlsx as [df|]; [|done].
    destruct (find_doi_column df) as [col|] eqn:Hc.
    + rewrite (read_references_found df col Hc). split; [done |].
      apply (extract_dropna_sorted 0).
    + unfold read_references. by rewrite Hc.
Qed.

(** C10: the test DOI is in the report of every run; when the sheet
    does not provide it, it is appended to the references, with no
    fallback link, and its row is the last one. *)
Theorem test_doi_always_reported env xlsx w :
  exists rows w',
    main env xlsx w = (Ok rows, w') /\
    test_doi ∈ (DOI <$> rows) /\
    let refs := read_references xlsx in
    (test_doi ∈ refs.1 /\ add_test_doi refs = refs
     \/ (test_doi ∉ refs.1) /\
        add_test_doi refs = (refs.1 ++ [test_doi], refs.2 ++ [None]) /\
        DOI <$> rows = refs.1 ++ [test_doi]).
Proof.
  destruct (main_rows env xlsx w) as (rows & w' & Hmain & Hrows).
  exists rows, w'. split; [done |]. rewrite Hrows. unfold processed, add_test_doi.
  cbv zeta. destruct (read_references xlsx) as [references pdf_links].
  cbn [fst snd]. case_decide as Hin.
  - split; [done |]. by left.
  - split; [apply elem_of_app; right; constructor |].
    right. done.
Qed.

(** ** Reference extractor *)

Lemma clean_dois_elem df col i d :
  i < nrows df ->
  (i, d) ∈ clean_dois (column df col) <->
  re_search (Py.strip (astype_str (cell df col i))) = Some d.
Proof.
  intros Hi. unfold clean_dois. rewrite extract_dropna_elem. split.
  - intros (j & t & -> & Hj & Hd). simpl in *.
    rewrite list_lookup_fmap, (column_lookup df col j Hi) in Hj.
    by injection Hj as <-.
  - intros Hd. exists i, (Py.strip (astype_str (cell df col i))).
    split; [done |]. split; [|done].
    by rewrite list_lookup_fmap, (column_lookup df col i Hi).
Qed.

(** The retention rule for a pattern [r]: the rows of the DOI column
    [col] that are kept are those whose trimmed cell contains a match
    of [r]. *)
Definition retains_rows_matching (r : regex) (df : DataFrame) (col : string)
  : Prop :=
  forall i, i < nrows df ->
    i ∈ (clean_dois (column df col)).*1 <->
    contains_match r (Py.strip (astype_str (cell df col i))).

(** C5, as stated, fails: the cell [10x1234/a] contains a match of
    [10.\d{4,}[/.].+], whose third character is any character, and the
    row is dropped, because line 35 asks for a literal dot there. *)
Lemma unescaped_dot_accepts_more :
  find_doi_column (one_row_sheet "10x1234/a") = Some "DOI" /\
  contains_match printed_pattern (Py.strip "10x1234/a") /\
  read_references (Some (one_row_sheet "10x1234/a")) = ([], []) /\
  ~ retains_rows_matching printed_pattern (one_row_sheet "10x1234/a") "DOI".
Proof.
  assert (Hm : contains_match printed_pattern (Py.strip "10x1234/a")).
  { exists "", "10x1234/a", "". split; [reflexivity |].
    change "10x1234/a" with ("1" +:+ "0" +:+ "x" +:+ "1234" +:+ "/" +:+ "a").
    unfold printed_pattern.
    apply MCat; [constructor |]. apply MCat; [constructor |].
    apply MCat; [by constructor |].
    apply MCat.
    { apply (matches_class_repeat Digit Py.isdigit matches_Digit).
      split; [simpl; lia | reflexivity]. }
    apply MCat; [constructor; simpl; auto |].
    apply (matches_class_repeat AnyChar not_newline matches_AnyChar).
    split; [simpl; lia | reflexivity]. }
  split; [reflexivity |]. split; [exact Hm |]. split; [reflexivity |].
  intros Hclaim.
  assert (Hin : 0 ∈ (clean_dois (column (one_row_sheet "10x1234/a") "DOI")).*1).
  { apply Hclaim; [simpl; lia | exact Hm]. }
  vm_compute in Hin. by apply elem_of_nil in Hin.
Qed.

(** C5, amended: a row is retained if and only if its trimmed DOI cell
    contains a substring matching [10\.\d{4,}[/.].+] (a literal dot after
    [10]); the retained DOI is then the leading match, the leftmost one
    and the longest at that place; the reference list holds the DOIs of
    the retained rows and nothing for the other rows, and so does the
    report, but for the row of the test DOI. *)
Theorem extractor_retains_doi_rows df col i :
  find_doi_column df = Some col -> i < nrows df ->
  let kept := clean_dois (column df col) in
  let t := Py.strip (astype_str (cell df col i)) in
  (i ∈ kept.*1 <-> contains_match doi_pattern t) /\
  (forall d, (i, d) ∈ kept -> leading_match doi_pattern t d) /\
  (read_references (Some df)).1 = kept.*2 /\
  forall env w, exists rows w',
    main env (Some df) w = (Ok rows, w') /\
    DOI <$> rows
    = kept.*2 ++ (if decide (test_doi ∈ kept.*2) then [] else [test_doi]).
Proof.
  intros Hcol Hi kept t. split; [|split; [|split]].
  - rewrite <- re_search_contains. split.
    + intros ([j d] & -> & Hin)%list_elem_of_fmap. simpl in *.
      apply (clean_dois_elem df col j d Hi) in Hin. by exists d.
    + intros [d Hd]. apply list_elem_of_fmap. exists (i, d). split; [done |].
      by apply clean_dois_elem.
  - intros d Hin. apply re_search_sound. by apply (clean_dois_elem df col i d Hi).
  - by rewrite (read_references_found df col Hcol).
  - intros env w. destruct (main_rows env (Some df) w) as (rows & w' & Hm & Hr).
    exists rows, w'. split; [done |]. rewrite Hr. unfold processed.
    rewrite (read_references_found df col Hcol). cbn [fst]. fold kept.
    case_decide; [by rewrite List.app_nil_r | done].
Qed.

Lemma extractor_retains_doi_rows_witness :
  find_doi_column two_row_sheet = Some "doi " /\
  1 < nrows two_row_sheet /\
  (1 ∈ (clean_dois (column two_row_sheet "doi ")).*1 <->
   contains_match doi_pattern "10.1234/abc.def") /\
  (forall d, (1, d) ∈ clean_dois (column two_row_sheet "doi ") ->
             leading_match doi_pattern "10.1234/abc.def" d) /\
  (read_references (Some two_row_sheet)).1
  = (clean_dois (column two_row_sheet "doi ")).*2 /\
  forall env w, exists rows w',
    main env (Some two_row_sheet) w = (Ok rows, w') /\
    DOI <$> rows
    = (clean_dois (column two_row_sheet "doi ")).*2 ++
      (if decide (test_doi ∈ (clean_dois (column two_row_sheet "doi ")).*2)
       then [] else [test_doi]).
Proof.
  assert (H1 : find_doi_column two_row_sheet = Some "doi ") by reflexivity.
  assert (H2 : 1 < nrows two_row_sheet) by (simpl; lia).
  exact (conj H1 (conj H2
           (extractor_retains_doi_rows two_row_sheet "doi " 1 H1 H2))).
Defined.

(** C6: the fallback link at position [k] belongs to the row of the DOI
    at position [k]; it is kept if and only if the sheet has a
    [Link to PDF] column whose cell in that row is a string that, once
    trimmed, starts with [http://] or [https://], and it is then the
    trimmed string; otherwise it is [None]. *)
Theorem fallback_links_aligned df col k i d :
  find_doi_column df = Some col ->
  clean_dois (column df col) !! k = Some (i, d) ->
  exists link,
    (read_references (Some df)).1 !! k = Some d /\
    (read_references (Some df)).2 !! k = Some link /\
    re_search (Py.strip (astype_str (cell df col i))) = Some d /\
    forall u,
      link = Some u <->
      link_column ∈ columns df /\
      exists s, cell df link_column i = CStr s /\ u = Py.strip s /\
        (Py.startswith "http://" u = true \/ Py.startswith "https://" u = true).
Proof.
  intros Hcol Hk. rewrite (read_references_found df col Hcol). cbn [fst snd].
  exists (clean_link (link_cell df i)).
  assert (Hi : i < nrows df).
  { pose proof (clean_dois_bound (column df col)) as Hb.
    rewrite Forall_forall in Hb. rewrite <- (column_length df col).
    apply Hb. apply list_elem_of_fmap. exists (i, d).
    split; [done |]. by eapply list_elem_of_lookup_2. }
  split; [by rewrite list_lookup_fmap, Hk |].
  split.
  { change (map ?f ?l) with (f <$> l). by rewrite !list_lookup_fmap, Hk. }
  split.
  { apply clean_dois_elem; [done |]. by eapply list_elem_of_lookup_2. }
  intros u. rewrite clean_link_Some. unfold link_cell. case_decide as Hin.
  - split; [intros H; by split | by intros [_ H]].
  - split; [by intros (s & ? & _) | by intros [? _]].
Qed.

Lemma fallback_links_aligned_witness :
  find_doi_column two_row_sheet = Some "doi " /\
  clean_dois (column two_row_sheet "doi ") !! 0 = Some (1, "10.1234/abc.def") /\
  exists link,
    (read_references (Some two_row_sheet)).1 !! 0 = Some "10.1234/abc.def" /\
    (read_references (Some two_row_sheet)).2 !! 0 = Some link /\
    re_search (Py.strip (astype_str (cell two_row_sheet "doi " 1)))
    = Some "10.1234/abc.def" /\
    forall u,
      link = Some u <->
      link_column ∈ columns two_row_sheet /\
      exists s, cell two_row_sheet link_column 1 = CStr s /\ u = Py.strip s /\
        (Py.startswith "http://" u = true \/ Py.startswith "https://" u = true).
Proof.
  assert (H1 : find_doi_column two_row_sheet = Some "doi ") by reflexivity.
  assert (H2 : clean_dois (column two_row_sheet "doi ") !! 0
               = Some (1, "10.1234/abc.def")) by reflexivity.
  exact (conj H1 (conj H2
           (fallback_links_aligned two_row_sheet "doi " 0 1 "10.1234/abc.def"
              H1 H2))).
Defined.

(** The scenarios of the specification. *)
Example doi_cell_trimmed :
  read_references (Some (one_row_sheet " 10.1038/s41586-020-2649-2 "))
  = (["10.1038/s41586-020-2649-2"], [None]).
Proof. reflexivity. Qed.

Example doi_cell_without_doi :
  read_references (Some (one_row_sheet "n/a")) = ([], []).
Proof. reflexivity. Qed.

Example ftp_link_discarded : clean_link (CStr "ftp://x") = None.
Proof. reflexivity. Qed.

Example two_row_sheet_references :
  read_references (Some two_row_sheet)
  = (["10.1234/abc.def"], [Some "https://example.org/a.pdf"]).
Proof. reflexivity. Qed.

(** ** Fetcher and validator *)

(** A body of [n] characters. *)
Fixpoint padding (n : nat) : string :=
  match n with
  | 0 => EmptyString
  | S n' => String "x" (padding n')
  end.

(** Every request is answered with [r]. *)
Definition answering (r : Response) : Env :=
  {| net := fun _ _ => Responded r; disk := fun _ => no_faults |}.

Definition html_page : Response :=
  {| status_code := 200; content_type := Some "text/html";
     content := padding 1001; json := None |}.

Definition not_found_page : Response :=
  {| status_code := 404; content_type := Some "text/html";
     content := "Not Found"; json := None |}.

(** A disk that already holds a three-byte file at [pdfs/a.pdf]. *)
Definition stale : World := {| files := {["pdfs/a.pdf" := "old"]}; trace := [] |}.

(** A file the validator accepts. *)
Definition valid_pdf (data : string) : Prop :=
  1000 <= String.length data /\ Py.startswith "%PDF" data = true.

(** The invariant as the specification states it: after a call, no file
    at the path, or a file of at least 1000 bytes that starts with
    [%PDF], or the signature check could not be done; and success means
    such a file. *)
Definition leaves_valid_pdf_or_nothing
    (env : Env) (url : pyval) (save_path : string) (w : World) : Prop :=
  forall ok msg w',
    download_pdf env url save_path w = (Ok (ok, msg), w') ->
    (files w' !! save_path = None
     \/ (exists data, files w' !! save_path = Some data /\ valid_pdf data)
     \/ msg = msg_sig_failed) /\
    (ok = true -> exists data, files w' !! save_path = Some data /\ valid_pdf data).

Lemma length_padding n : String.length (padding n) = n.
Proof. induction n as [|n IH]; simpl; [done | by rewrite IH]. Qed.

(** C2, as stated, fails twice.  A 200 response of type [text/html] with
    1001 bytes is written as it is and reported a success, with no
    signature check (lines 138-143).  And a 404 leaves a file that was
    at the path before the call where it is (lines 170-171). *)
Lemma fetcher_keeps_unchecked_files :
  (download_pdf (answering html_page) (PStr "http://x/y") "pdfs/a.pdf" fresh
   = (Ok (true, "Successfully downloaded (unknown content type)"),
      stored "pdfs/a.pdf" (padding 1001)
        (download_request (PStr "http://x/y")) fresh) /\
   Py.startswith "%PDF" (padding 1001) = false /\
   ~ leaves_valid_pdf_or_nothing (answering html_page) (PStr "http://x/y")
       "pdfs/a.pdf" fresh) /\
  (download_pdf (answering not_found_page) (PStr "http://x/y") "pdfs/a.pdf" stale
   = (Ok (false, "HTTP error: 404"),
      sent (download_request (PStr "http://x/y")) stale) /\
   files stale !! "pdfs/a.pdf" = Some "old" /\
   ~ leaves_valid_pdf_or_nothing (answering not_found_page) (PStr "http://x/y")
       "pdfs/a.pdf" stale).
Proof.
  assert (Hl : 1000 < String.length (content html_page)).
  { change (content html_page) with (padding 1001).
    rewrite length_padding. lia. }
  pose proof (download_pdf_unknown_big (answering html_page)
                (PStr "http://x/y") "pdfs/a.pdf" fresh html_page
                eq_refl eq_refl eq_refl Hl eq_refl) as Hrun1.
  assert (Hs : status_code not_found_page <> 200%Z) by done.
  pose proof (download_pdf_not_200 (answering not_found_page)
                (PStr "http://x/y") "pdfs/a.pdf" stale not_found_page
                eq_refl Hs) as Hrun2.
  split; (split; [eassumption |]); (split; [reflexivity |]); intros Hclaim.
  - destruct (Hclaim _ _ _ Hrun1)
      as [[Hnone | [(data & Hdata & _ & Hsig) | Hmsg]] _];
      unfold stored in *; cbn [files] in *.
    + by rewrite lookup_insert_eq in Hnone.
    + rewrite lookup_insert_eq in Hdata. injection Hdata as <-.
      by vm_compute in Hsig.
    + by vm_compute in Hmsg.
  - destruct (Hclaim _ _ _ Hrun2)
      as [[Hnone | [(data & Hdata & Hlen & _) | Hmsg]] _];
      unfold sent, stale in *; cbn [files] in *.
    + by rewrite lookup_singleton_eq in Hnone.
    + rewrite lookup_singleton_eq in Hdata. injection Hdata as <-.
      simpl in Hlen. lia.
    + by vm_compute in Hmsg.
Qed.

(** The response [r] that [Hnet] names is neither of a status other
    than 200 nor of an unknown type with at most 1000 bytes. *)
Ltac not_first_case Hnet :=
  let r' := fresh "r'" in
  let Hr' := fresh "Hr'" in
  let Hcase := fresh "Hcase" in
  intros r' Hr' Hcase; rewrite Hnet in Hr';
  first
    [ discriminate Hr'
    | injection Hr' as <-; exfalso;
      repeat match goal with
             | H : _ \/ _ |- _ => destruct H
             | H : _ /\ _ |- _ => destruct H
             end;
      first [ congruence | lia ] ].

(** C2, amended: a call of [download_pdf] returns unless [os.remove]
    raises inside the exception handler (line 174); that exception
    leaves the function, and the file stays at the path.  When the call
    returns, one of these describes it.  It failed and wrote and
    removed nothing, the response having a status other than 200 or an
    unknown content type with at most 1000 bytes: a file already at the
    path stays.  It failed and no file is at the path.  It succeeded
    with [Successfully downloaded], and the file has at least 1000 bytes
    and starts with [%PDF].  It succeeded with the unknown-content-type
    caveat, and the file is the body, of more than 1000 bytes, written
    unchecked.  It succeeded with the signature-check caveat, and the
    file has at least 1000 bytes.  Conversely a status other than 200,
    or an unknown content type with at most 1000 bytes, always gives the
    first case. *)
Theorem fetcher_final_states_by_outcome env rmf url save_path w :
  exists res w',
    download_pdf_rm env rmf url save_path w = (res, w') /\
    (remove_handler_fault (rmf (length (trace w))) = None ->
     exists outcome, res = Ok outcome) /\
    (forall r,
       net env (length (trace w)) (download_request url) = Responded r ->
       status_code r <> 200%Z \/
       type_allowed r = false /\ String.length (content r) <= 1000 ->
       (exists msg, res = Ok (false, msg)) /\ files w' = files w) /\
    match res with
    | Raise e =>
        remove_handler_fault (rmf (length (trace w))) = Some e /\
        is_Some (files w' !! save_path)
    | Ok (ok, msg) =>
        (ok = false /\ files w' = files w /\
         exists r,
           net env (length (trace w)) (download_request url) = Responded r /\
           (status_code r <> 200%Z \/
            type_allowed r = false /\ String.length (content r) <= 1000))
        \/
        (ok = false /\ files w' !! save_path = None)
        \/
        (ok = true /\ msg = msg_success /\
         exists data,
           files w' !! save_path = Some data /\
           1000 <= String.length data /\
           Py.startswith "%PDF" data = true)
        \/
        (ok = true /\ msg = msg_unknown_type /\
         exists r,
           net env (length (trace w)) (download_request url) = Responded r /\
           type_allowed r = false /\
           files w' !! save_path = Some (content r) /\
           1000 < String.length (content r))
        \/
        (ok = true /\ msg = msg_sig_failed /\
         (sig_read_fault (disk env (length (trace w))) = true \/
          remove_open_fault (disk env (length (trace w))) = true) /\
         exists data,
           files w' !! save_path = Some data /\
           1000 <= String.length data)
    end.
Proof.
  destruct (download_body_rm_ends env (rmf (length (trace w))) url save_path w)
    as (res1 & w1 & Hbody & Hends).
  rewrite download_pdf_rm_unfold, Hbody. clear Hbody.
  inversion Hends as
    [ e Hnet | r Hnet Hs | r Hnet Hs Ht Hl | r Hnet Hs Ht Hl Hf
    | r e Hnet Hs Ht Hf | r k e Hnet Hs Ht Hf
    | r Hnet Hs Ht Hf Hl Hr | r e Hnet Hs Ht Hf Hl Hr
    | r Hnet Hs Ht Hf Hl Hx | r Hnet Hs Ht Hf Hl Hp
    | r Hnet Hs Ht Hf Hl Hp ]; subst res1 w1; clear Hends.
  (* the body raised: the handler runs *)
  1, 5, 6, 8:
    match goal with
    | |- context [cleanup ?rf ?p ?e ?w1] =>
        destruct (cleanup_cases rf p e w1) as (res & w' & -> & _ & Hres)
    end;
    exists res, w'; (split; [reflexivity |]);
    destruct res as [[ok msg] | e'];
    [ destruct Hres as (Hout & Hfiles & _); injection Hout as -> ->;
      split; [intros _; eexists; reflexivity |];
      split; [not_first_case Hnet |];
      right; left; split; [reflexivity |];
      rewrite Hfiles; apply lookup_delete_eq
    | destruct Hres as (Hfault & -> & Hsome);
      split; [intros Hnone; rewrite Hnone in Hfault; discriminate Hfault |];
      split; [not_first_case Hnet |];
      split; [exact Hfault | exact Hsome] ].
  (* the body returned *)
  all: eexists _, _; (split; [reflexivity |]);
    (split; [intros _; eexists; reflexivity |]).
  - (* status other than 200 *)
    split; [intros; split; [eexists |]; reflexivity |].
    left. split; [reflexivity |]. split; [reflexivity |]. eauto.
  - (* unknown type, at most 1000 bytes *)
    split; [intros; split; [eexists |]; reflexivity |].
    left. split; [reflexivity |]. split; [reflexivity |]. eauto.
  - (* unknown type, more than 1000 bytes *)
    split; [not_first_case Hnet |].
    do 3 right. left. split; [reflexivity |]. split; [reflexivity |].
    exists r. unfold stored. cbn [files]. rewrite lookup_insert_eq. auto.
  - (* too small, removed *)
    split; [not_first_case Hnet |].
    right. left. split; [reflexivity |].
    unfold cleaned. cbn [files]. apply lookup_delete_eq.
  - (* signature check did not finish *)
    split; [not_first_case Hnet |].
    do 4 right. split; [reflexivity |]. split; [reflexivity |].
    split; [destruct Hx as [? | [_ ?]]; auto |].
    exists (content r). unfold stored. cbn [files].
    rewrite lookup_insert_eq. auto.
  - (* valid *)
    split; [not_first_case Hnet |].
    do 2 right. left. split; [reflexivity |]. split; [reflexivity |].
    exists (content r). unfold stored. cbn [files].
    rewrite lookup_insert_eq. auto.
  - (* wrong signature, removed *)
    split; [not_first_case Hnet |].
    right. left. split; [reflexivity |].
    unfold cleaned. cbn [files]. apply lookup_delete_eq.
Qed.

(** C4: a response whose status is not 200 makes [download_pdf] return
    failure with the message [HTTP error: ] followed by the status, and
    leaves the files as they were; the row of the reference then has
    [Download_Status] [Failed], that message as [Error_Message] and no
    [File_Path]. *)
Theorem non_200_is_http_error env doi pdf_link w pdf_url result w1 r :
  resolve env doi pdf_link (initial_row doi) w = (Ok (pdf_url, result), w1) ->
  truthy pdf_url = true ->
  net env (length (trace w1)) (download_request pdf_url) = Responded r ->
  status_code r <> 200%Z ->
  let message := "HTTP error: " +:+ Py.str_of_int (status_code r) in
  let w2 := sent (download_request pdf_url) w1 in
  download_pdf env pdf_url (filename doi) w1 = (Ok (false, message), w2) /\
  files w2 = files w1 /\
  exists row,
    process_reference env (doi, pdf_link) w = (Ok row, w2) /\
    Download_Status row = "Failed" /\
    Error_Message row = Some message /\
    File_Path row = None.
Proof.
  intros Hres Hurl Hnet Hstatus message w2.
  pose proof (download_pdf_not_200 env pdf_url (filename doi) w1 r Hnet Hstatus)
    as Hrun.
  split; [exact Hrun |]. split; [reflexivity |].
  exists (record_download doi (false, message) result).
  split; [|done].
  by apply (process_reference_download env doi pdf_link w pdf_url result w1).
Qed.

Definition sample_doi : string := "10.1234/abc".
Definition sample_link : string := "http://x/y.pdf".

(** The world after both lookups for [sample_doi]. *)
Definition looked_up : World :=
  sent (pubmed_request sample_doi) (sent (unpaywall_request sample_doi) fresh).

Lemma non_200_is_http_error_witness :
  resolve (answering not_found_page) sample_doi (Some sample_link)
    (initial_row sample_doi) fresh
  = (Ok (PStr sample_link, set_found "Excel Link" (initial_row sample_doi)),
     looked_up) /\
  truthy (PStr sample_link) = true /\
  net (answering not_found_page) (length (trace looked_up))
    (download_request (PStr sample_link))
  = Responded not_found_page /\
  status_code not_found_page <> 200%Z /\
  download_pdf (answering not_found_page) (PStr sample_link)
    (filename sample_doi) looked_up
  = (Ok (false, "HTTP error: 404"),
     sent (download_request (PStr sample_link)) looked_up) /\
  files (sent (download_request (PStr sample_link)) looked_up) = files looked_up /\
  exists row,
    process_reference (answering not_found_page) (sample_doi, Some sample_link) fresh
    = (Ok row, sent (download_request (PStr sample_link)) looked_up) /\
    Download_Status row = "Failed" /\
    Error_Message row = Some "HTTP error: 404" /\
    File_Path row = None.
Proof.
  assert (H1 : resolve (answering not_found_page) sample_doi (Some sample_link)
                 (initial_row sample_doi) fresh
               = (Ok (PStr sample_link,
                      set_found "Excel Link" (initial_row sample_doi)), looked_up))
    by reflexivity.
  assert (H2 : truthy (PStr sample_link) = true) by reflexivity.
  assert (H3 : net (answering not_found_page) (length (trace looked_up))
                 (download_request (PStr sample_link))
               = Responded not_found_page) by reflexivity.
  assert (H4 : status_code not_found_page <> 200%Z) by (simpl; lia).
  split; [exact H1 |]. split; [exact H2 |]. split; [exact H3 |].
  split; [exact H4 |].
  exact (non_200_is_http_error (answering not_found_page) sample_doi
           (Some sample_link) fresh _ _ looked_up not_found_page H1 H2 H3 H4).
Defined.

(** C7: on a 200 response whose content type contains none of [pdf],
    [octet-stream], [binary] and [download], a body of more than 1000
    bytes is written to the path as it is, when the write does not
    raise, and the call returns success with the message
    [Successfully downloaded (unknown content type)]; a body of at most
    1000 bytes gives failure, and the files stay as they were. *)
Theorem unknown_content_type_policy env url save_path w r :
  net env (length (trace w)) (download_request url) = Responded r ->
  status_code r = 200%Z ->
  existsb (fun t => Py.contains t (content_type_of r))
    ["pdf"; "octet-stream"; "binary"; "download"] = false ->
  (1000 < String.length (content r) ->
   write_fault (disk env (length (trace w))) = None ->
   exists w',
     download_pdf env url save_path w
     = (Ok (true, "Successfully downloaded (unknown content type)"), w') /\
     files w' = <[save_path := content r]> (files w) /\
     files w' !! save_path = Some (content r)) /\
  (String.length (content r) <= 1000 ->
   exists msg w',
     download_pdf env url save_path w = (Ok (false, msg), w') /\
     files w' = files w).
Proof.
  intros Hnet Hstatus Htype. split.
  - intros Hlen Hfault. eexists. split; [|split].
    + by apply (download_pdf_unknown_big env url save_path w r).
    + reflexivity.
    + unfold stored. cbn [files]. apply lookup_insert_eq.
  - intros Hlen. eexists _, _. split.
    + by apply (download_pdf_unknown_small env url save_path w r).
    + reflexivity.
Qed.

Lemma unknown_content_type_policy_witness :
  net (answering html_page) (length (trace fresh))
    (download_request (PStr sample_link))
  = Responded html_page /\
  status_code html_page = 200%Z /\
  existsb (fun t => Py.contains t (content_type_of html_page))
    ["pdf"; "octet-stream"; "binary"; "download"] = false /\
  exists w',
    download_pdf (answering html_page) (PStr sample_link) "pdfs/a.pdf" fresh
    = (Ok (true, "Successfully downloaded (unknown content type)"), w') /\
    files w' = <["pdfs/a.pdf" := padding 1001]> (files fresh) /\
    files w' !! "pdfs/a.pdf" = Some (padding 1001).
Proof.
  assert (H1 : net (answering html_page) (length (trace fresh))
                 (download_request (PStr sample_link))
               = Responded html_page) by reflexivity.
  assert (H2 : status_code html_page = 200%Z) by reflexivity.
  assert (H3 : existsb (fun t => Py.contains t (content_type_of html_page))
                 ["pdf"; "octet-stream"; "binary"; "download"] = false)
    by reflexivity.
  split; [exact H1 |]. split; [exact H2 |]. split; [exact H3 |].
  apply (unknown_content_type_policy (answering html_page) (PStr sample_link)
           "pdfs/a.pdf" fresh html_page H1 H2 H3).
  - change (content html_page) with (padding 1001). rewrite length_padding. lia.
  - reflexivity.
Defined.

(** ** Resolver chain *)

(** Service A answers with an open-access record that has a direct PDF
    link; every other request gets a 404. *)
Definition open_access_record : pyval :=
  PDict [("is_oa", PBool true);
         ("best_oa_location", PDict [("url_for_pdf", PStr "http://x/y.pdf")])].

Definition unpaywall_only : Env :=
  {| net := fun n _ =>
       match n with
       | 0 => Responded {| status_code := 200;
                           content_type := Some "application/json";
                           content := "";
                           json := Some open_access_record |}
       | _ => Responded not_found_page
       end;
     disk := fun _ => no_faults |}.

Lemma pubmed_request_distinct doi doi' url :
  pubmed_request doi' ∉ [unpaywall_request doi; download_request url].
Proof.
  intros H. apply elem_of_cons in H as [H | H]; [discriminate H |].
  apply list_elem_of_singleton in H. discriminate H.
Qed.

(** When Service A finds nothing, Service B is asked next, in the world
    Service A left. *)
Lemma pubmed_asked_second env doi pdf_link result w :
  exists v1,
    search_unpaywall env doi w = (Ok v1, sent (unpaywall_request doi) w) /\
    (truthy v1 = false ->
     exists found w2,
       resolve env doi pdf_link result w = (Ok found, w2) /\
       trace w2 = trace w ++ [unpaywall_request doi; pubmed_request doi]).
Proof.
  destruct (search_unpaywall_total env doi w) as (v1 & H1 & _).
  exists v1. split; [exact H1 |]. intros Hv1.
  destruct (search_pubmed_total env doi (sent (unpaywall_request doi) w))
    as (v2 & H2 & _).
  destruct (truthy v2) eqn:Hv2.
  - rewrite (resolve_pubmed env doi pdf_link result w _ _ _ _ H1 Hv1 H2 Hv2).
    eexists _, _. split; [reflexivity |].
    unfold sent. cbn [trace]. by rewrite <- List.app_assoc.
  - rewrite (resolve_fallback env doi pdf_link result w _ _ _ _ H1 Hv1 H2 Hv2).
    eexists _, _. split; [reflexivity |].
    unfold sent. cbn [trace]. by rewrite <- List.app_assoc.
Qed.

(** C3: when Service A yields a URL, that URL and the source
    [Unpaywall] are the result of the chain, whatever the fallback link;
    the reference is processed with two requests, the one to Service A
    and the download of that URL, and none of them is a request to
    Service B. *)
Theorem unpaywall_has_priority env doi pdf_link w v w1 :
  search_unpaywall env doi w = (Ok v, w1) ->
  truthy v = true ->
  resolve env doi pdf_link (initial_row doi) w
  = (Ok (v, set_found "Unpaywall" (initial_row doi)), w1) /\
  trace w1 = trace w ++ [unpaywall_request doi] /\
  exists outcome w2,
    download_pdf env v (filename doi) w1 = (Ok outcome, w2) /\
    process_reference env (doi, pdf_link) w
    = (Ok (record_download doi outcome (set_found "Unpaywall" (initial_row doi))),
       w2) /\
    Source (record_download doi outcome (set_found "Unpaywall" (initial_row doi)))
    = Some "Unpaywall" /\
    trace w2 = trace w ++ [unpaywall_request doi; download_request v] /\
    forall doi', pubmed_request doi' ∉ [unpaywall_request doi; download_request v].
Proof.
  intros Hsearch Hv.
  pose proof (resolve_unpaywall env doi pdf_link (initial_row doi) w v w1
                Hsearch Hv) as Hres.
  destruct (search_unpaywall_total env doi w) as (v' & Hs' & _).
  rewrite Hsearch in Hs'. injection Hs' as <- ->.
  split; [exact Hres |]. split; [reflexivity |].
  destruct (download_pdf_total env v (filename doi)
              (sent (unpaywall_request doi) w)) as ([ok msg] & w2 & Hd & Ht).
  exists (ok, msg), w2. split; [exact Hd |]. split.
  { exact (process_reference_download env doi pdf_link w v _ _ _ _ Hres Hv Hd). }
  split; [by destruct ok |]. split.
  { rewrite Ht. unfold sent. cbn [trace]. by rewrite <- List.app_assoc. }
  intros doi'. apply pubmed_request_distinct.
Qed.

Lemma unpaywall_has_priority_witness :
  search_unpaywall unpaywall_only test_doi fresh
  = (Ok (PStr "http://x/y.pdf"), sent (unpaywall_request test_doi) fresh) /\
  truthy (PStr "http://x/y.pdf") = true /\
  resolve unpaywall_only test_doi (Some sample_link) (initial_row test_doi) fresh
  = (Ok (PStr "http://x/y.pdf", set_found "Unpaywall" (initial_row test_doi)),
     sent (unpaywall_request test_doi) fresh).
Proof.
  assert (H1 : search_unpaywall unpaywall_only test_doi fresh
               = (Ok (PStr "http://x/y.pdf"),
                  sent (unpaywall_request test_doi) fresh)) by reflexivity.
  assert (H2 : truthy (PStr "http://x/y.pdf") = true) by reflexivity.
  split; [exact H1 |]. split; [exact H2 |].
  exact (proj1 (unpaywall_has_priority unpaywall_only test_doi (Some sample_link)
                  fresh _ _ H1 H2)).
Defined.

(** C9: when both services return no URL and the extractor kept a
    fallback link for the reference, that link is the URL handed to
    [download_pdf], and the row has the source [Excel Link], which is
    neither of the two service tags. *)
Theorem fallback_link_is_used env doi c link w v1 w1 v2 w2 :
  clean_link c = Some link ->
  search_unpaywall env doi w = (Ok v1, w1) -> truthy v1 = false ->
  search_pubmed env doi w1 = (Ok v2, w2) -> truthy v2 = false ->
  resolve env doi (Some link) (initial_row doi) w
  = (Ok (PStr link, set_found "Excel Link" (initial_row doi)), w2) /\
  "Excel Link" <> "Unpaywall" /\ "Excel Link" <> "PubMed" /\
  exists outcome w3,
    download_pdf env (PStr link) (filename doi) w2 = (Ok outcome, w3) /\
    trace w3 = trace w2 ++ [download_request (PStr link)] /\
    exists row,
      process_reference env (doi, Some link) w = (Ok row, w3) /\
      row = record_download doi outcome (set_found "Excel Link" (initial_row doi)) /\
      Source row = Some "Excel Link" /\
      PDF_Found row = true.
Proof.
  intros Hlink H1 Hv1 H2 Hv2.
  assert (Hne : Py.nonempty link = true).
  { apply clean_link_Some in Hlink as (s & _ & _ & [Hp | Hp]);
      by destruct link. }
  pose proof (resolve_fallback env doi (Some link) (initial_row doi) w
                v1 w1 v2 w2 H1 Hv1 H2 Hv2) as Hres.
  cbn [link_truthy link_value] in Hres. rewrite Hne in Hres.
  split; [exact Hres |]. split; [done |]. split; [done |].
  destruct (download_pdf_total env (PStr link) (filename doi) w2)
    as ([ok msg] & w3 & Hd & Ht).
  exists (ok, msg), w3. split; [exact Hd |]. split; [exact Ht |].
  eexists. split.
  { exact (process_reference_download env doi (Some link) w (PStr link) _ _ _ _
             Hres Hne Hd). }
  split; [reflexivity |]. by destruct ok.
Qed.

Lemma fallback_link_is_used_witness :
  clean_link (CStr " http://x/y.pdf ") = Some sample_link /\
  search_unpaywall offline sample_doi fresh
  = (Ok PNone, sent (unpaywall_request sample_doi) fresh) /\
  truthy PNone = false /\
  search_pubmed offline sample_doi (sent (unpaywall_request sample_doi) fresh)
  = (Ok PNone, looked_up) /\
  truthy PNone = false /\
  resolve offline sample_doi (Some sample_link) (initial_row sample_doi) fresh
  = (Ok (PStr sample_link, set_found "Excel Link" (initial_row sample_doi)),
     looked_up).
Proof.
  assert (H0 : clean_link (CStr " http://x/y.pdf ") = Some sample_link)
    by reflexivity.
  assert (H1 : search_unpaywall offline sample_doi fresh
               = (Ok PNone, sent (unpaywall_request sample_doi) fresh))
    by reflexivity.
  assert (H2 : truthy PNone = false) by reflexivity.
  assert (H3 : search_pubmed offline sample_doi
                 (sent (unpaywall_request sample_doi) fresh)
               = (Ok PNone, looked_up)) by reflexivity.
  split; [exact H0 |]. split; [exact H1 |]. split; [exact H2 |].
  split; [exact H3 |]. split; [exact H2 |].
  exact (proj1 (fallback_link_is_used offline sample_doi _ sample_link fresh
                  _ _ _ _ H0 H1 H2 H3 H2)).
Defined.

(** ** Timeouts *)

(** Every request of a run is issued with a timeout. *)
Definition every_request_has_timeout (w : World) : Prop :=
  Forall (fun rq => is_Some (r_timeout rq)) (trace w).

(** Service B is always asked without a timeout (line 100), while the
    requests of lines 67 and 129 pass 10 and 30 seconds. *)
Lemma pubmed_request_unbounded env doi w :
  exists v,
    search_pubmed env doi w = (Ok v, sent (pubmed_request doi) w) /\
    r_timeout (pubmed_request doi) = None /\
    r_timeout (unpaywall_request doi) = Some 10%Z /\
    forall url, r_timeout (download_request url) = Some 30%Z.
Proof.
  destruct (search_pubmed_total env doi w) as (v & H & _).
  exists v. done.
Qed.

(** C8 fails on the code: with an unreadable sheet and no network, the
    run processes the test DOI, Service A finds nothing, and the request
    to Service B goes out with no timeout. *)
Theorem lookup_b_request_without_timeout :
  exists rows w',
    main offline None fresh = (Ok rows, w') /\
    trace w' = [unpaywall_request test_doi; pubmed_request test_doi] /\
    r_timeout (pubmed_request test_doi) = None /\
    ~ every_request_has_timeout w'.
Proof.
  eexists _, _. split; [by vm_compute |]. split; [reflexivity |].
  split; [reflexivity |].
  unfold every_request_has_timeout. cbn [trace]. intros H.
  apply Forall_cons_1 in H as [_ H]. apply Forall_cons_1 in H as [[t Ht] _].
  discriminate Ht.
Qed.

(** ** Further scenarios of the specification *)

Definition bad_pdf : Response :=
  {| status_code := 200; content_type := Some "application/pdf";
     content := padding 1500; json := None |}.

Definition good_pdf : Response :=
  {| status_code := 200; content_type := Some "Application/PDF";
     content := "%PDF-1.4" +:+ padding 1500; json := None |}.

(** A body of 1500 bytes that does not start with [%PDF]: the file is
    deleted and the row says [Not a valid PDF file]. *)
Example invalid_pdf_is_removed :
  exists w',
    download_pdf (answering bad_pdf) (PStr sample_link) "pdfs/a.pdf" fresh
    = (Ok (false, "Not a valid PDF file"), w') /\
    files w' !! "pdfs/a.pdf" = None /\
    Error_Message (record_download sample_doi (false, "Not a valid PDF file")
                     (initial_row sample_doi))
    = Some "Not a valid PDF file".
Proof.
  eexists. split; [|split].
  - apply (download_pdf_invalid (answering bad_pdf) (PStr sample_link)
             "pdfs/a.pdf" fresh bad_pdf); try reflexivity.
    change (content bad_pdf) with (padding 1500). rewrite length_padding. lia.
  - unfold cleaned. cbn [files]. apply lookup_delete_eq.
  - reflexivity.
Qed.

Example valid_pdf_is_kept :
  exists w',
    download_pdf (answering good_pdf) (PStr sample_link) "pdfs/a.pdf" fresh
    = (Ok (true, "Successfully downloaded"), w') /\
    files w' !! "pdfs/a.pdf" = Some (content good_pdf).
Proof.
  eexists. split.
  - apply (download_pdf_valid (answering good_pdf) (PStr sample_link)
             "pdfs/a.pdf" fresh good_pdf); try reflexivity.
    change (content good_pdf) with ("%PDF-1.4" +:+ padding 1500).
    rewrite str_length_app, length_padding. simpl. lia.
  - unfold stored. cbn [files]. apply lookup_insert_eq.
Qed.

(** Service A returns an open-access record with a direct PDF link: the
    source is [Unpaywall] and the download goes to that link. *)
Example unpaywall_scenario :
  exists row w',
    process_reference unpaywall_only (test_doi, None) fresh = (Ok row, w') /\
    Source row = Some "Unpaywall" /\
    trace w' = [unpaywall_request test_doi;
                download_request (PStr "http://x/y.pdf")].
Proof. eexists _, _. split; [by vm_compute |]. split; reflexivity. Qed.

(** Nothing found and no fallback link. *)
Example nothing_found :
  exists w',
    process_reference offline (sample_doi, None) fresh
    = (Ok {| DOI := sample_doi; PDF_Found := false; Source := None;
             Download_Status := "Failed"; File_Path := None;
             Error_Message := Some "No PDF URL found" |}, w').
Proof. eexists. by vm_compute. Qed.

(** * Further properties of the program *)

(** ** What the extractor returns *)

Section ExtractorOutput.

Lemma rstrip_keeps_head c s :
  Py.isspace c = false -> Py.rstrip (String c s) = String c (Py.rstrip s).
Proof.
  intros Hc. change (Py.rstrip (String c s))
    with (match Py.rstrip s with
          | EmptyString => if Py.isspace c then EmptyString else String c EmptyString
          | r => String c r
          end).
  rewrite Hc. by destruct (Py.rstrip s).
Qed.

Lemma lstrip_head s :
  Py.lstrip s = "" \/ exists c r, Py.lstrip s = String c r /\ Py.isspace c = false.
Proof.
  induction s as [|c s IH]; [by left |].
  change (Py.lstrip (String c s))
    with (if Py.isspace c then Py.lstrip s else String c s).
  destruct (Py.isspace c) eqn:Hc; [exact IH |]. right. by exists c, s.
Qed.

Lemma rstrip_idem s : Py.rstrip (Py.rstrip s) = Py.rstrip s.
Proof.
  induction s as [|c s IH]; [done |].
  change (Py.rstrip (String c s))
    with (match Py.rstrip s with
          | EmptyString => if Py.isspace c then EmptyString else String c EmptyString
          | r => String c r
          end).
  destruct (Py.rstrip s) as [|x r] eqn:Hr.
  - destruct (Py.isspace c) eqn:Hc; [done |].
    rewrite (rstrip_keeps_head c "" Hc). done.
  - change (Py.rstrip (String c (String x r)))
      with (match Py.rstrip (String x r) with
            | EmptyString => if Py.isspace c then EmptyString else String c EmptyString
            | r0 => String c r0
            end).
    by rewrite IH.
Qed.

(** Trimming twice is trimming once. *)
Lemma strip_idem s : Py.strip (Py.strip s) = Py.strip s.
Proof.
  unfold Py.strip. destruct (lstrip_head s) as [-> | (c & r & -> & Hc)]; [done |].
  rewrite (rstrip_keeps_head c r Hc).
  change (Py.lstrip (String c (Py.rstrip r)))
    with (if Py.isspace c then Py.lstrip (Py.rstrip r) else String c (Py.rstrip r)).
  rewrite Hc. rewrite (rstrip_keeps_head c _ Hc). by rewrite rstrip_idem.
Qed.

Lemma test_doi_shape : doi_shape test_doi.
Proof.
  exists "1038", "/"%char, "s41586-020-2649-2". repeat split; simpl; lia.
Qed.

Lemma references_are_dois xlsx d :
  d ∈ (read_references xlsx).1 -> matches doi_pattern d.
Proof.
  destruct xlsx as [df|]; [|by intros ?%elem_of_nil].
  destruct (find_doi_column df) as [col|] eqn:Hc.
  - rewrite (read_references_found df col Hc). cbn [fst].
    intros ([i d'] & -> & Hin)%list_elem_of_fmap.
    unfold clean_dois in Hin. apply extract_dropna_elem in Hin
      as (j & t & _ & _ & Hd).
    by destruct (re_search_sound t d' Hd) as (_ & _ & _ & Hm & _).
  - unfold read_references. rewrite Hc. by intros ?%elem_of_nil.
Qed.

End ExtractorOutput.

(** X1: every reference [read_references] returns matches the pattern
    of line 35, and so does the DOI of every row of the report, the
    test DOI included. *)
Theorem report_dois_match_pattern env xlsx w :
  Forall (matches doi_pattern) (read_references xlsx).1 /\
  exists rows w',
    main env xlsx w = (Ok rows, w') /\
    Forall (fun row => matches doi_pattern (DOI row)) rows.
Proof.
  split.
  - apply Forall_forall. intros d. apply references_are_dois.
  - destruct (main_rows env xlsx w) as (rows & w' & Hmain & Hrows).
    exists rows, w'. split; [done |].
    assert (H : Forall (matches doi_pattern) (DOI <$> rows)).
    { rewrite Hrows. unfold processed. apply Forall_forall. intros d Hd.
      case_decide; [by apply (references_are_dois xlsx) |].
      apply elem_of_app in Hd as [Hd | Hd]; [by apply (references_are_dois xlsx) |].
      apply list_elem_of_singleton in Hd as ->.
      apply matches_doi_pattern, test_doi_shape. }
    rewrite Forall_fmap in H. exact H.
Qed.

(** X2: every fallback link [read_references] keeps starts with
    [http://] or [https://] and has no white space around it. *)
Theorem kept_links_are_trimmed_urls xlsx :
  Forall (fun pdf_link =>
            match pdf_link with
            | None => True
            | Some u =>
                (Py.startswith "http://" u = true \/
                 Py.startswith "https://" u = true) /\
                Py.strip u = u
            end)
         (read_references xlsx).2.
Proof.
  destruct xlsx as [df|]; [|constructor].
  destruct (find_doi_column df) as [col|] eqn:Hc.
  - rewrite (read_references_found df col Hc). cbn [snd].
    apply Forall_forall. intros l Hl.
    change (map ?f ?k) with (f <$> k) in Hl.
    apply list_elem_of_fmap in Hl as (i & -> & _).
    destruct (clean_link (link_cell df i)) as [u|] eqn:Hu; [|done].
    apply clean_link_Some in Hu as (s & _ & -> & Hp).
    split; [exact Hp | apply strip_idem].
  - unfold read_references. rewrite Hc. constructor.
Qed.

(** X3: the references and the links [main] zips always have the same
    length, before and after the test DOI is added, so that [zip] drops
    no reference and no link. *)
Theorem references_and_links_paired xlsx :
  length (read_references xlsx).1 = length (read_references xlsx).2 /\
  let refs := add_test_doi (read_references xlsx) in
  length refs.1 = length refs.2 /\
  (zip refs.1 refs.2).*1 = refs.1 /\
  (zip refs.1 refs.2).*2 = refs.2.
Proof.
  pose proof (read_references_lengths xlsx) as Hlen.
  split; [exact Hlen |]. unfold add_test_doi.
  destruct (read_references xlsx) as [references pdf_links]. cbn [fst snd] in *.
  case_decide; cbn [fst snd].
  - split; [done |]. split; [apply fst_zip | apply snd_zip]; lia.
  - assert (Hl : length (references ++ [test_doi]) = length (pdf_links ++ [None])).
    { rewrite !length_app. simpl. lia. }
    split; [done |]. split; [apply fst_zip | apply snd_zip]; lia.
Qed.

Lemma find_doi_column_none df :
  Forall (fun label => Py.contains "doi" (Py.lower (Py.strip label)) = false)
         (columns df) ->
  find_doi_column df = None.
Proof.
  unfold find_doi_column. induction (columns df) as [|l ls IH]; [done |].
  intros [Hl Hls]%Forall_cons_1. cbn [find]. rewrite Hl. by apply IH.
Qed.

(** X4: when the sheet cannot be read, or no column label contains
    [doi], [read_references] returns two empty lists, and the run still
    ends with a report of exactly one row, the one of the test DOI. *)
Theorem unusable_sheet_reports_test_doi env xlsx w :
  xlsx = None \/
  (exists df, xlsx = Some df /\
     Forall (fun label => Py.contains "doi" (Py.lower (Py.strip label)) = false)
            (columns df)) ->
  read_references xlsx = ([], []) /\
  exists row w', main env xlsx w = (Ok [row], w') /\ DOI row = test_doi.
Proof.
  intros Hx.
  assert (Hr : read_references xlsx = ([], [])).
  { destruct Hx as [-> | (df & -> & Hcols)]; [done |].
    unfold read_references. by rewrite (find_doi_column_none df Hcols). }
  split; [exact Hr |].
  destruct (main_rows env xlsx w) as (rows & w' & Hmain & Hrows).
  unfold processed in Hrows. rewrite Hr in Hrows. cbn [fst] in Hrows.
  rewrite decide_False in Hrows by apply not_elem_of_nil.
  destruct rows as [|row [|row' rows]]; try discriminate Hrows.
  exists row, w'. split; [exact Hmain |]. by injection Hrows.
Qed.

(** A sheet with a title column only. *)
Definition sheet_without_dois : DataFrame :=
  {| columns := ["Title"; "Year"]; nrows := 3; cell := fun _ _ => CStr "10.1234/abc" |}.

Lemma unusable_sheet_reports_test_doi_witness :
  (Some sheet_without_dois = None \/
   (exists df, Some sheet_without_dois = Some df /\
      Forall (fun label => Py.contains "doi" (Py.lower (Py.strip label)) = false)
             (columns df))) /\
  read_references (Some sheet_without_dois) = ([], []) /\
  exists row w',
    main offline (Some sheet_without_dois) fresh = (Ok [row], w') /\
    DOI row = test_doi.
Proof.
  assert (H : Some sheet_without_dois = None \/
              (exists df, Some sheet_without_dois = Some df /\
                 Forall (fun label =>
                           Py.contains "doi" (Py.lower (Py.strip label)) = false)
                        (columns df))).
  { right. exists sheet_without_dois. split; [reflexivity |].
    repeat constructor. }
  exact (conj H (unusable_sheet_reports_test_doi offline _ fresh H)).
Defined.








(** ** What the lookup services return *)

(** [d.get(k)] on the items of a dict. *)
Definition field (k : string) (d : list (string * pyval)) : pyval :=
  match assoc k d with Some x => x | None => PNone end.

(** An exchange that gives the lookup nothing to read: it raised, the
    status is not 200, or the body is not JSON. *)
Definition failed_exchange (h : HttpResult) : Prop :=
  match h with
  | Raised _ => True
  | Responded r => status_code r <> 200%Z \/ json r = None
  end.

Section ServiceResults.

Variable env : Env.

Ltac lookup :=
  unfold search_unpaywall, search_pubmed, try_except, bind, requests_get,
    response_json, lift, ret, raise, sent.

Lemma lower_app a b : Py.lower (a +:+ b) = Py.lower a +:+ Py.lower b.
Proof.
  induction a as [|c a IH]; [done |].
  change (String (Py.lower_char c) (Py.lower (a +:+ b))
          = String (Py.lower_char c) (Py.lower a +:+ Py.lower b)).
  by rewrite IH.
Qed.

Lemma endswith_app a p : Py.endswith p (a +:+ p) = true.
Proof.
  induction a as [|c a IH].
  - change ("" +:+ p) with p. destruct p as [|x p]; [reflexivity |].
    change (String.eqb (String x p) (String x p)
            || Py.endswith (String x p) p = true).
    by rewrite String.eqb_refl.
  - change (String.eqb p (String c (a +:+ p)) || Py.endswith p (a +:+ p) = true).
    by rewrite IH, orb_true_r.
Qed.

Lemma first_location_skips pre l (post : list pyval) :
  Forall (fun p => truthy (py_or (field "url_for_pdf" p) (field "url" p)) = false)
         pre ->
  truthy (py_or (field "url_for_pdf" l) (field "url" l)) = true ->
  first_location (map PDict pre ++ PDict l :: post)
  = Ok (py_or (field "url_for_pdf" l) (field "url" l)).
Proof.
  intros Hpre Hl. induction Hpre as [|p pre Hp _ IH].
  - cbn [map app first_location location_url py_get]. fold (field "url_for_pdf" l).
    fold (field "url" l). unfold py_or in *.
    destruct (truthy (field "url_for_pdf" l)) eqn:Ha; by rewrite ?Ha, ?Hl.
  - cbn [map app first_location location_url py_get]. fold (field "url_for_pdf" p).
    fold (field "url" p). unfold py_or in Hp.
    destruct (truthy (field "url_for_pdf" p)) eqn:Ha; rewrite ?Ha, ?Hp; [|exact IH].
    congruence.
Qed.

(** X6: both lookups absorb every exception: whatever the network
    answers, each returns, after exactly one request and without
    touching the files, either [None] or a truthy value. *)
Theorem lookups_never_raise doi w :
  (exists v,
     search_unpaywall env doi w = (Ok v, sent (unpaywall_request doi) w) /\
     (v = PNone \/ truthy v = true)) /\
  (exists v,
     search_pubmed env doi w = (Ok v, sent (pubmed_request doi) w) /\
     (v = PNone \/ truthy v = true)) /\
  files (sent (unpaywall_request doi) w) = files w /\
  files (sent (pubmed_request doi) w) = files w.
Proof.
  split; [apply search_unpaywall_total |].
  split; [apply search_pubmed_total | done].
Qed.

(** X7: Service A finds nothing when its exchange raises, answers with
    a status other than 200, or with a body that is not JSON. *)
Theorem unpaywall_failure_is_none doi w :
  failed_exchange (net env (length (trace w)) (unpaywall_request doi)) ->
  search_unpaywall env doi w = (Ok PNone, sent (unpaywall_request doi) w).
Proof.
  intros H. lookup.
  destruct (net env (length (trace w)) (unpaywall_request doi)) as [e|r];
    [done |].
  destruct H as [H | H].
  - apply Z.eqb_neq in H. by rewrite H.
  - rewrite H. by destruct (status_code r =? 200)%Z.
Qed.

(** X8: Service B finds nothing in the same three cases. *)
Theorem pubmed_failure_is_none doi w :
  failed_exchange (net env (length (trace w)) (pubmed_request doi)) ->
  search_pubmed env doi w = (Ok PNone, sent (pubmed_request doi) w).
Proof.
  intros H. lookup.
  destruct (net env (length (trace w)) (pubmed_request doi)) as [e|r];
    [done |].
  destruct H as [H | H].
  - apply Z.eqb_neq in H. by rewrite H.
  - rewrite H. by destruct (status_code r =? 200)%Z.
Qed.

(** X9: Service A uses a record only if its [is_oa] is truthy: a record
    without it, or with a falsy one, gives [None] whatever links the
    record holds. *)
Theorem unpaywall_needs_open_access doi w r d :
  net env (length (trace w)) (unpaywall_request doi) = Responded r ->
  json r = Some (PDict d) ->
  truthy (field "is_oa" d) = false ->
  search_unpaywall env doi w = (Ok PNone, sent (unpaywall_request doi) w).
Proof.
  intros Hnet Hjson Hoa. lookup. rewrite Hnet.
  destruct (status_code r =? 200)%Z; [|done].
  rewrite Hjson. cbn [py_get]. fold (field "is_oa" d). by rewrite Hoa.
Qed.

(** X10: on an open-access record whose [best_oa_location] is a dict
    with a truthy [url_for_pdf] or [url], Service A returns
    [url_for_pdf] if it is truthy and [url] otherwise; [oa_locations]
    is not looked at. *)
Theorem unpaywall_prefers_best_location doi w r d b :
  net env (length (trace w)) (unpaywall_request doi) = Responded r ->
  status_code r = 200%Z ->
  json r = Some (PDict d) ->
  truthy (field "is_oa" d) = true ->
  assoc "best_oa_location" d = Some (PDict b) ->
  truthy (py_or (field "url_for_pdf" b) (field "url" b)) = true ->
  search_unpaywall env doi w
  = (Ok (py_or (field "url_for_pdf" b) (field "url" b)),
     sent (unpaywall_request doi) w).
Proof.
  intros Hnet Hs Hjson Hoa Hbest Hu. lookup. rewrite Hnet.
  apply Z.eqb_eq in Hs as ->. rewrite Hjson. cbn [py_get].
  fold (field "is_oa" d). rewrite Hoa.
  unfold unpaywall_pdf_url. cbn [py_get]. rewrite Hbest.
  change (py_get (PDict b) "url_for_pdf" PNone) with (Ok (field "url_for_pdf" b)).
  change (py_get (PDict b) "url" PNone) with (Ok (field "url" b)).
  unfold py_or in *.
  destruct (truthy (field "url_for_pdf" b)) eqn:Ha.
  - by rewrite Ha.
  - by rewrite Hu, Hu.
Qed.

(** X11: when [best_oa_location] is missing, or is a dict with neither
    link, Service A returns the link of the first entry of
    [oa_locations] that has one, [url_for_pdf] before [url]. *)
Theorem unpaywall_scans_locations doi w r d b pre l post :
  net env (length (trace w)) (unpaywall_request doi) = Responded r ->
  status_code r = 200%Z ->
  json r = Some (PDict d) ->
  truthy (field "is_oa" d) = true ->
  py_get (PDict d) "best_oa_location" (PDict []) = Ok (PDict b) ->
  truthy (field "url_for_pdf" b) = false ->
  truthy (field "url" b) = false ->
  assoc "oa_locations" d = Some (PList (map PDict pre ++ PDict l :: post)) ->
  Forall (fun p => truthy (py_or (field "url_for_pdf" p) (field "url" p)) = false)
         pre ->
  truthy (py_or (field "url_for_pdf" l) (field "url" l)) = true ->
  search_unpaywall env doi w
  = (Ok (py_or (field "url_for_pdf" l) (field "url" l)),
     sent (unpaywall_request doi) w).
Proof.
  intros Hnet Hs Hjson Hoa Hbest Ha Hb Hlocs Hpre Hl. lookup. rewrite Hnet.
  apply Z.eqb_eq in Hs as ->. rewrite Hjson.
  cbn [py_get] in Hbest. injection Hbest as Hbest.
  cbn [py_get]. fold (field "is_oa" d). rewrite Hoa.
  unfold unpaywall_pdf_url. cbn [py_get]. rewrite Hbest.
  change (py_get (PDict b) "url_for_pdf" PNone) with (Ok (field "url_for_pdf" b)).
  change (py_get (PDict b) "url" PNone) with (Ok (field "url" b)).
  cbv beta iota. rewrite Ha, Hb, Hlocs. cbn [py_iter].
  rewrite (first_location_skips pre l post Hpre Hl). by rewrite Hl.
Qed.

(** X12: when the record has a [best_oa_location] that is not a dict (a
    JSON [null], say), reading its fields raises, and Service A returns
    [None] even if [oa_locations] holds links. *)
Theorem unpaywall_null_best_location doi w r d v :
  net env (length (trace w)) (unpaywall_request doi) = Responded r ->
  json r = Some (PDict d) ->
  assoc "best_oa_location" d = Some v ->
  (forall b, v <> PDict b) ->
  search_unpaywall env doi w = (Ok PNone, sent (unpaywall_request doi) w).
Proof.
  intros Hnet Hjson Hbest Hv. lookup. rewrite Hnet.
  destruct (status_code r =? 200)%Z; [|done].
  rewrite Hjson. cbn [py_get]. destruct (truthy _); [|done].
  unfold unpaywall_pdf_url. cbn [py_get]. rewrite Hbest.
  destruct v; try done. by destruct (Hv d0).
Qed.

(** X13: whatever Service B returns is [None] or a non-empty string
    that ends with [.pdf], in any letter case. *)
Theorem pubmed_url_ends_with_pdf doi w :
  exists v,
    search_pubmed env doi w = (Ok v, sent (pubmed_request doi) w) /\
    (v = PNone \/
     exists u, v = PStr u /\ Py.nonempty u = true /\
               Py.endswith ".pdf" (Py.lower u) = true).
Proof.
  lookup.
  repeat case_match; simplify_eq; eauto;
    eexists; (split; [reflexivity |]); right; eexists; (split; [reflexivity |]).
  all: try match goal with
           | H : negb (Py.endswith _ _) = true |- _ =>
               split; [by destruct s | rewrite lower_app; apply endswith_app]
           | H : negb (Py.endswith _ _) = false |- _ =>
               apply negb_false_iff in H; split; [assumption | exact H]
           end.
Qed.

End ServiceResults.

(** A 200 response whose body is the JSON value [v]. *)
Definition json_reply (v : pyval) : Response :=
  {| status_code := 200; content_type := Some "application/json";
     content := ""; json := Some v |}.

Lemma unpaywall_failure_is_none_witness :
  failed_exchange
    (net (answering not_found_page) (length (trace fresh))
       (unpaywall_request sample_doi)) /\
  search_unpaywall (answering not_found_page) sample_doi fresh
  = (Ok PNone, sent (unpaywall_request sample_doi) fresh).
Proof.
  assert (H : failed_exchange
                (net (answering not_found_page) (length (trace fresh))
                   (unpaywall_request sample_doi))).
  { left. simpl. lia. }
  exact (conj H (unpaywall_failure_is_none (answering not_found_page)
                   sample_doi fresh H)).
Defined.

Lemma pubmed_failure_is_none_witness :
  failed_exchange
    (net (answering html_page) (length (trace fresh)) (pubmed_request sample_doi)) /\
  search_pubmed (answering html_page) sample_doi fresh
  = (Ok PNone, sent (pubmed_request sample_doi) fresh).
Proof.
  assert (H : failed_exchange
                (net (answering html_page) (length (trace fresh))
                   (pubmed_request sample_doi))).
  { right. reflexivity. }
  exact (conj H (pubmed_failure_is_none (answering html_page)
                   sample_doi fresh H)).
Defined.

(** A record that is not open access, though it names a link. *)
Definition closed_record : list (string * pyval) :=
  [("is_oa", PBool false);
   ("best_oa_location", PDict [("url_for_pdf", PStr "http://x/y.pdf")])].

Lemma unpaywall_needs_open_access_witness :
  net (answering (json_reply (PDict closed_record))) (length (trace fresh))
    (unpaywall_request sample_doi)
  = Responded (json_reply (PDict closed_record)) /\
  json (json_reply (PDict closed_record)) = Some (PDict closed_record) /\
  truthy (field "is_oa" closed_record) = false /\
  search_unpaywall (answering (json_reply (PDict closed_record))) sample_doi fresh
  = (Ok PNone, sent (unpaywall_request sample_doi) fresh).
Proof.
  exact (conj eq_refl (conj eq_refl (conj eq_refl
           (unpaywall_needs_open_access
              (answering (json_reply (PDict closed_record))) sample_doi fresh
              (json_reply (PDict closed_record)) closed_record
              eq_refl eq_refl eq_refl)))).
Defined.

(** An open-access record whose best location has a landing page only. *)
Definition landing_page_location : list (string * pyval) :=
  [("url_for_pdf", PNone); ("url", PStr "http://x/landing")].

Definition landing_page_record : list (string * pyval) :=
  [("is_oa", PBool true);
   ("best_oa_location", PDict landing_page_location);
   ("oa_locations", PList [PDict [("url_for_pdf", PStr "http://x/other.pdf")]])].

Lemma unpaywall_prefers_best_location_witness :
  net (answering (json_reply (PDict landing_page_record))) (length (trace fresh))
    (unpaywall_request sample_doi)
  = Responded (json_reply (PDict landing_page_record)) /\
  status_code (json_reply (PDict landing_page_record)) = 200%Z /\
  json (json_reply (PDict landing_page_record)) = Some (PDict landing_page_record) /\
  truthy (field "is_oa" landing_page_record) = true /\
  assoc "best_oa_location" landing_page_record = Some (PDict landing_page_location) /\
  truthy (py_or (field "url_for_pdf" landing_page_location)
            (field "url" landing_page_location)) = true /\
  search_unpaywall (answering (json_reply (PDict landing_page_record)))
    sample_doi fresh
  = (Ok (PStr "http://x/landing"), sent (unpaywall_request sample_doi) fresh).
Proof.
  exact (conj eq_refl (conj eq_refl (conj eq_refl (conj eq_refl
           (conj eq_refl (conj eq_refl
              (unpaywall_prefers_best_location
                 (answering (json_reply (PDict landing_page_record)))
                 sample_doi fresh (json_reply (PDict landing_page_record))
                 landing_page_record landing_page_location
                 eq_refl eq_refl eq_refl eq_refl eq_refl eq_refl))))))).
Defined.

(** An open-access record with no best location; the first alternate
    location has no link, the second has a landing page. *)
Definition empty_location : list (string * pyval) := [("version", PStr "x")].

Definition scattered_record : list (string * pyval) :=
  [("is_oa", PBool true);
   ("oa_locations",
    PList [PDict empty_location; PDict landing_page_location;
           PDict [("url_for_pdf", PStr "http://x/late.pdf")]])].

Lemma unpaywall_scans_locations_witness :
  net (answering (json_reply (PDict scattered_record))) (length (trace fresh))
    (unpaywall_request sample_doi)
  = Responded (json_reply (PDict scattered_record)) /\
  status_code (json_reply (PDict scattered_record)) = 200%Z /\
  json (json_reply (PDict scattered_record)) = Some (PDict scattered_record) /\
  truthy (field "is_oa" scattered_record) = true /\
  py_get (PDict scattered_record) "best_oa_location" (PDict []) = Ok (PDict []) /\
  truthy (field "url_for_pdf" []) = false /\
  truthy (field "url" []) = false /\
  assoc "oa_locations" scattered_record
  = Some (PList (map PDict [empty_location] ++ PDict landing_page_location
                 :: [PDict [("url_for_pdf", PStr "http://x/late.pdf")]])) /\
  Forall (fun p => truthy (py_or (field "url_for_pdf" p) (field "url" p)) = false)
         [empty_location] /\
  truthy (py_or (field "url_for_pdf" landing_page_location)
            (field "url" landing_page_location)) = true /\
  search_unpaywall (answering (json_reply (PDict scattered_record)))
    sample_doi fresh
  = (Ok (PStr "http://x/landing"), sent (unpaywall_request sample_doi) fresh).
Proof.
  assert (Hpre : Forall (fun p => truthy (py_or (field "url_for_pdf" p)
                                            (field "url" p)) = false)
                   [empty_location]) by (repeat constructor).
  exact (conj eq_refl (conj eq_refl (conj eq_refl (conj eq_refl
           (conj eq_refl (conj eq_refl (conj eq_refl (conj eq_refl
              (conj Hpre (conj eq_refl
                 (unpaywall_scans_locations
                    (answering (json_reply (PDict scattered_record)))
                    sample_doi fresh (json_reply (PDict scattered_record))
                    scattered_record [] [empty_location] landing_page_location
                    [PDict [("url_for_pdf", PStr "http://x/late.pdf")]]
                    eq_refl eq_refl eq_refl eq_refl eq_refl eq_refl eq_refl
                    eq_refl Hpre eq_refl))))))))))).
Defined.

(** An open-access record whose best location is [null]. *)
Definition null_location_record : list (string * pyval) :=
  [("is_oa", PBool true);
   ("best_oa_location", PNone);
   ("oa_locations", PList [PDict [("url_for_pdf", PStr "http://x/other.pdf")]])].

Lemma unpaywall_null_best_location_witness :
  net (answering (json_reply (PDict null_location_record))) (length (trace fresh))
    (unpaywall_request sample_doi)
  = Responded (json_reply (PDict null_location_record)) /\
  json (json_reply (PDict null_location_record)) = Some (PDict null_location_record) /\
  assoc "best_oa_location" null_location_record = Some PNone /\
  (forall b, PNone <> PDict b) /\
  search_unpaywall (answering (json_reply (PDict null_location_record)))
    sample_doi fresh
  = (Ok PNone, sent (unpaywall_request sample_doi) fresh).
Proof.
  assert (Hv : forall b, PNone <> PDict b) by (intros b; discriminate).
  exact (conj eq_refl (conj eq_refl (conj eq_refl (conj Hv
           (unpaywall_null_best_location
              (answering (json_reply (PDict null_location_record)))
              sample_doi fresh (json_reply (PDict null_location_record))
              null_location_record PNone eq_refl eq_refl eq_refl Hv))))).
Defined.

(** ** What the fetcher does to the disk *)

(** X14: a call of [download_pdf], with [os.remove] allowed to raise,
    issues exactly one request and leaves every file other than the one
    at its destination path as it was, whether it returns or raises.
    It returns whenever the [os.remove] of the exception handler (line
    174) does not raise; when it raises, the exception is the one of
    that [os.remove], and the file is still at the path. *)
Theorem download_raises_only_from_handler env rmf url save_path w :
  exists res w',
    download_pdf_rm env rmf url save_path w = (res, w') /\
    trace w' = trace w ++ [download_request url] /\
    (forall p, p <> save_path -> files w' !! p = files w !! p) /\
    (remove_handler_fault (rmf (length (trace w))) = None ->
     exists outcome, res = Ok outcome) /\
    (forall e,
       res = Raise e ->
       remove_handler_fault (rmf (length (trace w))) = Some e /\
       is_Some (files w' !! save_path)).
Proof.
  destruct (download_body_rm_ends env (rmf (length (trace w))) url save_path w)
    as (res1 & w1 & Hbody & Hends).
  apply body_ends_frame in Hends as [Htrace Hframe].
  rewrite download_pdf_rm_unfold, Hbody. clear Hbody.
  destruct res1 as [outcome | e1].
  { exists (Ok outcome), w1. split; [reflexivity |].
    split; [exact Htrace |]. split; [exact Hframe |].
    split; [by eexists | discriminate]. }
  destruct (cleanup_cases (rmf (length (trace w))) save_path e1 w1)
    as (res & w' & -> & Htrace' & Hres).
  exists res, w'. split; [reflexivity |].
  split; [by rewrite Htrace' |].
  destruct res as [outcome | e'].
  - destruct Hres as (_ & Hfiles & _).
    split; [| split; [by eexists | discriminate]].
    intros p Hp. rewrite Hfiles, lookup_delete_ne by done. by apply Hframe.
  - destruct Hres as (Hfault & -> & Hsome).
    split; [exact Hframe |]. split.
    + intros Hnone. rewrite Hnone in Hfault. discriminate Hfault.
    + intros e He. injection He as <-. by split.
Qed.

(** An [os.remove] that raises in the handler.  The request fails, a file
    is at the path, and the exception of [os.remove] leaves
    [download_pdf] in place of the pair it returns otherwise. *)
Definition remove_fails (e : string) : nat -> RemoveFaults :=
  fun _ => {| remove_small_fault := None; remove_handler_fault := Some e |}.

Example handler_remove_escapes :
  download_pdf_rm offline (remove_fails "IsADirectoryError")
    (PStr sample_link) "pdfs/a.pdf" stale
  = (Raise "IsADirectoryError", sent (download_request (PStr sample_link)) stale).
Proof. reflexivity. Qed.

(** X15: when the request raises, or the write of the body raises, the
    exception handler runs.  If its [os.remove] does not raise, the call
    returns failure with the message [Download error: ] followed by the
    text of the exception, and no file is left at the destination path,
    not even one that was there before the call.  If its [os.remove]
    raises, nothing is removed: a file that was at the path before the
    call is still there, and the call raises the exception of
    [os.remove] exactly when a file is at the path; with no file there
    it returns the failure. *)
Theorem failed_fetch_cleanup env rmf url save_path w e :
  net env (length (trace w)) (download_request url) = Raised e \/
  (exists r f,
     net env (length (trace w)) (download_request url) = Responded r /\
     status_code r = 200%Z /\
     (type_allowed r = true \/ 1000 < String.length (content r)) /\
     write_fault (disk env (length (trace w))) = Some f /\
     fault_message f = e) ->
  match remove_handler_fault (rmf (length (trace w))) with
  | None =>
      download_pdf_rm env rmf url save_path w
      = (Ok (false, "Download error: " +:+ e),
         {| files := delete save_path (files w);
            trace := trace w ++ [download_request url] |}) /\
      delete save_path (files w) !! save_path = None
  | Some e' =>
      exists w',
        download_pdf_rm env rmf url save_path w
        = (if bool_decide (is_Some (files w' !! save_path))
           then Raise e' else Ok (false, "Download error: " +:+ e), w') /\
        trace w' = trace w ++ [download_request url] /\
        (forall p, p <> save_path -> files w' !! p = files w !! p) /\
        (is_Some (files w !! save_path) -> is_Some (files w' !! save_path))
  end.
Proof.
  intros H.
  destruct (download_body_rm_ends env (rmf (length (trace w))) url save_path w)
    as (res1 & w1 & Hbody & Hends).
  pose proof (body_ends_frame _ _ _ _ _ _ _ Hends) as [Htrace Hframe].
  assert (Hraise : res1 = Raise e /\
                   delete save_path (files w1) = delete save_path (files w) /\
                   (is_Some (files w !! save_path) ->
                    is_Some (files w1 !! save_path))).
  { inversion Hends as
      [ e0 Hnet | r Hnet Hs | r Hnet Hs Ht Hl | r Hnet Hs Ht Hl Hf
      | r e0 Hnet Hs Ht Hf | r k e0 Hnet Hs Ht Hf
      | r Hnet Hs Ht Hf Hl Hr | r e0 Hnet Hs Ht Hf Hl Hr
      | r Hnet Hs Ht Hf Hl Hx | r Hnet Hs Ht Hf Hl Hp
      | r Hnet Hs Ht Hf Hl Hp ]; subst res1 w1;
      (destruct H as [H | (r' & f & Hnet' & Hs' & Ht' & Hf' & <-)];
       [ rewrite Hnet in H; first [discriminate H | injection H as <-]
       | rewrite Hnet in Hnet';
         first [ discriminate Hnet'
               | injection Hnet' as <-;
                 first [ congruence
                       | rewrite Hf in Hf'; first [discriminate Hf' | injection Hf' as <-]
                       | exfalso; destruct Ht'; first [congruence | lia] ] ] ]);
      unfold sent, stored; cbn [files fault_message];
      rewrite ?delete_insert_eq, ?lookup_insert_eq; by eauto. }
  destruct Hraise as (-> & Hdel & Hstay).
  destruct (remove_handler_fault (rmf (length (trace w)))) as [e'|] eqn:Hfault.
  - exists w1. rewrite download_pdf_rm_unfold, Hbody.
    rewrite (cleanup_fault _ _ _ e') by exact Hfault. auto.
  - rewrite download_pdf_rm_unfold, Hbody.
    rewrite cleanup_no_fault by exact Hfault.
    rewrite Hdel, Htrace. split; [reflexivity | apply lookup_delete_eq].
Qed.

Lemma failed_fetch_cleanup_witness :
  (net offline (length (trace stale)) (download_request (PStr sample_link))
   = Raised "ConnectionError" \/
   (exists r f,
      net offline (length (trace stale)) (download_request (PStr sample_link))
      = Responded r /\
      status_code r = 200%Z /\
      (type_allowed r = true \/ 1000 < String.length (content r)) /\
      write_fault (disk offline (length (trace stale))) = Some f /\
      fault_message f = "ConnectionError")) /\
  files stale !! "pdfs/a.pdf" = Some "old" /\
  (download_pdf_rm offline (fun _ => no_remove_faults) (PStr sample_link)
     "pdfs/a.pdf" stale
   = (Ok (false, "Download error: ConnectionError"),
      {| files := delete "pdfs/a.pdf" (files stale);
         trace := trace stale ++ [download_request (PStr sample_link)] |}) /\
   delete "pdfs/a.pdf" (files stale) !! "pdfs/a.pdf" = None) /\
  (exists w',
     download_pdf_rm offline (remove_fails "IsADirectoryError")
       (PStr sample_link) "pdfs/a.pdf" stale
     = (if bool_decide (is_Some (files w' !! "pdfs/a.pdf"))
        then Raise "IsADirectoryError"
        else Ok (false, "Download error: ConnectionError"), w') /\
     trace w' = trace stale ++ [download_request (PStr sample_link)] /\
     (forall p, p <> "pdfs/a.pdf" -> files w' !! p = files stale !! p) /\
     (is_Some (files stale !! "pdfs/a.pdf") -> is_Some (files w' !! "pdfs/a.pdf"))).
Proof.
  assert (H : net offline (length (trace stale))
                (download_request (PStr sample_link))
              = Raised "ConnectionError" \/
              (exists r f,
                 net offline (length (trace stale))
                   (download_request (PStr sample_link))
                 = Responded r /\
                 status_code r = 200%Z /\
                 (type_allowed r = true \/ 1000 < String.length (content r)) /\
                 write_fault (disk offline (length (trace stale))) = Some f /\
                 fault_message f = "ConnectionError")) by (left; reflexivity).
  exact (conj H (conj eq_refl (conj
           (failed_fetch_cleanup offline (fun _ => no_remove_faults)
              (PStr sample_link) "pdfs/a.pdf" stale "ConnectionError" H)
           (failed_fetch_cleanup offline (remove_fails "IsADirectoryError")
              (PStr sample_link) "pdfs/a.pdf" stale "ConnectionError" H)))).
Defined.

(** X16: on a 200 response with an accepted content type and a disk
    without faults, the call succeeds exactly when the body has at
    least 1000 bytes and starts with [%PDF]; the file at the path is
    then the body, byte for byte.  Otherwise no file is left there, and
    the message says [Downloaded file too small] for a body under 1000
    bytes and [Not a valid PDF file] for the others. *)
Theorem validation_decides_by_size_and_signature env url save_path w r :
  net env (length (trace w)) (download_request url) = Responded r ->
  status_code r = 200%Z ->
  type_allowed r = true ->
  disk env (length (trace w)) = no_faults ->
  let valid :=
    (1000 <=? String.length (content r)) && Py.startswith "%PDF" (content r) in
  exists w',
    download_pdf env url save_path w
    = (Ok (valid,
           if valid then "Successfully downloaded"
           else if String.length (content r) <? 1000
                then "Downloaded file too small"
                else "Not a valid PDF file"),
       w') /\
    files w' !! save_path = (if valid then Some (content r) else None).
Proof.
  intros Hnet Hs Ht Hd valid. subst valid.
  assert (Hw : write_fault (disk env (length (trace w))) = None) by by rewrite Hd.
  assert (Hr : sig_read_fault (disk env (length (trace w))) = false)
    by by rewrite Hd.
  assert (Hx : remove_open_fault (disk env (length (trace w))) = false)
    by by rewrite Hd.
  destruct (1000 <=? String.length (content r)) eqn:Hlen; cbn [andb].
  - apply Nat.leb_le in Hlen.
    assert (Hlt : (String.length (content r) <? 1000) = false)
      by (apply Nat.ltb_ge; lia).
    destruct (Py.startswith "%PDF" (content r)) eqn:Hp.
    + eexists. split.
      * apply (download_pdf_valid env url save_path w r); try done.
        by rewrite prefix_take4.
      * unfold stored. cbn [files]. apply lookup_insert_eq.
    + rewrite Hlt. eexists. split.
      * apply (download_pdf_invalid env url save_path w r); try done.
        by rewrite prefix_take4.
      * unfold cleaned. cbn [files]. apply lookup_delete_eq.
  - apply Nat.leb_gt in Hlen.
    assert (Hlt : (String.length (content r) <? 1000) = true)
      by (apply Nat.ltb_lt; lia).
    rewrite Hlt. eexists. split.
    + by apply (download_pdf_too_small env url save_path w r).
    + unfold cleaned. cbn [files]. apply lookup_delete_eq.
Qed.

Lemma validation_decides_by_size_and_signature_witness :
  net (answering good_pdf) (length (trace fresh))
    (download_request (PStr sample_link))
  = Responded good_pdf /\
  status_code good_pdf = 200%Z /\
  type_allowed good_pdf = true /\
  disk (answering good_pdf) (length (trace fresh)) = no_faults /\
  exists w',
    download_pdf (answering good_pdf) (PStr sample_link) "pdfs/a.pdf" fresh
    = (Ok (true, "Successfully downloaded"), w') /\
    files w' !! "pdfs/a.pdf" = Some (content good_pdf).
Proof.
  exact (conj eq_refl (conj eq_refl (conj eq_refl (conj eq_refl
           (validation_decides_by_size_and_signature (answering good_pdf)
              (PStr sample_link) "pdfs/a.pdf" fresh good_pdf
              eq_refl eq_refl eq_refl eq_refl))))).
Defined.

(** X17: the signature check is advisory.  Once a body of at least 1000
    bytes is on disk, a failure to read its first bytes, or a failure to
    remove the file that turned out not to start with [%PDF], makes the
    call return success with the message
    [Successfully downloaded (signature check failed)], and the file
    stays, whatever it holds. *)
Theorem unchecked_signature_keeps_file env url save_path w r :
  net env (length (trace w)) (download_request url) = Responded r ->
  status_code r = 200%Z ->
  type_allowed r = true ->
  write_fault (disk env (length (trace w))) = None ->
  1000 <= String.length (content r) ->
  sig_read_fault (disk env (length (trace w))) = true \/
  (sig_read_fault (disk env (length (trace w))) = false /\
   Py.startswith "%PDF" (content r) = false /\
   remove_open_fault (disk env (length (trace w))) = true) ->
  exists w',
    download_pdf env url save_path w
    = (Ok (true, "Successfully downloaded (signature check failed)"), w') /\
    files w' !! save_path = Some (content r).
Proof.
  intros Hnet Hs Ht Hw Hlen Hfault. eexists. split.
  - destruct Hfault as [Hr | (Hr & Hp & Hx)].
    + by apply (download_pdf_sig_unread env url save_path w r).
    + apply (download_pdf_sig_kept env url save_path w r); try done.
      by rewrite prefix_take4.
  - unfold stored. cbn [files]. apply lookup_insert_eq.
Qed.

(** A disk on which the downloaded file cannot be read back. *)
Definition unreadable_disk (r : Response) : Env :=
  {| net := fun _ _ => Responded r;
     disk := fun _ => {| write_fault := None; sig_read_fault := true;
                         remove_open_fault := false |} |}.

Lemma unchecked_signature_keeps_file_witness :
  net (unreadable_disk bad_pdf) (length (trace fresh))
    (download_request (PStr sample_link))
  = Responded bad_pdf /\
  status_code bad_pdf = 200%Z /\
  type_allowed bad_pdf = true /\
  write_fault (disk (unreadable_disk bad_pdf) (length (trace fresh))) = None /\
  1000 <= String.length (content bad_pdf) /\
  (sig_read_fault (disk (unreadable_disk bad_pdf) (length (trace fresh))) = true \/
   (sig_read_fault (disk (unreadable_disk bad_pdf) (length (trace fresh))) = false /\
    Py.startswith "%PDF" (content bad_pdf) = false /\
    remove_open_fault (disk (unreadable_disk bad_pdf) (length (trace fresh)))
    = true)) /\
  Py.startswith "%PDF" (content bad_pdf) = false /\
  exists w',
    download_pdf (unreadable_disk bad_pdf) (PStr sample_link) "pdfs/a.pdf" fresh
    = (Ok (true, "Successfully downloaded (signature check failed)"), w') /\
    files w' !! "pdfs/a.pdf" = Some (content bad_pdf).
Proof.
  assert (Hlen : 1000 <= String.length (content bad_pdf)).
  { change (content bad_pdf) with (padding 1500). rewrite length_padding. lia. }
  assert (Hf : sig_read_fault (disk (unreadable_disk bad_pdf)
                                 (length (trace fresh))) = true \/
               (sig_read_fault (disk (unreadable_disk bad_pdf)
                                  (length (trace fresh))) = false /\
                Py.startswith "%PDF" (content bad_pdf) = false /\
                remove_open_fault (disk (unreadable_disk bad_pdf)
                                     (length (trace fresh))) = true))
    by (left; reflexivity).
  exact (conj eq_refl (conj eq_refl (conj eq_refl (conj eq_refl
           (conj Hlen (conj Hf (conj eq_refl
              (unchecked_signature_keeps_file (unreadable_disk bad_pdf)
                 (PStr sample_link) "pdfs/a.pdf" fresh bad_pdf
                 eq_refl eq_refl eq_refl eq_refl Hlen Hf)))))))).
Defined.

Lemma length_take n s : String.length (Py.take n s) = Nat.min n (String.length s).
Proof.
  revert s. induction n as [|n IH]; intros [|c s]; try reflexivity.
  change (S (String.length (Py.take n s)) = S (Nat.min n (String.length s))).
  by rewrite IH.
Qed.

Lemma slices_bounded fuel n s :
  0 < n ->
  Forall (fun chunk => 0 < String.length chunk <= n) (slices fuel n s).
Proof.
  intros Hn. revert s. induction fuel as [|fuel IH]; intros s; [constructor |].
  destruct s as [|c s]; [constructor |].
  change (slices (S fuel) n (String c s))
    with (Py.take n (String c s) :: slices fuel n (Py.drop n (String c s))).
  constructor; [|apply IH].
  rewrite length_take. simpl String.length. lia.
Qed.

(** X18: for a chunk size above zero, the chunks the download loop
    iterates over are non-empty, no longer than the chunk size, and
    joined in order they are the body: streaming in slices writes the
    same bytes as one write. *)
Theorem iter_content_splits_body chunk_size body :
  0 < chunk_size ->
  String.concat "" (iter_content chunk_size body) = body /\
  Forall (fun chunk => 0 < String.length chunk <= chunk_size)
         (iter_content chunk_size body) /\
  filter (fun chunk => Py.nonempty chunk = true) (iter_content chunk_size body)
  = iter_content chunk_size body.
Proof.
  intros Hn. unfold iter_content. split; [by apply slices_concat |].
  pose proof (slices_bounded (String.length body) chunk_size body Hn) as Hb.
  split; [exact Hb |].
  induction Hb as [|x l Hx _ IH]; [done |].
  rewrite filter_cons_True.
  - by rewrite IH.
  - destruct x; [simpl in Hx; lia | done].
Qed.

Lemma iter_content_splits_body_witness :
  0 < 4 /\
  iter_content 4 "%PDF-1.4 x" = ["%PDF"; "-1.4"; " x"] /\
  String.concat "" (iter_content 4 "%PDF-1.4 x") = "%PDF-1.4 x" /\
  Forall (fun chunk => 0 < String.length chunk <= 4) (iter_content 4 "%PDF-1.4 x") /\
  filter (fun chunk => Py.nonempty chunk = true) (iter_content 4 "%PDF-1.4 x")
  = iter_content 4 "%PDF-1.4 x".
Proof.
  assert (H : 0 < 4) by lia.
  exact (conj H (conj eq_refl (iter_content_splits_body 4 "%PDF-1.4 x" H))).
Defined.

(** ** File names *)


Lemma replace_char_app a b s t :
  Py.replace_char a b (s +:+ t) = Py.replace_char a b s +:+ Py.replace_char a b t.
Proof.
  induction s as [|c s IH]; [done |].
  change (String (if Ascii.eqb c a then b else c) (Py.replace_char a b (s +:+ t))
          = String (if Ascii.eqb c a then b else c)
              (Py.replace_char a b s +:+ Py.replace_char a b t)).
  by rewrite IH.
Qed.




Lemma str_app_cancel (a b c : string) : a +:+ b = a +:+ c -> b = c.
Proof.
  induction a as [|x a IH]; [done |].
  change (String x (a +:+ b) = String x (a +:+ c) -> b = c).
  intros [= H]. by apply IH.
Qed.

(** X20: the file name does not tell [/] from [_]: two different DOIs
    that differ only in that are saved to the same file. *)
Theorem filenames_collide a b :
  a +:+ "/" +:+ b <> a +:+ "_" +:+ b /\
  filename (a +:+ "/" +:+ b) = filename (a +:+ "_" +:+ b).
Proof.
  split.
  - intros H. apply str_app_cancel in H. discriminate H.
  - unfold filename. by rewrite !replace_char_app.
Qed.

(** ** Rows and requests of one reference *)

Section ReferenceRuns.

Variable env : Env.

(** How [resolve] ends: the lookups it made, and the row it leaves. *)
Lemma resolve_cases doi pdf_link result w :
  exists pdf_url result' w1 lookups,
    resolve env doi pdf_link result w = (Ok (pdf_url, result'), w1) /\
    files w1 = files w /\
    trace w1 = trace w ++ lookups /\
    (lookups = [unpaywall_request doi] \/
     lookups = [unpaywall_request doi; pubmed_request doi]) /\
    (truthy pdf_url = true /\
     (exists source,
        source ∈ ["Unpaywall"; "PubMed"; "Excel Link"] /\
        result' = set_found source result)
     \/ truthy pdf_url = false /\ result' = result).
Proof.
  destruct (search_unpaywall_total env doi w) as (v1 & H1 & Hv1).
  destruct (truthy v1) eqn:T1.
  { rewrite (resolve_unpaywall env doi pdf_link result w _ _ H1 T1).
    eexists _, _, _, _. split; [reflexivity |]. split; [reflexivity |].
    split; [reflexivity |]. split; [by left |]. left. split; [done |].
    exists "Unpaywall". split; [repeat constructor | done]. }
  destruct (search_pubmed_total env doi (sent (unpaywall_request doi) w))
    as (v2 & H2 & Hv2).
  assert (Htr : trace (sent (pubmed_request doi) (sent (unpaywall_request doi) w))
                = trace w ++ [unpaywall_request doi; pubmed_request doi]).
  { unfold sent. cbn [trace]. by rewrite <- List.app_assoc. }
  destruct (truthy v2) eqn:T2.
  { rewrite (resolve_pubmed env doi pdf_link result w _ _ _ _ H1 T1 H2 T2).
    eexists _, _, _, _. split; [reflexivity |]. split; [reflexivity |].
    split; [exact Htr |]. split; [by right |]. left. split; [done |].
    exists "PubMed". split; [repeat constructor | done]. }
  rewrite (resolve_fallback env doi pdf_link result w _ _ _ _ H1 T1 H2 T2).
  destruct (link_truthy pdf_link) eqn:Hl.
  - eexists _, _, _, _. split; [reflexivity |]. split; [reflexivity |].
    split; [exact Htr |]. split; [by right |]. left. split.
    + destruct pdf_link as [l|]; [exact Hl | done].
    + exists "Excel Link". split; [repeat constructor | done].
  - eexists _, _, _, _. split; [reflexivity |]. split; [reflexivity |].
    split; [exact Htr |]. split; [by right |]. right. done.
Qed.

(** How [process_reference] ends: after the lookups, either no URL and
    the row of lines 252-255, or one call of [download_pdf] and the row
    of lines 243-246. *)
Lemma process_reference_cases doi pdf_link w :
  exists pdf_url result w1 lookups,
    resolve env doi pdf_link (initial_row doi) w = (Ok (pdf_url, result), w1) /\
    files w1 = files w /\
    trace w1 = trace w ++ lookups /\
    (lookups = [unpaywall_request doi] \/
     lookups = [unpaywall_request doi; pubmed_request doi]) /\
    (truthy pdf_url = false /\ result = initial_row doi /\
     process_reference env (doi, pdf_link) w
     = (Ok (set_outcome "Failed" None (Some "No PDF URL found") result), w1)
     \/
     truthy pdf_url = true /\
     (exists source,
        source ∈ ["Unpaywall"; "PubMed"; "Excel Link"] /\
        result = set_found source (initial_row doi)) /\
     exists outcome w2,
       fetched env pdf_url (filename doi) w1 outcome w2 /\
       process_reference env (doi, pdf_link) w
       = (Ok (record_download doi outcome result), w2)).
Proof.
  destruct (resolve_cases doi pdf_link (initial_row doi) w)
    as (pdf_url & result & w1 & lookups & Hres & Hfiles & Htrace & Hl & Hcase).
  exists pdf_url, result, w1, lookups.
  split; [exact Hres |]. split; [exact Hfiles |]. split; [exact Htrace |].
  split; [exact Hl |].
  destruct Hcase as [[Ht Hsrc] | [Ht ->]].
  - right. split; [exact Ht |]. split; [exact Hsrc |].
    destruct (download_pdf_fetched env pdf_url (filename doi) w1)
      as (outcome & w2 & Hd & Hf).
    exists outcome, w2. split; [exact Hf |].
    exact (process_reference_download env doi pdf_link w pdf_url result w1
             outcome w2 Hres Ht Hd).
  - left. split; [exact Ht |]. split; [reflexivity |].
    unfold process_reference, bind, ret. rewrite Hres. cbv beta iota.
    by rewrite Ht.
Qed.

End ReferenceRuns.

(** What a finished row looks like: [PDF_Found] goes with a source, the
    source is one of the three tags, and the row is either a success
    with its file path and no message, or a failure with a message and
    no path; [No PDF URL found] is the message when nothing was found. *)
Definition consistent_row (row : Row) : Prop :=
  (PDF_Found row = true <-> Source row <> None) /\
  Source row ∈ [None; Some "Unpaywall"; Some "PubMed"; Some "Excel Link"] /\
  (Download_Status row = "Success" /\
   File_Path row = Some (filename (DOI row)) /\
   Error_Message row = None /\
   PDF_Found row = true
   \/
   Download_Status row = "Failed" /\
   File_Path row = None /\
   exists message,
     Error_Message row = Some message /\
     (PDF_Found row = false -> message = "No PDF URL found")).


Section RunInvariants.

Variable env : Env.

Lemma process_reference_consistent doi pdf_link w :
  exists row w',
    process_reference env (doi, pdf_link) w = (Ok row, w') /\
    DOI row = doi /\ consistent_row row.
Proof.
  destruct (process_reference_cases env doi pdf_link w)
    as (pdf_url & result & w1 & lookups & _ & _ & _ & _ & Hcase).
  destruct Hcase as [(_ & -> & Hrun) | (_ & (source & Hsrc & ->) & out & w2 & _ & Hrun)].
  - eexists _, _. split; [exact Hrun |]. split; [reflexivity |].
    split; [by split |]. split; [repeat constructor |].
    right. split; [done |]. split; [done |]. by eexists.
  - eexists _, _. split; [exact Hrun |]. destruct out as [ok msg].
    split; [by destruct ok |].
    split; [by destruct ok |]. split.
    + destruct ok; cbn;
        repeat (apply elem_of_cons in Hsrc as [-> | Hsrc];
                [repeat constructor |]);
        by apply elem_of_nil in Hsrc.
    + destruct ok; [left; done | right].
      split; [done |]. split; [done |]. by eexists.
Qed.


(** Whatever holds of every row, and of the worlds before and after
    every reference, holds of the report and of the whole run. *)
Lemma main_invariant (P : Row -> Prop) (R : World -> World -> Prop) xlsx w :
  (forall w0, R w0 w0) ->
  (forall a b c, R a b -> R b c -> R a c) ->
  (forall ref w0, exists row w',
      process_reference env ref w0 = (Ok row, w') /\ P row /\ R w0 w') ->
  exists rows w',
    main env xlsx w = (Ok rows, w') /\ Forall P rows /\ R w w'.
Proof.
  intros Hrefl Htrans Hstep. unfold main.
  destruct (add_test_doi (read_references xlsx)) as [references pdf_links].
  generalize (zip references pdf_links). clear references pdf_links.
  intros refs. revert w. induction refs as [|ref refs IH]; intros w.
  - exists [], w. split; [done |]. split; [constructor | apply Hrefl].
  - cbn [for_each]. unfold bind.
    destruct (Hstep ref w) as (row & w1 & -> & Hrow & Hw).
    destruct (IH w1) as (rows & w2 & -> & Hrows & Hw2).
    exists (row :: rows), w2. split; [reflexivity |].
    split; [by constructor | by eapply Htrans].
Qed.

End RunInvariants.

(** X21: every row of the report is consistent: its status is
    [Success] or [Failed], never [Not attempted]; a success has the
    file path of its DOI and no message, a failure has a message and no
    path; [PDF_Found] is set exactly when a source is, and the source
    is [Unpaywall], [PubMed] or [Excel Link]. *)
Theorem report_rows_are_consistent env xlsx w :
  exists rows w',
    main env xlsx w = (Ok rows, w') /\ Forall consistent_row rows.
Proof.
  destruct (main_invariant env consistent_row (fun _ _ => True) xlsx w)
    as (rows & w' & Hmain & Hrows & _); [done | done | | by exists rows, w'].
  intros [doi pdf_link] w0.
  destruct (process_reference_consistent env doi pdf_link w0)
    as (row & w' & Hrun & _ & Hrow).
  by exists row, w'.
Qed.


(** X23: one reference costs at most three requests: the one to
    Service A always and first, the one to Service B if Service A found
    nothing, and one download exactly when a URL was found; a reference
    with no URL leaves the files as they were. *)
Theorem reference_costs_at_most_three_requests env doi pdf_link w :
  exists row w' lookups downloads,
    process_reference env (doi, pdf_link) w = (Ok row, w') /\
    trace w' = trace w ++ lookups ++ downloads /\
    (lookups = [unpaywall_request doi] \/
     lookups = [unpaywall_request doi; pubmed_request doi]) /\
    (PDF_Found row = true /\
     (exists url, downloads = [download_request url])
     \/
     PDF_Found row = false /\ downloads = [] /\ files w' = files w).
Proof.
  destruct (process_reference_cases env doi pdf_link w)
    as (pdf_url & result & w1 & lookups & _ & Hfiles & Htrace & Hl & Hcase).
  destruct Hcase as [(_ & -> & Hrun) | (_ & (source & _ & ->) & out & w2 & Hf & Hrun)].
  - exists (set_outcome "Failed" None (Some "No PDF URL found") (initial_row doi)),
      w1, lookups, [].
    split; [exact Hrun |]. split; [by rewrite List.app_nil_r |].
    split; [exact Hl |]. right. done.
  - exists (record_download doi out (set_found source (initial_row doi))),
      w2, lookups, [download_request pdf_url].
    split; [exact Hrun |]. split.
    { rewrite (fetched_trace env _ _ _ _ _ Hf), Htrace.
      by rewrite <- List.app_assoc. }
    split; [exact Hl |]. left. split; [by destruct out as [[] ?] | by eexists].
Qed.

(** X24: a URL from Service B is used even when the sheet gave a
    fallback link: the link only serves when both services find
    nothing. *)
Theorem pubmed_beats_fallback_link env doi link w v1 w1 v2 w2 :
  search_unpaywall env doi w = (Ok v1, w1) -> truthy v1 = false ->
  search_pubmed env doi w1 = (Ok v2, w2) -> truthy v2 = true ->
  resolve env doi (Some link) (initial_row doi) w
  = (Ok (v2, set_found "PubMed" (initial_row doi)), w2) /\
  exists outcome w3,
    download_pdf env v2 (filename doi) w2 = (Ok outcome, w3) /\
    process_reference env (doi, Some link) w
    = (Ok (record_download doi outcome (set_found "PubMed" (initial_row doi))),
       w3) /\
    Source (record_download doi outcome (set_found "PubMed" (initial_row doi)))
    = Some "PubMed".
Proof.
  intros H1 Hv1 H2 Hv2.
  pose proof (resolve_pubmed env doi (Some link) (initial_row doi) w
                v1 w1 v2 w2 H1 Hv1 H2 Hv2) as Hres.
  split; [exact Hres |].
  destruct (download_pdf_total env v2 (filename doi) w2)
    as ([ok msg] & w3 & Hd & _).
  exists (ok, msg), w3. split; [exact Hd |]. split; [|by destruct ok].
  exact (process_reference_download env doi (Some link) w v2 _ w2 _ w3
           Hres Hv2 Hd).
Qed.

(** Service A answers 404, Service B names a link without [.pdf]. *)
Definition pubmed_only : Env :=
  {| net := fun n _ =>
       match n with
       | 1 => Responded (json_reply (PDict [("pdf_url", PStr "http://x/y")]))
       | _ => Responded not_found_page
       end;
     disk := fun _ => no_faults |}.

Lemma pubmed_beats_fallback_link_witness :
  search_unpaywall pubmed_only sample_doi fresh
  = (Ok PNone, sent (unpaywall_request sample_doi) fresh) /\
  truthy PNone = false /\
  search_pubmed pubmed_only sample_doi (sent (unpaywall_request sample_doi) fresh)
  = (Ok (PStr "http://x/y.pdf"), looked_up) /\
  truthy (PStr "http://x/y.pdf") = true /\
  resolve pubmed_only sample_doi (Some sample_link) (initial_row sample_doi) fresh
  = (Ok (PStr "http://x/y.pdf", set_found "PubMed" (initial_row sample_doi)),
     looked_up).
Proof.
  exact (conj eq_refl (conj eq_refl (conj eq_refl (conj eq_refl
           (proj1 (pubmed_beats_fallback_link pubmed_only sample_doi sample_link
                     fresh _ _ _ _ eq_refl eq_refl eq_refl eq_refl)))))).
Defined.

(** X25: when the row of a reference says [Success], the file named in
    the row is on disk right after the reference is processed, with at
    least 1000 bytes. *)
Theorem success_row_has_file env doi pdf_link w row w' :
  process_reference env (doi, pdf_link) w = (Ok row, w') ->
  Download_Status row = "Success" ->
  File_Path row = Some (filename doi) /\
  exists data,
    files w' !! filename doi = Some data /\ 1000 <= String.length data.
Proof.
  intros Hrun Hstatus.
  destruct (process_reference_cases env doi pdf_link w)
    as (pdf_url & result & w1 & lookups & _ & _ & _ & _ & Hcase).
  destruct Hcase as [(_ & -> & Hrun') | (_ & (source & _ & ->) & out & w2 & Hf & Hrun')];
    rewrite Hrun' in Hrun; injection Hrun as <- <-; [discriminate Hstatus |].
  destruct out as [ok msg]. destruct ok; [|discriminate Hstatus].
  split; [reflexivity |].
  inversion Hf; subst; unfold stored; cbn [files]; rewrite lookup_insert_eq;
    eexists; (split; [reflexivity | lia]).
Qed.

(** Service A names a link, and the download returns a PDF. *)
Definition unpaywall_then_pdf : Env :=
  {| net := fun n _ =>
       match n with
       | 0 => Responded (json_reply open_access_record)
       | _ => Responded good_pdf
       end;
     disk := fun _ => no_faults |}.

Definition success_row : Row :=
  {| DOI := sample_doi; PDF_Found := true; Source := Some "Unpaywall";
     Download_Status := "Success";
     File_Path := Some "pdfs/10.1234_abc.pdf"; Error_Message := None |}.

Lemma success_row_has_file_witness :
  process_reference unpaywall_then_pdf (sample_doi, None) fresh
  = (Ok success_row,
     stored (filename sample_doi) (content good_pdf)
       (download_request (PStr "http://x/y.pdf"))
       (sent (unpaywall_request sample_doi) fresh)) /\
  Download_Status success_row = "Success" /\
  File_Path success_row = Some (filename sample_doi) /\
  exists data,
    files (stored (filename sample_doi) (content good_pdf)
             (download_request (PStr "http://x/y.pdf"))
             (sent (unpaywall_request sample_doi) fresh))
    !! filename sample_doi = Some data /\
    1000 <= String.length data.
Proof.
  assert (H : process_reference unpaywall_then_pdf (sample_doi, None) fresh
              = (Ok success_row,
                 stored (filename sample_doi) (content good_pdf)
                   (download_request (PStr "http://x/y.pdf"))
                   (sent (unpaywall_request sample_doi) fresh))).
  { apply (process_reference_download unpaywall_then_pdf sample_doi None fresh
             (PStr "http://x/y.pdf")
             (set_found "Unpaywall" (initial_row sample_doi))
             (sent (unpaywall_request sample_doi) fresh)
             (true, msg_success)); [reflexivity | reflexivity |].
    apply (download_pdf_valid unpaywall_then_pdf (PStr "http://x/y.pdf")
             (filename sample_doi) (sent (unpaywall_request sample_doi) fresh)
             good_pdf); try reflexivity.
    change (content good_pdf) with ("%PDF-1.4" +:+ padding 1500).
    rewrite str_length_app, length_padding. simpl. lia. }
  exact (conj H (conj eq_refl
           (success_row_has_file unpaywall_then_pdf sample_doi None fresh _ _
              H eq_refl))).
Defined.

(** ** The summary, lines 259-277 *)

(** Lines 260 and 268-272: the three numbers printed at the end.
    [pd.DataFrame([])] has no column, so that reading
    [Download_Status] of an empty report raises; [sum] adds the
    booleans of the comparison, and of its negation, as 0 and 1. *)
Definition summary (results : list Row) : result (nat * nat * nat) :=
  match results with
  | [] => Raise "KeyError"
  | _ =>
      let successful :=
        map (fun row => String.eqb (Download_Status row) "Success") results in
      Ok (length results,
          sum_list (map Nat.b2n successful),
          sum_list (map Nat.b2n (map negb successful)))
  end.

(** [main] to its end: the report, then the summary. *)
Definition main_summary (env : Env) (xlsx : option DataFrame)
  : M (list Row * (nat * nat * nat)) :=
  results <~ main env xlsx ;;
  counts <~ lift (summary results) ;;
  ret (results, counts).

Lemma summary_of_consistent_rows rows :
  Forall consistent_row rows ->
  sum_list (map Nat.b2n
              (map (fun row => String.eqb (Download_Status row) "Success") rows))
  = length (filter (fun row => Download_Status row = "Success") rows) /\
  sum_list (map Nat.b2n
              (map negb
                 (map (fun row => String.eqb (Download_Status row) "Success") rows)))
  = length (filter (fun row => Download_Status row = "Failed") rows).
Proof.
  induction 1 as [|row rows Hrow _ [IH1 IH2]]; [done |].
  cbn [map sum_list]. rewrite IH1, IH2.
  destruct Hrow as (_ & _ & [(Hs & _) | (Hs & _)]).
  - rewrite (filter_cons_True (fun row => Download_Status row = "Success"))
      by done.
    rewrite (filter_cons_False (fun row => Download_Status row = "Failed"))
      by (rewrite Hs; done).
    rewrite Hs. done.
  - rewrite (filter_cons_False (fun row => Download_Status row = "Success"))
      by (rewrite Hs; done).
    rewrite (filter_cons_True (fun row => Download_Status row = "Failed"))
      by done.
    rewrite Hs. done.
Qed.

(** X26: the summary never fails: the report is never empty, since the
    test DOI is always processed, so the column the summary reads is
    there.  The three numbers are the number of rows, the number of
    rows with status [Success] and the number with status [Failed], and
    the last two add up to the first. *)
Theorem summary_counts_add_up env xlsx w :
  exists rows total successes failures w',
    main_summary env xlsx w = (Ok (rows, (total, successes, failures)), w') /\
    main env xlsx w = (Ok rows, w') /\
    0 < total /\
    total = length rows /\
    successes = length (filter (fun row => Download_Status row = "Success") rows) /\
    failures = length (filter (fun row => Download_Status row = "Failed") rows) /\
    successes + failures = total.
Proof.
  destruct (main_invariant env consistent_row (fun _ _ => True) xlsx w)
    as (rows & w' & Hmain & Hrows & _); [done | done | |].
  { intros [doi pdf_link] w0.
    destruct (process_reference_consistent env doi pdf_link w0)
      as (row & w1 & Hrun & _ & Hrow).
    by exists row, w1. }
  destruct (main_rows env xlsx w) as (rows' & w'' & Hmain' & Hdois).
  rewrite Hmain in Hmain'. injection Hmain' as <- <-.
  assert (Hne : 0 < length rows).
  { rewrite <- (length_fmap DOI), Hdois. unfold processed.
    case_decide as Hin.
    - destruct (read_references xlsx).1; [by apply elem_of_nil in Hin | simpl; lia].
    - rewrite length_app. simpl. lia. }
  destruct (summary_of_consistent_rows rows Hrows) as [Hs Hf].
  exists rows, (length rows),
    (length (filter (fun row => Download_Status row = "Success") rows)),
    (length (filter (fun row => Download_Status row = "Failed") rows)), w'.
  split.
  { unfold main_summary, bind, lift, ret. rewrite Hmain.
    rewrite <- Hs, <- Hf.
    destruct rows as [|row rows]; [simpl in Hne; lia | reflexivity]. }
  split; [exact Hmain |]. split; [exact Hne |]. split; [reflexivity |].
  split; [reflexivity |]. split; [reflexivity |].
  clear Hs Hf Hne Hmain Hdois.
  induction Hrows as [|row rows Hrow _ IH]; [done |].
  destruct Hrow as (_ & _ & [(Hs & _) | (Hs & _)]).
  - rewrite (filter_cons_True (fun row => Download_Status row = "Success"))
      by done.
    rewrite (filter_cons_False (fun row => Download_Status row = "Failed"))
      by (rewrite Hs; done).
    simpl. lia.
  - rewrite (filter_cons_False (fun row => Download_Status row = "Success"))
      by (rewrite Hs; done).
    rewrite (filter_cons_True (fun row => Download_Status row = "Failed"))
      by done.
    simpl. lia.
Qed.

(** ** Requests of a whole run *)

Section RunRequests.

Variable env : Env.

Lemma process_reference_requests ref w :
  exists row w' reqs,
    process_reference env ref w = (Ok row, w') /\
    trace w' = trace w ++ reqs /\
    1 <= length reqs <= 3.
Proof.
  destruct ref as [doi pdf_link].
  destruct (process_reference_cases env doi pdf_link w)
    as (pdf_url & result & w1 & lookups & _ & _ & Htrace & Hl & Hcase).
  destruct Hcase as [(_ & _ & Hrun) | (_ & _ & out & w2 & Hf & Hrun)].
  - exists (set_outcome "Failed" None (Some "No PDF URL found") result), w1, lookups.
    split; [exact Hrun |]. split; [exact Htrace |].
    destruct Hl as [-> | ->]; simpl; lia.
  - exists (record_download doi out result), w2,
      (lookups ++ [download_request pdf_url]).
    split; [exact Hrun |]. split.
    { rewrite (fetched_trace env _ _ _ _ _ Hf), Htrace.
      by rewrite <- List.app_assoc. }
    rewrite length_app. destruct Hl as [-> | ->]; simpl; lia.
Qed.

Lemma for_each_requests (refs : list (string * option string)) w :
  exists rows w' reqs,
    for_each refs (process_reference env) w = (Ok rows, w') /\
    length rows = length refs /\
    trace w' = trace w ++ reqs /\
    length refs <= length reqs <= 3 * length refs.
Proof.
  revert w. induction refs as [|ref refs IH]; intros w.
  - exists [], w, []. split; [done |]. split; [done |].
    split; [by rewrite List.app_nil_r | simpl; lia].
  - cbn [for_each]. unfold bind.
    destruct (process_reference_requests ref w) as (row & w1 & r1 & -> & Ht1 & Hl1).
    destruct (IH w1) as (rows & w2 & r2 & -> & Hlen & Ht2 & Hl2).
    exists (row :: rows), w2, (r1 ++ r2). split; [reflexivity |].
    split; [simpl; by rewrite Hlen |]. split.
    + by rewrite Ht2, Ht1, <- List.app_assoc.
    + rewrite length_app. simpl. lia.
Qed.

End RunRequests.

(** X27: a run issues at least one request and at most three for every
    row of its report, and no request of an earlier run or reference is
    dropped from the trace. *)
Theorem run_request_budget env xlsx w :
  exists rows w' reqs,
    main env xlsx w = (Ok rows, w') /\
    trace w' = trace w ++ reqs /\
    length rows <= length reqs <= 3 * length rows.
Proof.
  unfold main.
  destruct (add_test_doi (read_references xlsx)) as [references pdf_links].
  destruct (for_each_requests env (zip references pdf_links) w)
    as (rows & w' & reqs & Hrun & Hlen & Htrace & Hbound).
  exists rows, w', reqs. split; [exact Hrun |]. split; [exact Htrace |].
  by rewrite Hlen.
Qed.

(** X28: a reference that comes with a fallback link always gets a
    download attempt: its row has [PDF_Found] set, and the last request
    made for it is a download. *)
Theorem fallback_link_guarantees_attempt env doi link w :
  Py.nonempty link = true ->
  exists row w' url,
    process_reference env (doi, Some link) w = (Ok row, w') /\
    PDF_Found row = true /\
    Source row <> None /\
    last (trace w') = Some (download_request url).
Proof.
  intros Hlink.
  destruct (process_reference_cases env doi (Some link) w)
    as (pdf_url & result & w1 & lookups & Hres & _ & _ & _ & Hcase).
  destruct Hcase as [(Ht & _ & _) | (_ & (source & _ & ->) & out & w2 & Hf & Hrun)].
  - exfalso.
    destruct (search_unpaywall_total env doi w) as (v1 & H1 & _).
    destruct (truthy v1) eqn:T1.
    { rewrite (resolve_unpaywall env doi _ _ w _ _ H1 T1) in Hres.
      injection Hres as <- _ _. congruence. }
    destruct (search_pubmed_total env doi (sent (unpaywall_request doi) w))
      as (v2 & H2 & _).
    destruct (truthy v2) eqn:T2.
    { rewrite (resolve_pubmed env doi _ _ w _ _ _ _ H1 T1 H2 T2) in Hres.
      injection Hres as <- _ _. congruence. }
    rewrite (resolve_fallback env doi _ _ w _ _ _ _ H1 T1 H2 T2) in Hres.
    cbn [link_truthy link_value] in Hres. rewrite Hlink in Hres.
    injection Hres as <- _ _. cbn [truthy] in Ht. congruence.
  - exists (record_download doi out (set_found source (initial_row doi))),
      w2, pdf_url.
    split; [exact Hrun |]. destruct out as [ok msg].
    split; [by destruct ok |]. split; [by destruct ok |].
    rewrite (fetched_trace env _ _ _ _ _ Hf). apply last_snoc.
Qed.

Lemma fallback_link_guarantees_attempt_witness :
  Py.nonempty sample_link = true /\
  exists row w' url,
    process_reference offline (sample_doi, Some sample_link) fresh = (Ok row, w') /\
    PDF_Found row = true /\
    Source row <> None /\
    last (trace w') = Some (download_request url).
Proof.
  exact (conj eq_refl
           (fallback_link_guarantees_attempt offline sample_doi sample_link fresh
              eq_refl)).
Defined.
